(** * xedu-client: the Jupyter process supervisors, embedded in Rocq

    The repository holds two supervisors for one notebook-server child:
    - [Service.JupyterManager]  (src/backend/services/jupyter_service.py),
      configured by [Config.JupyterConfig] (src/backend/models/config.py)
      and driven over HTTP by [BackendApi] (backend_api.py);
    - [WebApp.JupyterManager]   (src-tauri/resources/web_app.py) with its
      own HTTP handlers.

    Both are embedded as state-passing programs over an explicit operating
    system ([Os.World]): every call that leaves the Python process (a
    signal, a poll, a TCP connect, a spawn, a pipe read) takes its outcome
    from a script held by the world, so a statement quantified over worlds
    holds whatever the operating system answers.  Spawns, signals and log
    lines of interest are recorded in the world's event trace. *)

From Stdlib Require Import ZArith Ascii String List Lia Bool.
From stdpp Require Import base strings gmap list pretty.

Open Scope string_scope.
Open Scope list_scope.
Open Scope stdpp_scope.

(** ** Python values, exceptions and string helpers *)

Module Py.

(** A JSON value as the handlers receive it.  Floats, arrays and nested
    objects are never inspected by the modelled code beyond their truth
    value, which [POther] records. *)
Inductive pyval : Type :=
  | PNone
  | PBool (b : bool)
  | PInt (z : Z)
  | PStr (s : string)
  | PEnv (e : list (string * string))
  | POther (truth : bool).

Global Instance pyval_eq_dec : EqDecision pyval.
Proof. solve_decision. Defined.

(** Python truthiness, as used by [if x:] and [x or y]. *)
Definition truthy (v : pyval) : bool :=
  match v with
  | PNone => false
  | PBool b => b
  | PInt z => negb (z =? 0)%Z
  | PStr s => negb (String.eqb s EmptyString)
  | PEnv e => match e with [] => false | _ => true end
  | POther t => t
  end.

Definition str_truthy (s : string) : bool := negb (String.eqb s EmptyString).

(** [a or b] on strings. *)
Definition str_or (a b : string) : string := if str_truthy a then a else b.

Inductive exn : Type :=
  | TypeError (msg : string)
  | OSError (msg : string)
  | RuntimeError (msg : string).

Definition exn_str (e : exn) : string :=
  match e with TypeError m | OSError m | RuntimeError m => m end.

(** The result of a call that may raise.  [Unmodelled] marks a run that
    leaves the typed fragment: a dataclass field would hold a value whose
    dynamic type is not the annotated one. *)
Inductive outcome (A : Type) : Type :=
  | Returns (a : A)
  | Raises (e : exn)
  | Unmodelled.
Global Arguments Returns {A} a.
Global Arguments Raises {A} e.
Global Arguments Unmodelled {A}.

(** [str.lower()] on the ASCII letters; a character is one byte here, so
    the model is exact for ASCII text and leaves other bytes alone. *)
Definition lower_ascii (c : ascii) : ascii :=
  let n := nat_of_ascii c in
  if (65 <=? n)%nat && (n <=? 90)%nat then ascii_of_nat (n + 32) else c.

Fixpoint lower (s : string) : string :=
  match s with
  | EmptyString => EmptyString
  | String c r => String (lower_ascii c) (lower r)
  end.

(** [needle in hay] for strings. *)
Fixpoint str_in (needle hay : string) : bool :=
  String.prefix needle hay ||
  match hay with
  | EmptyString => false
  | String _ r => str_in needle r
  end.

(** [any(keyword in text for keyword in keywords)] *)
Definition any_in (keywords : list string) (text : string) : bool :=
  existsb (fun keyword => str_in keyword text) keywords.

(** [s[:n]], also the result of [read(n)] on a stream holding [s]. *)
Definition take_str (n : nat) (s : string) : string := String.substring 0 n s.

(** [sep.join(parts)] and [s.split()] on blanks. *)
Definition join (sep : string) (parts : list string) : string :=
  String.concat sep parts.

Definition is_blank (c : ascii) : bool :=
  let n := nat_of_ascii c in
  (n =? 32)%nat || ((9 <=? n)%nat && (n <=? 13)%nat).

Fixpoint split_go (cur : string) (s : string) : list string :=
  match s with
  | EmptyString => if str_truthy cur then [cur] else []
  | String c r =>
      if is_blank c
      then (if str_truthy cur then [cur] else []) ++ split_go EmptyString r
      else split_go (cur +:+ String c EmptyString) r
  end.

Definition split (s : string) : list string := split_go EmptyString s.

End Py.
Export Py.

(** ** The operating system *)

Module Os.

Inductive FileKind : Type := Missing | RegularFile | Directory | Special.

Global Instance FileKind_eq_dec : EqDecision FileKind.
Proof. solve_decision. Defined.

(** What [pathlib], [sys] and [platform] answer.  The file system does not
    change while a request is served. *)
Record Platform : Type := {
  kind : string -> FileKind;
  expanduser : string -> string;
  resolve : string -> string;
  (** [Path(p).relative_to(Path(base)).as_posix()], [None] for ValueError *)
  relative_to : string -> string -> option string;
  cwd : string;
  sys_executable : string;
  is_windows : bool;
}.

Definition path_exists (pf : Platform) (p : string) : bool :=
  negb (bool_decide (kind pf p = Missing)).
Definition is_file (pf : Platform) (p : string) : bool :=
  bool_decide (kind pf p = RegularFile).
Definition is_dir (pf : Platform) (p : string) : bool :=
  bool_decide (kind pf p = Directory).

Inductive Signal : Type := SIGTERM | SIGKILL.

(** The observable actions of a supervisor, newest first in the trace. *)
Inductive Event : Type :=
  | EvSpawn (cmd : list string) (cwd : string) (pid : nat)
  | EvSpawnFailed (cmd : list string) (cwd : string)
  | EvTerminate (pid : nat)
  | EvKill (pid : nat)
  | EvSignal (pid : nat) (sig : Signal)
  | EvKillGroup (pid : nat)
  | EvRestartAttempt (count limit : Z)
  | EvThreadStart
  | EvWriteConfig (content : gmap string pyval).

Global Instance Signal_eq_dec : EqDecision Signal.
Proof. solve_decision. Defined.
Global Instance Event_eq_dec : EqDecision Event.
Proof. solve_decision. Defined.

(** The world: a clock, the static platform, one script of answers per
    kind of system call (consumed front to back; when a script is used up
    the call gets the default named at its primitive), and the trace. *)
Record World : Type := {
  platform : Platform;
  now : Z;                                (* time.time(), milliseconds *)
  kill0_answers : list bool;              (* os.kill(pid, 0) raised nothing *)
  signal_answers : list bool;             (* os.kill(pid, sig) raised nothing *)
  poll_answers : list bool;               (* Popen.poll() is None *)
  connect_answers : list bool;            (* connect_ex(...) == 0 *)
  popen_answers : list (option nat);      (* Popen(...): pid, or it raised *)
  stderr_answers : list (option string);  (* what stderr holds, or read raised *)
  run_answers : list (option Z);          (* subprocess.run: returncode *)
  wait_answers : list bool;               (* wait(timeout=5) returned *)
  join_answers : list bool;               (* thread ended within join(5) *)
  event_answers : list bool;              (* the stop event was set during a wait *)
  write_answers : list bool;              (* the config file was written *)
  events : list Event;
}.

Definition with_now (t : Z) (w : World) : World :=
  {| platform := platform w; now := t; kill0_answers := kill0_answers w;
     signal_answers := signal_answers w; poll_answers := poll_answers w;
     connect_answers := connect_answers w; popen_answers := popen_answers w;
     stderr_answers := stderr_answers w; run_answers := run_answers w;
     wait_answers := wait_answers w; join_answers := join_answers w;
     event_answers := event_answers w; write_answers := write_answers w;
     events := events w |}.

Definition with_kill0 (l : list bool) (w : World) : World :=
  {| platform := platform w; now := now w; kill0_answers := l;
     signal_answers := signal_answers w; poll_answers := poll_answers w;
     connect_answers := connect_answers w; popen_answers := popen_answers w;
     stderr_answers := stderr_answers w; run_answers := run_answers w;
     wait_answers := wait_answers w; join_answers := join_answers w;
     event_answers := event_answers w; write_answers := write_answers w;
     events := events w |}.

Definition with_signal (l : list bool) (w : World) : World :=
  {| platform := platform w; now := now w; kill0_answers := kill0_answers w;
     signal_answers := l; poll_answers := poll_answers w;
     connect_answers := connect_answers w; popen_answers := popen_answers w;
     stderr_answers := stderr_answers w; run_answers := run_answers w;
     wait_answers := wait_answers w; join_answers := join_answers w;
     event_answers := event_answers w; write_answers := write_answers w;
     events := events w |}.

Definition with_poll (l : list bool) (w : World) : World :=
  {| platform := platform w; now := now w; kill0_answers := kill0_answers w;
     signal_answers := signal_answers w; poll_answers := l;
     connect_answers := connect_answers w; popen_answers := popen_answers w;
     stderr_answers := stderr_answers w; run_answers := run_answers w;
     wait_answers := wait_answers w; join_answers := join_answers w;
     event_answers := event_answers w; write_answers := write_answers w;
     events := events w |}.

Definition with_connect (l : list bool) (w : World) : World :=
  {| platform := platform w; now := now w; kill0_answers := kill0_answers w;
     signal_answers := signal_answers w; poll_answers := poll_answers w;
     connect_answers := l; popen_answers := popen_answers w;
     stderr_answers := stderr_answers w; run_answers := run_answers w;
     wait_answers := wait_answers w; join_answers := join_answers w;
     event_answers := event_answers w; write_answers := write_answers w;
     events := events w |}.

Definition with_popen (l : list (option nat)) (w : World) : World :=
  {| platform := platform w; now := now w; kill0_answers := kill0_answers w;
     signal_answers := signal_answers w; poll_answers := poll_answers w;
     connect_answers := connect_answers w; popen_answers := l;
     stderr_answers := stderr_answers w; run_answers := run_answers w;
     wait_answers := wait_answers w; join_answers := join_answers w;
     event_answers := event_answers w; write_answers := write_answers w;
     events := events w |}.

Definition with_stderr (l : list (option string)) (w : World) : World :=
  {| platform := platform w; now := now w; kill0_answers := kill0_answers w;
     signal_answers := signal_answers w; poll_answers := poll_answers w;
     connect_answers := connect_answers w; popen_answers := popen_answers w;
     stderr_answers := l; run_answers := run_answers w;
     wait_answers := wait_answers w; join_answers := join_answers w;
     event_answers := event_answers w; write_answers := write_answers w;
     events := events w |}.

Definition with_run (l : list (option Z)) (w : World) : World :=
  {| platform := platform w; now := now w; kill0_answers := kill0_answers w;
     signal_answers := signal_answers w; poll_answers := poll_answers w;
     connect_answers := connect_answers w; popen_answers := popen_answers w;
     stderr_answers := stderr_answers w; run_answers := l;
     wait_answers := wait_answers w; join_answers := join_answers w;
     event_answers := event_answers w; write_answers := write_answers w;
     events := events w |}.

Definition with_wait (l : list bool) (w : World) : World :=
  {| platform := platform w; now := now w; kill0_answers := kill0_answers w;
     signal_answers := signal_answers w; poll_answers := poll_answers w;
     connect_answers := connect_answers w; popen_answers := popen_answers w;
     stderr_answers := stderr_answers w; run_answers := run_answers w;
     wait_answers := l; join_answers := join_answers w;
     event_answers := event_answers w; write_answers := write_answers w;
     events := events w |}.

Definition with_join (l : list bool) (w : World) : World :=
  {| platform := platform w; now := now w; kill0_answers := kill0_answers w;
     signal_answers := signal_answers w; poll_answers := poll_answers w;
     connect_answers := connect_answers w; popen_answers := popen_answers w;
     stderr_answers := stderr_answers w; run_answers := run_answers w;
     wait_answers := wait_answers w; join_answers := l;
     event_answers := event_answers w; write_answers := write_answers w;
     events := events w |}.

Definition with_event (l : list bool) (w : World) : World :=
  {| platform := platform w; now := now w; kill0_answers := kill0_answers w;
     signal_answers := signal_answers w; poll_answers := poll_answers w;
     connect_answers := connect_answers w; popen_answers := popen_answers w;
     stderr_answers := stderr_answers w; run_answers := run_answers w;
     wait_answers := wait_answers w; join_answers := join_answers w;
     event_answers := l; write_answers := write_answers w;
     events := events w |}.

Definition with_write (l : list bool) (w : World) : World :=
  {| platform := platform w; now := now w; kill0_answers := kill0_answers w;
     signal_answers := signal_answers w; poll_answers := poll_answers w;
     connect_answers := connect_answers w; popen_answers := popen_answers w;
     stderr_answers := stderr_answers w; run_answers := run_answers w;
     wait_answers := wait_answers w; join_answers := join_answers w;
     event_answers := event_answers w; write_answers := l;
     events := events w |}.

Definition emit (e : Event) (w : World) : World :=
  {| platform := platform w; now := now w; kill0_answers := kill0_answers w;
     signal_answers := signal_answers w; poll_answers := poll_answers w;
     connect_answers := connect_answers w; popen_answers := popen_answers w;
     stderr_answers := stderr_answers w; run_answers := run_answers w;
     wait_answers := wait_answers w; join_answers := join_answers w;
     event_answers := event_answers w; write_answers := write_answers w;
     events := e :: events w |}.

(** *** The monad of a program that owns a state [S] and shares the world *)

Definition M (S A : Type) : Type := S * World -> A * (S * World).

Definition ret {S A} (a : A) : M S A := fun st => (a, st).
Definition bind {S A B} (m : M S A) (f : A -> M S B) : M S B :=
  fun st => let '(a, st') := m st in f a st'.

Declare Scope prog_scope.
Delimit Scope prog_scope with prog.
Bind Scope prog_scope with M.
Notation "x ← y ; z" := (bind y (fun x => z))
  (at level 20, y at level 100, z at level 200, only parsing) : prog_scope.
Notation "x ;; z" := (bind x (fun _ => z))
  (at level 100, z at level 200, only parsing, right associativity)
  : prog_scope.

Definition get {S} : M S S := fun st => (fst st, st).
Definition modify {S} (f : S -> S) : M S unit :=
  fun st => (tt, (f (fst st), snd st)).
Definition get_world {S} : M S World := fun st => (snd st, st).
Definition in_world {S A} (op : World -> A * World) : M S A :=
  fun st => let '(a, w) := op (snd st) in (a, (fst st, w)).
Definition when {S} (b : bool) (m : M S unit) : M S unit :=
  if b then m else ret tt.

Definition next {A} (default : A) (l : list A) : A * list A :=
  match l with [] => (default, []) | a :: r => (a, r) end.

(** The system calls.  Defaults once a script is used up: no such process,
    the port is closed, a spawn fails, a pipe is empty, a wait returns. *)
Definition os_kill0 {S} (pid : nat) : M S bool :=
  in_world (fun w => let '(a, r) := next false (kill0_answers w) in
                     (a, with_kill0 r w)).

Definition os_kill {S} (pid : nat) (sig : Signal) : M S bool :=
  in_world (fun w => let '(a, r) := next false (signal_answers w) in
                     (a, (if a then emit (EvSignal pid sig) else id)
                           (with_signal r w))).

Definition poll_is_none {S} (pid : nat) : M S bool :=
  in_world (fun w => let '(a, r) := next false (poll_answers w) in
                     (a, with_poll r w)).

Definition connect_ex_ok {S} (port : Z) : M S bool :=
  in_world (fun w => let '(a, r) := next false (connect_answers w) in
                     (a, with_connect r w)).

Definition popen {S} (cmd : list string) (dir : string) : M S (option nat) :=
  in_world (fun w => let '(a, r) := next None (popen_answers w) in
                     (a, emit (match a with
                               | Some pid => EvSpawn cmd dir pid
                               | None => EvSpawnFailed cmd dir
                               end) (with_popen r w))).

Definition stderr_read {S} (n : nat) : M S (option string) :=
  in_world (fun w => let '(a, r) := next (Some EmptyString) (stderr_answers w) in
                     (take_str n <$> a, with_stderr r w)).

Definition subprocess_run {S} (cmd : list string) : M S (option Z) :=
  in_world (fun w => let '(a, r) := next None (run_answers w) in
                     (a, with_run r w)).

Definition terminate {S} (pid : nat) : M S unit :=
  in_world (fun w => (tt, emit (EvTerminate pid) w)).

Definition kill {S} (pid : nat) : M S unit :=
  in_world (fun w => (tt, emit (EvKill pid) w)).

Definition killpg {S} (pid : nat) : M S unit :=
  in_world (fun w => (tt, emit (EvKillGroup pid) w)).

Definition wait5 {S} (pid : nat) : M S bool :=
  in_world (fun w => let '(a, r) := next true (wait_answers w) in
                     (a, with_now (if a then now w else now w + 5000) (with_wait r w))).

Definition thread_join5 {S} : M S bool :=
  in_world (fun w => let '(a, r) := next true (join_answers w) in
                     (a, with_now (if a then now w else now w + 5000)
                           (with_join r w))).

Definition event_set_during_wait {S} (ms : Z) : M S bool :=
  in_world (fun w => let '(a, r) := next false (event_answers w) in
                     (a, with_now (now w + ms) (with_event r w))).

Definition write_file {S} (content : gmap string pyval) : M S bool :=
  in_world (fun w => let '(a, r) := next true (write_answers w) in
                     (a, (if a then emit (EvWriteConfig content) else id)
                           (with_write r w))).

Definition sleep {S} (ms : Z) : M S unit :=
  in_world (fun w => (tt, with_now (now w + ms) w)).

Definition time {S} : M S Z := in_world (fun w => (now w, w)).

Definition log_event {S} (e : Event) : M S unit :=
  in_world (fun w => (tt, emit e w)).

End Os.
Export Os.

(** ** src/backend/models/config.py *)

Module Config.

(** [@dataclass class JupyterConfig], fields of their annotated types. *)
Record JupyterConfig : Type := {
  port : Z;
  python_executable : string;
  project_dir : string;
  use_notebook : bool;
  auto_start : bool;
  auto_restart : bool;
  check_interval : Z;                 (* milliseconds *)
  max_restarts : Z;
  args : string;
  env : list (string * string);
  debug : bool;
}.

Global Instance JupyterConfig_eq_dec : EqDecision JupyterConfig.
Proof. solve_decision. Defined.

(** The field defaults of the dataclass. *)
Definition defaults : JupyterConfig :=
  {| port := 8888; python_executable := EmptyString;
     project_dir := EmptyString; use_notebook := false;
     auto_start := false; auto_restart := true; check_interval := 2000;
     max_restarts := 3; args := EmptyString; env := []; debug := false |}.

Definition port_error : string := "端口号必须在 1024-65535 之间".
Definition interval_error : string := "检查间隔不能小于 1000 毫秒".
Definition restarts_error : string := "最大重启次数不能为负数".

(** [JupyterConfig.validate]: the list [errors] grows in source order. *)
Definition validate (pf : Platform) (c : JupyterConfig) : bool * list string :=
  let errors : list string := [] in
  let errors :=
    if (port c <? 1024)%Z || (port c >? 65535)%Z
    then errors ++ [port_error] else errors in
  let errors :=
    if str_truthy (python_executable c)
       && negb (path_exists pf (python_executable c))
    then errors ++ ["Python 解释器不存在: " +:+ python_executable c]
    else errors in
  let errors :=
    if str_truthy (project_dir c) && negb (path_exists pf (project_dir c))
    then errors ++ ["项目目录不存在: " +:+ project_dir c] else errors in
  let errors :=
    if (check_interval c <? 1000)%Z
    then errors ++ [interval_error] else errors in
  let errors :=
    if (max_restarts c <? 0)%Z
    then errors ++ [restarts_error] else errors in
  (Nat.eqb (length errors) 0, errors).

(** [to_dict] is [dataclasses.asdict]. *)
Definition to_dict (c : JupyterConfig) : gmap string pyval :=
  <["port" := PInt (port c)]>
  (<["python_executable" := PStr (python_executable c)]>
  (<["project_dir" := PStr (project_dir c)]>
  (<["use_notebook" := PBool (use_notebook c)]>
  (<["auto_start" := PBool (auto_start c)]>
  (<["auto_restart" := PBool (auto_restart c)]>
  (<["check_interval" := PInt (check_interval c)]>
  (<["max_restarts" := PInt (max_restarts c)]>
  (<["args" := PStr (args c)]>
  (<["env" := PEnv (env c)]>
  (<["debug" := PBool (debug c)]> ∅)))))))))).

Definition field_names : list string :=
  ["port"; "python_executable"; "project_dir"; "use_notebook"; "auto_start";
   "auto_restart"; "check_interval"; "max_restarts"; "args"; "env"; "debug"].

(** The methods of the class and what every dataclass instance inherits
    (CPython 3.11, [dir(JupyterConfig())] without the fields). *)
Definition method_names : list string := ["validate"; "to_dict"; "from_dict"].

Definition inherited_names : list string :=
  ["__annotations__"; "__class__"; "__dataclass_fields__";
   "__dataclass_params__"; "__delattr__"; "__dict__"; "__dir__"; "__doc__";
   "__eq__"; "__format__"; "__ge__"; "__getattribute__"; "__getstate__";
   "__gt__"; "__hash__"; "__init__"; "__init_subclass__"; "__le__"; "__lt__";
   "__match_args__"; "__module__"; "__ne__"; "__new__"; "__reduce__";
   "__reduce_ex__"; "__repr__"; "__setattr__"; "__sizeof__"; "__str__";
   "__subclasshook__"; "__weakref__"].

(** [hasattr(config, key)] for a [JupyterConfig] instance. *)
Definition hasattr (key : string) : bool :=
  bool_decide (key ∈ field_names ++ method_names ++ inherited_names).

Definition get_int (d : gmap string pyval) (k : string) (dflt : Z)
  : option Z :=
  match d !! k with
  | None => Some dflt | Some (PInt z) => Some z | Some _ => None
  end.

Definition get_str (d : gmap string pyval) (k : string) (dflt : string)
  : option string :=
  match d !! k with
  | None => Some dflt | Some (PStr s) => Some s | Some _ => None
  end.

Definition get_bool (d : gmap string pyval) (k : string) (dflt : bool)
  : option bool :=
  match d !! k with
  | None => Some dflt | Some (PBool b) => Some b | Some _ => None
  end.

Definition get_env (d : gmap string pyval) (k : string)
  : option (list (string * string)) :=
  match d !! k with
  | None => Some [] | Some (PEnv e) => Some e | Some _ => None
  end.

Definition typed_fields (d : gmap string pyval) : option JupyterConfig :=
  a ← get_int d "port" 8888;
  b ← get_str d "python_executable" EmptyString;
  c ← get_str d "project_dir" EmptyString;
  e ← get_bool d "use_notebook" false;
  f ← get_bool d "auto_start" false;
  g ← get_bool d "auto_restart" true;
  h ← get_int d "check_interval" 2000;
  i ← get_int d "max_restarts" 3;
  j ← get_str d "args" EmptyString;
  k ← get_env d "env";
  l ← get_bool d "debug" false;
  Some {| port := a; python_executable := b; project_dir := c;
          use_notebook := e; auto_start := f; auto_restart := g;
          check_interval := h; max_restarts := i; args := j; env := k;
          debug := l |}.

(** [from_dict] calls [cls] with the dict unpacked as keyword arguments:
    the generated [__init__] raises TypeError
    on a keyword that is no field, and stores the other values as given. *)
Definition from_dict (d : gmap string pyval) : outcome JupyterConfig :=
  if bool_decide (Forall (fun k => k ∈ field_names) (elements (dom d)))
  then match typed_fields d with
       | Some c => Returns c
       | None => Unmodelled
       end
  else Raises (TypeError
         "JupyterConfig.__init__() got an unexpected keyword argument").

(** Binding keyword arguments to [def f(self, **kwargs)]: the keyword [self]
    collides with the bound receiver. *)
Definition bind_kwargs (fname : string) (kwargs : gmap string pyval)
  : outcome (gmap string pyval) :=
  if bool_decide ("self" ∈ dom kwargs)
  then Raises (TypeError
         (fname +:+ "() got multiple values for argument 'self'"))
  else Returns kwargs.

End Config.
Export Config.

(** [@dataclass class UIConfig] *)
Module UIConfig.

Record UIConfig : Type := {
  theme : string;
  language : string;
  auto_refresh : bool;
  refresh_interval : Z;
  show_notifications : bool;
  minimize_to_tray : bool;
  auto_open_browser : bool;
}.

Definition defaults : UIConfig :=
  {| theme := "dark"; language := "zh-CN"; auto_refresh := true;
     refresh_interval := 2000; show_notifications := true;
     minimize_to_tray := true; auto_open_browser := true |}.

Definition theme_error : string := "主题必须是 'light', 'dark' 或 'auto'".
Definition refresh_error : string := "刷新间隔不能小于 1000 毫秒".

Definition validate (c : UIConfig) : bool * list string :=
  let errors : list string := [] in
  let errors :=
    if negb (bool_decide (theme c ∈ ["light"; "dark"; "auto"]))
    then errors ++ [theme_error] else errors in
  let errors :=
    if (refresh_interval c <? 1000)%Z
    then errors ++ [refresh_error] else errors in
  (Nat.eqb (length errors) 0, errors).

Definition to_dict (c : UIConfig) : gmap string pyval :=
  <["theme" := PStr (theme c)]>
  (<["language" := PStr (language c)]>
  (<["auto_refresh" := PBool (auto_refresh c)]>
  (<["refresh_interval" := PInt (refresh_interval c)]>
  (<["show_notifications" := PBool (show_notifications c)]>
  (<["minimize_to_tray" := PBool (minimize_to_tray c)]>
  (<["auto_open_browser" := PBool (auto_open_browser c)]> ∅)))))).

Definition field_names : list string :=
  ["theme"; "language"; "auto_refresh"; "refresh_interval";
   "show_notifications"; "minimize_to_tray"; "auto_open_browser"].

Definition typed_fields (d : gmap string pyval) : option UIConfig :=
  a ← get_str d "theme" "dark";
  b ← get_str d "language" "zh-CN";
  c ← get_bool d "auto_refresh" true;
  e ← get_int d "refresh_interval" 2000;
  f ← get_bool d "show_notifications" true;
  g ← get_bool d "minimize_to_tray" true;
  h ← get_bool d "auto_open_browser" true;
  Some {| theme := a; language := b; auto_refresh := c;
          refresh_interval := e; show_notifications := f;
          minimize_to_tray := g; auto_open_browser := h |}.

Definition from_dict (d : gmap string pyval) : outcome UIConfig :=
  if bool_decide (Forall (fun k => k ∈ field_names) (elements (dom d)))
  then match typed_fields d with
       | Some c => Returns c
       | None => Unmodelled
       end
  else Raises (TypeError
         "UIConfig.__init__() got an unexpected keyword argument").

End UIConfig.

(** [@dataclass class AIConfig] *)
Module AIConfig.

Record AIConfig : Type := {
  api_key : string;
  base_url : string;
  model : string;
  max_history : Z;
  timeout : Z;                        (* seconds *)
}.

Definition defaults : AIConfig :=
  {| api_key := EmptyString; base_url := "https://api.moonshot.cn/v1";
     model := "moonshot-v1-8k-vision-preview"; max_history := 50;
     timeout := 30 |}.

Definition key_error : string := "API Key 不能为空".
Definition url_error : string := "Base URL 不能为空".
Definition history_error : string := "最大历史记录数不能小于 1".
Definition timeout_error : string := "超时时间不能小于 1 秒".

Definition validate (c : AIConfig) : bool * list string :=
  let errors : list string := [] in
  let errors :=
    if negb (str_truthy (api_key c)) then errors ++ [key_error] else errors in
  let errors :=
    if negb (str_truthy (base_url c)) then errors ++ [url_error] else errors in
  let errors :=
    if (max_history c <? 1)%Z then errors ++ [history_error] else errors in
  let errors :=
    if (timeout c <? 1)%Z then errors ++ [timeout_error] else errors in
  (Nat.eqb (length errors) 0, errors).

Definition to_dict (c : AIConfig) : gmap string pyval :=
  <["api_key" := PStr (api_key c)]>
  (<["base_url" := PStr (base_url c)]>
  (<["model" := PStr (model c)]>
  (<["max_history" := PInt (max_history c)]>
  (<["timeout" := PInt (timeout c)]> ∅)))).

Definition field_names : list string :=
  ["api_key"; "base_url"; "model"; "max_history"; "timeout"].

Definition typed_fields (d : gmap string pyval) : option AIConfig :=
  a ← get_str d "api_key" EmptyString;
  b ← get_str d "base_url" "https://api.moonshot.cn/v1";
  c ← get_str d "model" "moonshot-v1-8k-vision-preview";
  e ← get_int d "max_history" 50;
  f ← get_int d "timeout" 30;
  Some {| api_key := a; base_url := b; model := c; max_history := e;
          timeout := f |}.

Definition from_dict (d : gmap string pyval) : outcome AIConfig :=
  if bool_decide (Forall (fun k => k ∈ field_names) (elements (dom d)))
  then match typed_fields d with
       | Some c => Returns c
       | None => Unmodelled
       end
  else Raises (TypeError
         "AIConfig.__init__() got an unexpected keyword argument").

End AIConfig.

(** [@dataclass class AppConfig]: the three sections together.  A
    dictionary form of it maps a section name to that section's dict. *)
Module AppConfig.

Record AppConfig : Type := {
  jupyter : JupyterConfig;
  ui : UIConfig.UIConfig;
  ai : AIConfig.AIConfig;
}.

Definition defaults : AppConfig :=
  {| jupyter := Config.defaults; ui := UIConfig.defaults;
     ai := AIConfig.defaults |}.

Definition validate (pf : Platform) (c : AppConfig)
  : bool * gmap string (list string) :=
  let all_errors : gmap string (list string) := ∅ in
  let '(jupyter_valid, jupyter_errors) := Config.validate pf (jupyter c) in
  let all_errors :=
    if negb jupyter_valid then <["jupyter" := jupyter_errors]> all_errors
    else all_errors in
  let '(ui_valid, ui_errors) := UIConfig.validate (ui c) in
  let all_errors :=
    if negb ui_valid then <["ui" := ui_errors]> all_errors else all_errors in
  let '(ai_valid, ai_errors) := AIConfig.validate (ai c) in
  let all_errors :=
    if negb ai_valid then <["ai" := ai_errors]> all_errors else all_errors in
  (Nat.eqb (size all_errors) 0, all_errors).

Definition to_dict (c : AppConfig) : gmap string (gmap string pyval) :=
  <["jupyter" := Config.to_dict (jupyter c)]>
  (<["ui" := UIConfig.to_dict (ui c)]>
  (<["ai" := AIConfig.to_dict (ai c)]> ∅)).

(** [from_dict]: a section that is absent is built from the empty dict;
    the three constructors run in the order jupyter, ui, ai. *)
Definition from_dict (data : gmap string (gmap string pyval))
  : outcome AppConfig :=
  let jupyter_data := default ∅ (data !! "jupyter") in
  let ui_data := default ∅ (data !! "ui") in
  let ai_data := default ∅ (data !! "ai") in
  match Config.from_dict jupyter_data with
  | Returns j =>
      match UIConfig.from_dict ui_data with
      | Returns u =>
          match AIConfig.from_dict ai_data with
          | Returns a => Returns {| jupyter := j; ui := u; ai := a |}
          | Raises e => Raises e
          | Unmodelled => Unmodelled
          end
      | Raises e => Raises e
      | Unmodelled => Unmodelled
      end
  | Raises e => Raises e
  | Unmodelled => Unmodelled
  end.

End AppConfig.

(** [@dataclass class AIRequest] *)
Module AIRequest.

Record AIRequest : Type := {
  image : string;                     (* base64 text *)
  question : string;
  config : gmap string pyval;
}.

Definition image_error : string := "图片不能为空".
Definition question_error : string := "问题不能为空".

Definition validate (r : AIRequest) : bool * list string :=
  let errors : list string := [] in
  let errors :=
    if negb (str_truthy (image r)) then errors ++ [image_error] else errors in
  let errors :=
    if negb (str_truthy (question r))
    then errors ++ [question_error] else errors in
  let errors :=
    if negb (truthy (default PNone (config r !! "api_key")))
    then errors ++ [AIConfig.key_error] else errors in
  (Nat.eqb (length errors) 0, errors).

End AIRequest.

(** [@dataclass class JupyterStatus] *)
Module JupyterStatus.

Record JupyterStatus : Type := {
  running : bool;
  port : option Z;
  pid : option nat;
  url : option string;
  uptime : Z;                         (* seconds *)
  auto_restart : bool;
  process_protection : string;
  open_file : option string;
  last_error : option string;
}.

End JupyterStatus.

(** ** The dictionaries the managers return *)

Module Reply.

Record Launch : Type := {
  l_port : Z;
  l_url : string;
  l_pid : option nat;
  l_auto_restart : bool;
  l_open_file : option string;
}.

Record Result : Type := {
  success : bool;
  message : string;
  errors : list string;             (* the "errors" key, when present *)
  launch : option Launch;           (* port, url, pid, ... of a started server *)
}.

Definition failure (msg : string) : Result :=
  {| success := false; message := msg; errors := []; launch := None |}.
Definition failure_with (msg : string) (errs : list string) : Result :=
  {| success := false; message := msg; errors := errs; launch := None |}.
Definition done_ok (msg : string) : Result :=
  {| success := true; message := msg; errors := []; launch := None |}.
Definition started (msg : string) (l : Launch) : Result :=
  {| success := true; message := msg; errors := []; launch := Some l |}.

End Reply.
Export Reply.

(** Who runs a method: a request handler, or the protection thread. *)
Inductive Caller : Type := Manual | ProtectionLoop.

(** How a bounded run of a protection loop ended. *)
Inductive LoopStatus : Type := Exited | StillRunning | LeftModel.

(** ** src/backend/services/jupyter_service.py *)

Module Service.

Local Open Scope prog_scope.

Record JupyterManager : Type := {
  config : JupyterConfig;
  process : option nat;             (* the Popen object, named by its pid *)
  managed_pid : option nat;
  start_time : option Z;
  auto_restart : bool;
  check_interval : Z;               (* held in milliseconds *)
  max_restarts : Z;
  restart_count : Z;
  protection_alive : bool;          (* protection_thread is set and is_alive() *)
  stop_event : bool;
}.

Definition init (c : JupyterConfig) : JupyterManager :=
  {| config := c; process := None; managed_pid := None; start_time := None;
     auto_restart := Config.auto_restart c;
     check_interval := Config.check_interval c;
     max_restarts := Config.max_restarts c; restart_count := 0;
     protection_alive := false; stop_event := false |}.

Definition set_config (c : JupyterConfig) (s : JupyterManager) :=
  {| config := c; process := process s; managed_pid := managed_pid s;
     start_time := start_time s; auto_restart := auto_restart s;
     check_interval := check_interval s; max_restarts := max_restarts s;
     restart_count := restart_count s;
     protection_alive := protection_alive s; stop_event := stop_event s |}.

(** [process], [managed_pid] and [start_time] are always written together
    or cleared together. *)
Definition set_handle (p m : option nat) (t : option Z) (s : JupyterManager) :=
  {| config := config s; process := p; managed_pid := m; start_time := t;
     auto_restart := auto_restart s; check_interval := check_interval s;
     max_restarts := max_restarts s; restart_count := restart_count s;
     protection_alive := protection_alive s; stop_event := stop_event s |}.

Definition set_restart_count (n : Z) (s : JupyterManager) :=
  {| config := config s; process := process s; managed_pid := managed_pid s;
     start_time := start_time s; auto_restart := auto_restart s;
     check_interval := check_interval s; max_restarts := max_restarts s;
     restart_count := n;
     protection_alive := protection_alive s; stop_event := stop_event s |}.

Definition set_protection (alive ev : bool) (s : JupyterManager) :=
  {| config := config s; process := process s; managed_pid := managed_pid s;
     start_time := start_time s; auto_restart := auto_restart s;
     check_interval := check_interval s; max_restarts := max_restarts s;
     restart_count := restart_count s;
     protection_alive := alive; stop_event := ev |}.

(** [if self.managed_pid:] is false for [None] and for pid 0. *)
Definition pid_truthy (p : option nat) : bool :=
  match p with Some (S _) => true | _ => false end.

Definition _is_port_occupied : M JupyterManager bool :=
  s ← get; connect_ex_ok (Config.port (config s)).

Definition is_running : M JupyterManager bool :=
  s ← get;
  if pid_truthy (managed_pid s) then
    ok ← os_kill0 (default 0 (managed_pid s));
    if ok then ret true
    else modify (set_handle None None None);; ret false
  else
    alive ← match process s with
            | Some h => poll_is_none h
            | None => ret false
            end;
    if alive then ret true else _is_port_occupied.

(** The [for key, value in kwargs.items()] of [_merge_config]. *)
Definition merge_dict (config_dict kwargs : gmap string pyval)
  : gmap string pyval :=
  map_fold (fun key value d => if hasattr key then <[key := value]> d else d)
           config_dict kwargs.

Definition _merge_config (s : JupyterManager) (kwargs : gmap string pyval)
  : outcome JupyterConfig :=
  from_dict (merge_dict (to_dict (config s)) kwargs).

Definition _validate_environment (c : JupyterConfig) : M JupyterManager bool :=
  w ← get_world;
  let pf := platform w in
  python_ok ←
    (if str_truthy (Config.python_executable c) then
       if negb (path_exists pf (Config.python_executable c)) then ret false
       else
         test_result ← subprocess_run
           [Config.python_executable c; "-c"; "import sys; print('OK')"];
         match test_result with
         | Some rc => ret (rc =? 0)%Z
         | None => ret false
         end
     else ret true);
  if negb python_ok then ret false
  else if str_truthy (Config.project_dir c) then
    if negb (path_exists pf (Config.project_dir c)) then ret false
    else if negb (is_dir pf (Config.project_dir c)) then ret false
    else ret true
  else ret true.

Definition _build_command (pf : Platform) (c : JupyterConfig) : list string :=
  let python_exe := str_or (Config.python_executable c) (sys_executable pf) in
  let module_name := if Config.use_notebook c then "notebook" else "jupyterlab" in
  let cmd :=
    [python_exe; "-m"; module_name;
     "--port=" +:+ pretty (Config.port c);
     "--no-browser";
     "--allow-root";
     "--ServerApp.notebook_dir=" +:+ str_or (Config.project_dir c) (cwd pf);
     "--ServerApp.token=''";
     "--ServerApp.password=''";
     "--ServerApp.disable_check_xsrf=True";
     "--ServerApp.allow_origin='*'";
     "--ServerApp.ip='0.0.0.0'"] in
  let cmd := if str_truthy (Config.args c)
             then cmd ++ split (Config.args c) else cmd in
  if Config.debug c then cmd ++ ["--debug"] else cmd.

Definition _get_jupyter_url (s : JupyterManager) : string :=
  let suffix := if Config.use_notebook (config s) then "/tree" else "/lab" in
  "http://localhost:" +:+ pretty (Config.port (config s)) +:+ suffix.

Definition startup_keywords : list string :=
  ["error:"; "exception"; "traceback"].

(** The test applied to what [_wait_for_startup] reads from stderr. *)
Definition startup_error (stderr_output : string) : bool :=
  str_truthy stderr_output && any_in startup_keywords (lower stderr_output).

(** The [while] of [_wait_for_startup]: every round that does not return
    sleeps one second, so 31 rounds exhaust the 30 second timeout. *)
Fixpoint _wait_rounds (rounds : nat) (t0 : Z) : M JupyterManager bool :=
  match rounds with
  | O => ret false
  | S n =>
      t ← time;
      if (t - t0 <? 30000)%Z then
        running ← is_running;
        if running then
          s ← get;
          match process s with
          | Some _ =>
              stderr_output ← stderr_read 1000;
              match stderr_output with
              | Some text =>
                  if startup_error text then ret false else ret true
              | None => ret true
              end
          | None => ret true
          end
        else sleep 1000;; _wait_rounds n t0
      else ret false
  end.

Definition _wait_for_startup : M JupyterManager bool :=
  t0 ← time; _wait_rounds 31 t0.

Definition _stop_process : M JupyterManager bool :=
  s ← get;
  if negb (pid_truthy (managed_pid s)) && negb (bool_decide (is_Some (process s)))
  then ret false
  else
    match process s with
    | Some h =>
        terminate h;;
        exited ← wait5 h;
        when (negb exited) (kill h);;
        ret true
    | None =>
        let pid := default 0 (managed_pid s) in
        sent ← os_kill pid SIGTERM;
        if negb sent then ret false
        else
          sleep 2000;;
          still ← os_kill0 pid;
          (if still then _ ← os_kill pid SIGKILL; ret tt else ret tt);;
          ret true
    end.

Definition _cleanup : M JupyterManager unit :=
  modify (fun s => set_restart_count 0 (set_handle None None None s)).

Definition _is_protection_running (s : JupyterManager) : bool :=
  protection_alive s.

Definition _start_protection : M JupyterManager unit :=
  s ← get;
  if _is_protection_running s then ret tt
  else modify (set_protection true false);; log_event EvThreadStart.

(** [join] on the running thread itself raises RuntimeError. *)
Definition _stop_protection (caller : Caller) : M JupyterManager (outcome unit) :=
  modify (fun s => set_protection (protection_alive s) true s);;
  s ← get;
  if protection_alive s then
    match caller with
    | ProtectionLoop => ret (Raises (RuntimeError "cannot join current thread"))
    | Manual =>
        ended ← thread_join5;
        when ended (modify (fun s => set_protection false (stop_event s) s));;
        ret (Returns tt)
    end
  else ret (Returns tt).

Definition stopped_message : string := "Jupyter 已停止".
Definition not_running_message : string := "Jupyter 未运行".

Definition stop (caller : Caller) : M JupyterManager Result :=
  halted ← _stop_protection caller;
  match halted with
  | Returns _ =>
      success ← _stop_process;
      _cleanup;;
      if success then ret (done_ok stopped_message)
      else ret (done_ok not_running_message)
  | Raises e => ret (failure ("停止失败: " +:+ exn_str e))
  | Unmodelled => ret (failure "停止失败: ")
  end.

Definition _start_process (c : JupyterConfig) : M JupyterManager Result :=
  w ← get_world;
  let cmd := _build_command (platform w) c in
  spawned ← popen cmd (str_or (Config.project_dir c) (cwd (platform w)));
  match spawned with
  | None => ret (failure "进程启动失败: ")
  | Some pid =>
      t ← time;
      modify (fun s => set_restart_count 0
                         (set_handle (Some pid) (Some pid) (Some t) s));;
      up ← _wait_for_startup;
      if up then
        s ← get;
        when (auto_restart s) _start_protection;;
        s ← get;
        ret (started
          ("Jupyter " +:+
           (if Config.use_notebook c then Config.project_dir c else "Lab")
           +:+ " 已启动")
          {| l_port := Config.port c; l_url := _get_jupyter_url s;
             l_pid := managed_pid s; l_auto_restart := auto_restart s;
             l_open_file := None |})
      else
        _ ← _stop_process;
        ret (failure "Jupyter 启动超时或失败")
  end.

(** [start] after its keyword arguments are merged into a configuration. *)
Definition start_merged (caller : Caller) (merged : JupyterConfig)
  : M JupyterManager Result :=
  w ← get_world;
  let '(valid, errors) := validate (platform w) merged in
  if negb valid then
    ret (failure_with ("配置验证失败: " +:+ join ", " errors) errors)
  else
    running ← is_running;
    (if running then _ ← stop caller; ret tt else ret tt);;
    env_ok ← _validate_environment merged;
    if negb env_ok then ret (failure "环境验证失败")
    else
      result ← _start_process merged;
      when (success result) (modify (set_config merged));;
      ret result.

Definition start (caller : Caller) (kwargs : gmap string pyval)
  : M JupyterManager (outcome Result) :=
  match bind_kwargs "JupyterManager.start" kwargs with
  | Returns kwargs =>
      s ← get;
      match _merge_config s kwargs with
      | Returns merged => r ← start_merged caller merged; ret (Returns r)
      | Raises e => ret (Raises e)
      | Unmodelled => ret Unmodelled
      end
  | Raises e => ret (Raises e)
  | Unmodelled => ret Unmodelled
  end.

Definition restart (kwargs : gmap string pyval)
  : M JupyterManager (outcome Result) :=
  _ ← stop Manual;
  sleep 2000;;
  start Manual kwargs.

(** One thread running [_process_protection], for at most [rounds] turns of
    its [while]; the thread is no longer alive once the loop is left. *)
Definition thread_exit : M JupyterManager LoopStatus :=
  modify (fun s => set_protection false (stop_event s) s);; ret Exited.

Fixpoint _process_protection (rounds : nat) : M JupyterManager LoopStatus :=
  match rounds with
  | O => ret StillRunning
  | S n =>
      s ← get;
      if stop_event s then thread_exit
      else
        running ← is_running;
        if negb running then thread_exit
        else
          s ← get;
          set_meanwhile ← event_set_during_wait (check_interval s);
          when set_meanwhile
               (modify (fun s => set_protection (protection_alive s) true s));;
          s ← get;
          if stop_event s then thread_exit
          else
            running ← is_running;
            if negb running then
              s ← get;
              if (restart_count s <? max_restarts s)%Z then
                modify (set_restart_count (restart_count s + 1));;
                log_event (EvRestartAttempt (restart_count s + 1)
                                            (max_restarts s));;
                sleep (check_interval s);;
                result ← start ProtectionLoop ∅;
                match result with
                | Returns _ => _process_protection n
                | Raises _ => sleep (check_interval s);; _process_protection n
                | Unmodelled => ret LeftModel
                end
              else thread_exit
            else _process_protection n
  end.

(** [if self.start_time:] is false for [None] and for the time 0. *)
Definition time_truthy (t : option Z) : bool :=
  match t with Some z => negb (z =? 0)%Z | None => false end.

(** [get_status]: one probe, then the fields.  The clock counts
    milliseconds, [uptime] whole seconds. *)
Definition get_status : M JupyterManager JupyterStatus.JupyterStatus :=
  running ← is_running;
  s ← get;
  uptime ← (if running && time_truthy (start_time s)
            then t ← time; ret (Z.quot (t - default 0%Z (start_time s)) 1000)
            else ret 0%Z);
  s ← get;
  ret {| JupyterStatus.running := running;
         JupyterStatus.port :=
           if running then Some (Config.port (config s)) else None;
         JupyterStatus.pid := managed_pid s;
         JupyterStatus.url :=
           if running then Some (_get_jupyter_url s) else None;
         JupyterStatus.uptime := uptime;
         JupyterStatus.auto_restart := auto_restart s;
         JupyterStatus.process_protection :=
           if _is_protection_running s then "enabled" else "disabled";
         JupyterStatus.open_file := None;
         JupyterStatus.last_error := None |}.

(** [env.update(config.env)]: the pairs are taken in order, a later one
    replacing an earlier one with the same name. *)
Definition env_update (env : gmap string string)
    (pairs : list (string * string)) : gmap string string :=
  foldl (fun e kv => <[kv.1 := kv.2]> e) env pairs.

(** [_prepare_environment]; [environ] is [os.environ]. *)
Definition _prepare_environment (environ : gmap string string)
    (c : JupyterConfig) : gmap string string :=
  let env := environ in
  let env := match Config.env c with
             | [] => env
             | _ => env_update env (Config.env c)
             end in
  <["JUPYTER_ENABLE_LAB" :=
      if negb (Config.use_notebook c) then "yes" else "no"]> env.

End Service.

(** ** src-tauri/resources/web_app.py *)

Module WebApp.

Local Open Scope prog_scope.

Record JupyterManager : Type := {
  process : option nat;             (* the Popen object, named by its pid *)
  port : Z;
  start_time : option Z;
  python_executable : pyval;        (* whatever CONFIG holds *)
  project_dir : pyval;
  use_notebook : bool;
  auto_restart : bool;
  check_interval : Z;               (* held in milliseconds *)
  max_restarts : Z;
  restart_count : Z;
  open_file : option string;
}.

(** The module globals: the [CONFIG] dict and the [manager] instance. *)
Record App : Type := {
  CONFIG : gmap string pyval;
  manager : JupyterManager;
}.

Definition JUPYTER_DEFAULT_PORT : Z := 8888.

Definition config_get (d : gmap string pyval) (k : string) (dflt : pyval)
  : pyval := default dflt (d !! k).

Definition init (pf : Platform) (cfg : gmap string pyval) : App :=
  {| CONFIG := cfg;
     manager :=
       {| process := None; port := JUPYTER_DEFAULT_PORT; start_time := None;
          python_executable :=
            config_get cfg "python_executable" (PStr (sys_executable pf));
          project_dir := config_get cfg "project_dir" (PStr (cwd pf));
          use_notebook := truthy (config_get cfg "use_notebook" (PBool false));
          auto_restart := true; check_interval := 5000; max_restarts := 3;
          restart_count := 0; open_file := None |} |}.

Definition on_manager (f : JupyterManager -> JupyterManager) (a : App) : App :=
  {| CONFIG := CONFIG a; manager := f (manager a) |}.

Definition set_config (d : gmap string pyval) (a : App) : App :=
  {| CONFIG := d; manager := manager a |}.

Definition set_process (p : option nat) (m : JupyterManager) :=
  {| process := p; port := port m; start_time := start_time m;
     python_executable := python_executable m; project_dir := project_dir m;
     use_notebook := use_notebook m; auto_restart := auto_restart m;
     check_interval := check_interval m; max_restarts := max_restarts m;
     restart_count := restart_count m; open_file := open_file m |}.

Definition set_start_time (t : option Z) (m : JupyterManager) :=
  {| process := process m; port := port m; start_time := t;
     python_executable := python_executable m; project_dir := project_dir m;
     use_notebook := use_notebook m; auto_restart := auto_restart m;
     check_interval := check_interval m; max_restarts := max_restarts m;
     restart_count := restart_count m; open_file := open_file m |}.

Definition set_restart_count (n : Z) (m : JupyterManager) :=
  {| process := process m; port := port m; start_time := start_time m;
     python_executable := python_executable m; project_dir := project_dir m;
     use_notebook := use_notebook m; auto_restart := auto_restart m;
     check_interval := check_interval m; max_restarts := max_restarts m;
     restart_count := n; open_file := open_file m |}.

Definition set_open_file (f : option string) (m : JupyterManager) :=
  {| process := process m; port := port m; start_time := start_time m;
     python_executable := python_executable m; project_dir := project_dir m;
     use_notebook := use_notebook m; auto_restart := auto_restart m;
     check_interval := check_interval m; max_restarts := max_restarts m;
     restart_count := restart_count m; open_file := f |}.

Definition set_python_executable (v : pyval) (m : JupyterManager) :=
  {| process := process m; port := port m; start_time := start_time m;
     python_executable := v; project_dir := project_dir m;
     use_notebook := use_notebook m; auto_restart := auto_restart m;
     check_interval := check_interval m; max_restarts := max_restarts m;
     restart_count := restart_count m; open_file := open_file m |}.

Definition set_project_dir (v : pyval) (m : JupyterManager) :=
  {| process := process m; port := port m; start_time := start_time m;
     python_executable := python_executable m; project_dir := v;
     use_notebook := use_notebook m; auto_restart := auto_restart m;
     check_interval := check_interval m; max_restarts := max_restarts m;
     restart_count := restart_count m; open_file := open_file m |}.

(** The first assignments of [start]: arguments win when they are truthy. *)
Definition set_request (p : Z) (py dir : pyval) (nb : bool)
    (f : option string) (m : JupyterManager) :=
  {| process := process m; port := p; start_time := start_time m;
     python_executable := py; project_dir := dir;
     use_notebook := nb; auto_restart := auto_restart m;
     check_interval := check_interval m; max_restarts := max_restarts m;
     restart_count := restart_count m; open_file := f |}.

Definition py_or (a b : pyval) : pyval := if truthy a then a else b.

Definition int_or (a : option Z) (b : Z) : Z :=
  match a with
  | Some z => if (z =? 0)%Z then b else z
  | None => b
  end.

(** [Path(v)] accepts a string only. *)
Definition as_path (v : pyval) : outcome string :=
  match v with
  | PStr s => Returns s
  | _ => Raises (TypeError "expected str, bytes or os.PathLike object")
  end.

Definition opt_truthy (f : option string) : bool :=
  match f with Some s => str_truthy s | None => false end.

Definition is_running : M App bool :=
  a ← get;
  match process (manager a) with
  | None => ret false
  | Some h =>
      alive ← poll_is_none h;
      if alive then ret true
      else modify (on_manager (set_process None));; ret false
  end.

Definition fatal_keywords : list string :=
  ["error:"; "exception"; "traceback"; "failed"; "fatal"].

(** The test applied to what was read from stderr after the spawn. *)
Definition early_crash (error_output : string) : bool :=
  str_truthy error_output && any_in fatal_keywords (lower error_output).

Definition already_running_message : string := "Jupyter 已在运行中".
Definition start_failed_message : string := "启动失败".

(** The arguments every launch has. *)
Definition base_command (py dir : string) (p : Z) (nb : bool) : list string :=
  let module_name := if nb then "notebook" else "jupyterlab" in
  [py; "-m"; module_name;
   "--ServerApp.port=" +:+ pretty p;
   "--ServerApp.open_browser=False";
   "--ServerApp.allow_origin='*'";
   "--ServerApp.disable_check_xsrf=True";
   "--ServerApp.token=''";
   "--ServerApp.password=''";
   "--ServerApp.root_dir=" +:+ dir].

(** The argument vector, and [open_file] as it stands after the
    [relative_to] attempt. *)
Definition build_command (pf : Platform) (py dir : string) (p : Z)
    (nb : bool) (file : option string) : list string * option string :=
  let cmd := base_command py dir p nb in
  if opt_truthy file then
    match relative_to pf (default EmptyString file) dir with
    | Some rel_url =>
        let url_prefix := if nb then "/tree" else "/lab/tree" in
        (cmd ++ ["--ServerApp.default_url=" +:+ url_prefix +:+ "/" +:+ rel_url],
         file)
    | None => (cmd, None)
    end
  else (cmd, file).

(** [start] from the spawn on. *)
Definition launch (cmd : list string) (dir : string) (nb : bool)
  : M App Result :=
  spawned ← popen cmd dir;
  match spawned with
  | None => ret (failure "启动异常: ")
  | Some pid =>
      modify (on_manager (set_process (Some pid)));;
      sleep 5000;;
      error_output ← stderr_read 2000;
      match error_output with
      | None => ret (failure "启动异常: ")
      | Some text =>
          if early_crash text then
            terminate pid;;
            ret (failure ("启动错误: " +:+ take_str 500 text))
          else
            running ← is_running;
            if negb running then ret (failure start_failed_message)
            else
              sleep 8000;;
              running ← is_running;
              if running then
                t ← time;
                modify (on_manager (fun m =>
                          set_restart_count 0 (set_start_time (Some t) m)));;
                a ← get;
                when (auto_restart (manager a)) (log_event EvThreadStart);;
                let url_suffix := if nb then "/tree" else "/lab" in
                ret (started
                  ("Jupyter " +:+ (if nb then "Notebook" else "Lab")
                   +:+ " 已启动")
                  {| l_port := port (manager a);
                     l_url := "http://localhost:"
                              +:+ pretty (port (manager a)) +:+ url_suffix;
                     l_pid := process (manager a);
                     l_auto_restart := auto_restart (manager a);
                     l_open_file := open_file (manager a) |})
              else ret (failure start_failed_message)
      end
  end.

(** The [try] block of [start]. *)
Definition start_body (p : option Z) (py dir : pyval) (nb : option bool)
    (file : option string) : M App Result :=
  a ← get;
  let use_nb :=
    match nb with
    | None => truthy (config_get (CONFIG a) "use_notebook" (PBool false))
    | Some b => b
    end in
  modify (on_manager (fun m =>
    set_request (int_or p (port m)) (py_or py (python_executable m))
                (py_or dir (project_dir m)) use_nb file m));;
  a ← get;
  w ← get_world;
  let pf := platform w in
  match as_path (python_executable (manager a)) with
  | Raises e => ret (failure ("启动异常: " +:+ exn_str e))
  | Unmodelled => ret (failure "启动异常: ")
  | Returns python =>
    if negb (path_exists pf python)
    then ret (failure ("Python 解释器不存在: " +:+ python))
    else
    match as_path (project_dir (manager a)) with
    | Raises e => ret (failure ("启动异常: " +:+ exn_str e))
    | Unmodelled => ret (failure "启动异常: ")
    | Returns given_dir =>
      let project_path := expanduser pf given_dir in
      if negb (path_exists pf project_path)
      then ret (failure ("项目目录不存在: " +:+ given_dir))
      else if negb (is_dir pf project_path)
      then ret (failure ("指定路径不是文件夹: " +:+ given_dir))
      else
        let root := resolve pf project_path in
        modify (on_manager (set_project_dir (PStr root)));;
        when (opt_truthy file)
          (let requested_file := expanduser pf (default EmptyString file) in
           if negb (path_exists pf requested_file)
              || negb (is_file pf requested_file)
           then modify (on_manager (set_open_file None))
           else modify (on_manager
                          (set_open_file (Some (resolve pf requested_file)))));;
        if path_exists pf python then
          _ ← subprocess_run [python; "-c"; "import ssl; print('OK')"];
          modify (on_manager (set_python_executable (PStr python)));;
          a ← get;
          let '(cmd, file') :=
            build_command pf python root (port (manager a)) use_nb
                          (open_file (manager a)) in
          modify (on_manager (set_open_file file'));;
          launch cmd root use_nb
        else
          ret (failure "没有可用的 Python 解释器，最后错误: None")
    end
  end.

Definition start (p : option Z) (py dir : pyval) (nb : option bool)
    (file : option string) : M App Result :=
  running ← is_running;
  if running then ret (failure already_running_message)
  else start_body p py dir nb file.

Definition not_running_message : string := "Jupyter Lab 未运行".
Definition stopped_message : string := "Jupyter Lab 已停止".

Definition stop : M App Result :=
  running ← is_running;
  if negb running then ret (failure not_running_message)
  else
    a ← get;
    w ← get_world;
    signalled ←
      match process (manager a) with
      | Some pid =>
          sent ← (if is_windows (platform w)
                  then terminate pid;; ret true
                  else os_kill pid SIGTERM);
          if negb sent then ret false
          else
            exited ← wait5 pid;
            when (negb exited)
                 (if is_windows (platform w) then kill pid else killpg pid);;
            ret true
      | None => ret true
      end;
    if negb signalled then ret (failure "停止异常: ")
    else
      modify (on_manager (fun m => set_start_time None (set_process None m)));;
      ret (done_ok stopped_message).

(** One thread running [_process_protection], for at most [rounds] turns of
    its [while].  A successful [start] launches a further protection
    thread ([EvThreadStart]); this function follows the one thread only. *)
Fixpoint _process_protection (rounds : nat)
    (consecutive_failures consecutive_successes : Z) : M App LoopStatus :=
  match rounds with
  | O => ret StillRunning
  | S n =>
      a ← get;
      if negb (auto_restart (manager a)) then ret Exited
      else
        running ← is_running;
        if negb running then ret Exited
        else
          sleep (check_interval (manager a));;
          running ← is_running;
          if negb running then
            a ← get;
            let m := manager a in
            if (restart_count m >=? max_restarts m)%Z then ret Exited
            else
              sleep (check_interval m);;
              modify (on_manager (fun m =>
                        set_restart_count (restart_count m + 1) m));;
              a ← get;
              let m := manager a in
              log_event (EvRestartAttempt (restart_count m) (max_restarts m));;
              result ← start (Some (port m)) (python_executable m)
                             (project_dir m) (Some false) (open_file m);
              if success result
              then _process_protection n 0 (0 + 1)
              else _process_protection n (consecutive_failures + 1) 0
          else
            a ← get;
            let successes := (consecutive_successes + 1)%Z in
            when ((successes mod 6 =? 0)%Z
                  && negb (bool_decide (is_Some (start_time (manager a)))))
                 (sleep (check_interval (manager a)));;
            _process_protection n consecutive_failures successes
  end.

(** [POST /api/save_config] with a JSON object as body. *)
Definition check_path (pf : Platform) (config : gmap string pyval)
    (key : string) (wanted : Platform -> string -> bool) (what : string)
  : option Result :=
  match config !! key with
  | None => None
  | Some v =>
      match as_path v with
      | Returns p =>
          if negb (path_exists pf p) || negb (wanted pf p)
          then Some (failure (what +:+ p)) else None
      | _ => Some (failure "保存配置失败: ")
      end
  end.

Definition save_config (config : gmap string pyval) : M App Result :=
  w ← get_world;
  let pf := platform w in
  match check_path pf config "python_executable" is_file
                   "Python 解释器路径无效: " with
  | Some rejected => ret rejected
  | None =>
    match check_path pf config "project_dir" is_dir "项目目录路径无效: " with
    | Some rejected => ret rejected
    | None =>
        modify (fun a => set_config (config ∪ CONFIG a) a);;
        a ← get;
        written ← write_file (CONFIG a);
        if negb written then ret (failure "保存配置失败: ")
        else
          modify (on_manager (fun m =>
            set_project_dir
              (config_get (CONFIG a) "project_dir" (PStr (cwd pf)))
              (set_python_executable
                 (config_get (CONFIG a) "python_executable"
                             (PStr (sys_executable pf))) m)));;
          ret (done_ok "配置已保存")
    end
  end.

(** *** [get_status] and the request handlers *)

(** The dict [get_status] returns. *)
Record Status : Type := {
  s_running : bool;
  s_port : Z;
  s_url : option string;
  s_pid : option nat;
  s_uptime : Z;                       (* seconds *)
  s_auto_restart : bool;
  s_process_protection : string;
  s_open_file : option string;
}.

(** [if self.start_time:] is false for [None] and for the time 0. *)
Definition time_truthy (t : option Z) : bool :=
  match t with Some z => negb (z =? 0)%Z | None => false end.

(** [get_status]: the values of the dict literal are evaluated in the
    order of its keys, so the probe runs up to three times. *)
Definition get_status : M App Status :=
  a ← get;
  let url_suffix := if use_notebook (manager a) then "/tree" else "/lab" in
  running ← is_running;
  a ← get;
  let the_port := port (manager a) in
  running_for_url ← is_running;
  a ← get;
  let url := if running_for_url
             then Some ("http://localhost:" +:+ pretty (port (manager a))
                        +:+ url_suffix)
             else None in
  let pid := process (manager a) in
  uptime ←
    (if time_truthy (start_time (manager a)) then
       running_for_uptime ← is_running;
       if running_for_uptime then
         t ← time;
         a ← get;
         ret (Z.quot (t - default 0%Z (start_time (manager a))) 1000)
       else ret 0%Z
     else ret 0%Z);
  a ← get;
  ret {| s_running := running; s_port := the_port; s_url := url;
         s_pid := pid; s_uptime := uptime;
         s_auto_restart := auto_restart (manager a);
         s_process_protection :=
           if auto_restart (manager a) then "enabled" else "disabled";
         s_open_file := open_file (manager a) |}.

(** [POST /api/stop] *)
Definition stop_jupyter : M App Result := stop.

(** [POST /api/restart]: the request body is read and not used. *)
Definition restart_jupyter : M App Result :=
  _ ← stop;
  sleep 2000;;
  start None PNone PNone None None.

(** [s.replace('\\\\', '\\')]: every pair of backslashes becomes one,
    from the left. *)
Fixpoint unescape (s : string) : string :=
  match s with
  | String a (String b r as t) =>
      if (nat_of_ascii a =? 92)%nat && (nat_of_ascii b =? 92)%nat
      then String a (unescape r)
      else String a (unescape t)
  | _ => s
  end.

(** [str.isspace] on the ASCII characters. *)
Definition is_space (c : ascii) : bool :=
  let n := nat_of_ascii c in
  (n =? 32)%nat || ((9 <=? n)%nat && (n <=? 13)%nat)
  || ((28 <=? n)%nat && (n <=? 31)%nat).

Fixpoint lstrip (s : string) : string :=
  match s with
  | EmptyString => EmptyString
  | String c r => if is_space c then lstrip r else s
  end.

Fixpoint rstrip (s : string) : string :=
  match s with
  | EmptyString => EmptyString
  | String c r =>
      let r' := rstrip r in
      if is_space c && negb (str_truthy r') then EmptyString
      else String c r'
  end.

(** [s.strip()], exact for ASCII text. *)
Definition strip (s : string) : string := rstrip (lstrip s).

(** What a handler gives back: a JSON reply; an exception nothing
    catches, which the server turns into a 500 response; or a run that
    leaves the typed fragment. *)
Inductive Response : Type :=
  | Json (r : Result)
  | Uncaught (exception_class : string)
  | Untyped.

(** [data.get(key)] *)
Definition data_get (data : gmap string pyval) (key : string) : pyval :=
  default PNone (data !! key).

(** [v.replace('\\\\', '\\').strip()] for a truthy [v]: only a string
    has these methods. *)
Definition cleaned (v : pyval) : option string :=
  match v with
  | PStr s => Some (strip (unescape s))
  | _ => None
  end.

(** [python_executable] after [if python_executable:] has cleaned it;
    [None] when the cleaning raises. *)
Definition cleaned_python (v : pyval) : option pyval :=
  if truthy v then PStr <$> cleaned v else Some v.

(** The path a start request names: the first truthy one of four keys. *)
Definition requested_path (data : gmap string pyval) : pyval :=
  py_or (data_get data "project_dir")
    (py_or (data_get data "work_dir")
       (py_or (data_get data "root_dir") (data_get data "target_path"))).

(** The port a start request names, or the configured one. *)
Definition requested_port (a : App) (data : gmap string pyval) : pyval :=
  default (config_get (CONFIG a) "jupyter_port" (PInt JUPYTER_DEFAULT_PORT))
          (data !! "port").

(** The call of [manager.start] a request ends in.  The manager's port is
    an integer here, so a port of another type leaves the typed fragment;
    of [use_notebook] only [None] and the truth value matter. *)
Definition call_start (port python_executable use_notebook : pyval)
    (resolved_project_dir : pyval) (file_to_open : option string)
  : M App Response :=
  match port with
  | PInt _ | PNone =>
      let p := match port with PInt z => Some z | _ => None end in
      let nb := match use_notebook with
                | PNone => None
                | v => Some (truthy v)
                end in
      result ← start p python_executable resolved_project_dir nb file_to_open;
      ret (Json result)
  | _ => ret Untyped
  end.

(** [POST /api/start] with a JSON object as body.  [parent_resolved p]
    stands for [str(Path(p).parent.resolve())]. *)
Definition start_jupyter (parent_resolved : string -> string)
    (data : gmap string pyval) : M App Response :=
  a ← get;
  w ← get_world;
  let pf := platform w in
  let port := requested_port a data in
  let python_executable := data_get data "python_executable" in
  let use_notebook := default (PBool false) (data !! "use_notebook") in
  match cleaned_python python_executable with
  | None => ret (Uncaught "AttributeError")
  | Some python_executable =>
    if truthy (requested_path data) then
      match cleaned (requested_path data) with
      | Some cleaned_path =>
          if str_truthy cleaned_path then
            if negb (path_exists pf cleaned_path)
            then ret (Json (failure ("指定路径不存在: " +:+ cleaned_path)))
            else if is_file pf cleaned_path
            then call_start port python_executable use_notebook
                   (PStr (parent_resolved cleaned_path))
                   (Some (resolve pf cleaned_path))
            else if is_dir pf cleaned_path
            then call_start port python_executable use_notebook
                   (PStr (resolve pf cleaned_path)) None
            else ret (Json (failure ("无法识别的路径类型: " +:+ cleaned_path)))
          else call_start port python_executable use_notebook PNone None
      | None => ret (Uncaught "AttributeError")
      end
    else call_start port python_executable use_notebook PNone None
  end.

End WebApp.

(** ** backend_api.py *)

Module BackendApi.

Local Open Scope prog_scope.

(** The module globals: the [manager] and the [config_storage] dict. *)
Record Server : Type := {
  manager : Service.JupyterManager;
  config_storage : gmap string pyval;
}.

Definition on_manager {A} (m : M Service.JupyterManager A) : M Server A :=
  fun st =>
    let '(a, (mgr, w)) := m (manager (fst st), snd st) in
    (a, ({| manager := mgr; config_storage := config_storage (fst st) |}, w)).

(** [POST /api/start]: the JSON object is passed on as keyword arguments;
    an exception becomes a 500 response. *)
Definition start_jupyter (config : gmap string pyval)
  : M Server (outcome (Z * Result)) :=
  result ← on_manager (Service.start Manual config);
  match result with
  | Returns r => ret (Returns (200%Z, r))
  | Raises e => ret (Returns (500%Z, failure ("启动失败: " +:+ exn_str e)))
  | Unmodelled => ret Unmodelled
  end.

Definition stop_jupyter : M Server (Z * Result) :=
  result ← on_manager (Service.stop Manual);
  ret (200%Z, result).

(** [POST /api/save_config] with a JSON object as body. *)
Definition save_config (config : gmap string pyval) : M Server (Z * Result) :=
  modify (fun s => {| manager := manager s;
                      config_storage := config ∪ config_storage s |});;
  ret (200%Z, done_ok "配置保存成功").

(** [GET /api/load_config]: the reply carries the stored dict under
    the key [config]. *)
Definition load_config : M Server (Z * Result * gmap string pyval) :=
  s ← get;
  ret (200%Z, done_ok "配置加载成功", config_storage s).

End BackendApi.

(** ** Reasoning about programs in [M] *)

Module Prog.

(** [keeps R m]: every run of [m] relates the state it starts in to the
    state it ends in. *)
Definition keeps {S A} (R : relation (S * World)) (m : M S A) : Prop :=
  forall st, R st (snd (m st)).

(** [wp m Q st]: the run of [m] from [st] ends with a result and a state
    that satisfy [Q]. *)
Definition wp {S A} (m : M S A) (Q : A -> S * World -> Prop)
    (st : S * World) : Prop :=
  Q (fst (m st)) (snd (m st)).

(** The program's own state is the same before and after. *)
Definition same_state {S} : relation (S * World) :=
  fun st st' => fst st' = fst st.

(** The trace only grows. *)
Definition grows {S} : relation (S * World) :=
  fun st st' => exists l, events (snd st') = l ++ events (snd st).

(** The number of automatic restart attempts a trace records. *)
Definition restart_attempts (trace : list Event) : nat :=
  length (List.filter (fun e => match e with
                                | EvRestartAttempt _ _ => true
                                | _ => false
                                end) trace).

(** The processes a trace records as spawned, newest first. *)
Definition spawned (trace : list Event) : list nat :=
  omap (fun e => match e with EvSpawn _ _ pid => Some pid | _ => None end)
       trace.

(** A path supplied under [key] in a save request names an existing file
    of the wanted kind (or the key is absent). *)
Definition supplied_ok (pf : Platform) (config : gmap string pyval)
    (key : string) (wanted : Platform -> string -> bool) : Prop :=
  match config !! key with
  | None => True
  | Some (PStr p) => path_exists pf p = true /\ wanted pf p = true
  | Some _ => False
  end.

(** The restart counter of the service manager is the same before and
    after. *)
Definition same_count : relation (Service.JupyterManager * World) :=
  fun st st' =>
    Service.restart_count (fst st') = Service.restart_count (fst st).

(** Restart accounting, for a manager whose counter and limit are read
    by [count] and [limit]. *)
Section Accounting.
Context {S : Type} (count limit : S -> Z).

(** The limit is the same after, and the counter is as before or 0. *)
Definition kept_or_reset : relation (S * World) :=
  fun st st' =>
    limit (fst st') = limit (fst st) /\
    (count (fst st') = count (fst st) \/ count (fst st') = 0%Z).

(** The counter is within its limit. *)
Definition within_limit (st : S * World) : Prop :=
  (0 <= limit (fst st))%Z /\ (count (fst st) <= limit (fst st))%Z.

(** The counter has reached its limit. *)
Definition at_limit (st : S * World) : Prop :=
  (limit (fst st) <= count (fst st))%Z.

(** Nothing was added to the trace, and counter and limit are as before. *)
Definition idle : relation (S * World) :=
  fun st st' =>
    events (snd st') = events (snd st) /\
    count (fst st') = count (fst st) /\
    limit (fst st') = limit (fst st).

End Accounting.

Abbreviation web_count :=
  (fun app : WebApp.App => WebApp.restart_count (WebApp.manager app)).
Abbreviation web_limit :=
  (fun app : WebApp.App => WebApp.max_restarts (WebApp.manager app)).

(** The directory [WebApp.start] launches in, when its checks get that
    far: the resolved [project_dir] argument, or the stored one. *)
Definition working_directory (pf : Platform) (dir : pyval) (a : WebApp.App)
  : option string :=
  match WebApp.as_path (WebApp.py_or dir (WebApp.project_dir (WebApp.manager a))) with
  | Returns d => Some (resolve pf (expanduser pf d))
  | _ => None
  end.

(** The file cannot be opened from [root]: it is missing or no regular
    file, or it does not lie under [root]. *)
Definition unusable_file (pf : Platform) (root f : string) : Prop :=
  path_exists pf (expanduser pf f) = false \/
  is_file pf (expanduser pf f) = false \/
  relative_to pf (resolve pf (expanduser pf f)) root = None.

(** Every spawn the run adds to the trace has a command that satisfies
    [P]. *)
Definition spawns_only {S} (P : list string -> Prop) : relation (S * World) :=
  fun st st' =>
    forall cmd dir pid,
      In (EvSpawn cmd dir pid) (events (snd st')) ->
      In (EvSpawn cmd dir pid) (events (snd st)) \/ P cmd.

(** The command is the ten base arguments, with no default-url argument
    after them. *)
Definition is_base_command (cmd : list string) : Prop :=
  exists py root p nb, cmd = WebApp.base_command py root p nb.

End Prog.
Export Prog.

(** ** What a run leaves alone *)

Module Frame.

(** The part of the program's state that [f] reads is the same before
    and after. *)
Definition same_on {S A} (f : S -> A) : relation (S * World) :=
  fun st st' => f (fst st') = f (fst st).

(** The clock is the same before and after. *)
Definition same_clock {S} : relation (S * World) :=
  fun st st' => now (snd st') = now (snd st).

(** No process was spawned. *)
Definition no_spawn {S} : relation (S * World) :=
  fun st st' => spawned (events (snd st')) = spawned (events (snd st)).

End Frame.
Export Frame.

(** ** Requests to web_app's [start] *)

Module Requests.

(** The [use_notebook] value [start] works with. *)
Definition effective_notebook (nb : option bool) (a : WebApp.App) : bool :=
  match nb with
  | None => truthy (WebApp.config_get (WebApp.CONFIG a) "use_notebook"
                      (PBool false))
  | Some b => b
  end.

(** The manager after the first assignments of [start]. *)
Definition requested (p : option Z) (py dir : pyval) (nb : option bool)
    (file : option string) (a : WebApp.App) : WebApp.App :=
  WebApp.on_manager (fun m =>
    WebApp.set_request (WebApp.int_or p (WebApp.port m))
      (WebApp.py_or py (WebApp.python_executable m))
      (WebApp.py_or dir (WebApp.project_dir m))
      (effective_notebook nb a) file m) a.

(** What a successful [start] leaves behind and reports. *)
Definition started_with (p : option Z) (nb : option bool)
    (a0 : WebApp.App) (r : Result) (st' : WebApp.App * World) : Prop :=
  let m := WebApp.manager (fst st') in
  exists pid l,
    launch r = Some l /\
    WebApp.process m = Some pid /\
    l_pid l = Some pid /\
    hd_error (spawned (events (snd st'))) = Some pid /\
    WebApp.restart_count m = 0%Z /\
    is_Some (WebApp.start_time m) /\
    WebApp.port m = WebApp.int_or p (WebApp.port (WebApp.manager a0)) /\
    WebApp.use_notebook m = effective_notebook nb a0 /\
    l_port l = WebApp.port m /\
    l_url l = "http://localhost:" +:+ pretty (WebApp.port m)
              +:+ (if WebApp.use_notebook m then "/tree" else "/lab") /\
    l_open_file l = WebApp.open_file m /\
    l_auto_restart l = WebApp.auto_restart (WebApp.manager a0) /\
    WebApp.CONFIG (fst st') = WebApp.CONFIG a0.

(** The settings a run of [start] does not touch once they are set. *)
Definition settings (a : WebApp.App)
  : gmap string pyval * Z * bool * bool * Z * Z :=
  let m := WebApp.manager a in
  (WebApp.CONFIG a, WebApp.port m, WebApp.use_notebook m,
   WebApp.auto_restart m, WebApp.check_interval m, WebApp.max_restarts m).

End Requests.
Export Requests.

(** ** Concrete machines, requests and states used by the examples *)

Module Scenario.

Definition files (p : string) : FileKind :=
  if String.eqb p "/srv/notebooks" then Directory
  else if String.eqb p "/usr/bin/python3" then RegularFile
  else if String.eqb p "/srv/notebooks/intro.ipynb" then RegularFile
  else if String.eqb p "/tmp/other.ipynb" then RegularFile
  else Missing.

(** A path lies under [base] when it starts with [base] and a slash. *)
Definition under (p base : string) : option string :=
  if String.prefix (base +:+ "/") p
  then Some (String.substring (S (String.length base)) (String.length p) p)
  else None.

Definition posix : Platform :=
  {| kind := files; expanduser := id; resolve := id; relative_to := under;
     cwd := "/srv/notebooks"; sys_executable := "/usr/bin/python3";
     is_windows := false |}.

(** A world whose scripts are all empty: every call gets its default. *)
Definition quiet : World :=
  {| platform := posix; now := 0; kill0_answers := []; signal_answers := [];
     poll_answers := []; connect_answers := []; popen_answers := [];
     stderr_answers := []; run_answers := []; wait_answers := [];
     join_answers := []; event_answers := []; write_answers := [];
     events := [] |}.

Definition fresh_service : Service.JupyterManager := Service.init defaults.

(** A service manager that holds a live child with pid 101. *)
Definition running_service : Service.JupyterManager :=
  Service.set_handle (Some 101) (Some 101) (Some 0%Z) fresh_service.

Definition fresh_web : WebApp.App := WebApp.init posix ∅.

(** A child that starts, and whose stderr holds one line. *)
Definition one_child (pid : nat) (line : string) : World :=
  with_stderr [Some line]
    (with_popen [Some pid]
       (with_poll [true; true] (with_kill0 [true] quiet))).

Definition fatal_line : string := "Fatal: port 8888 is in use".
Definition warning_line : string := "[W] notebook extension is deprecated".

Definition fresh_server : BackendApi.Server :=
  {| BackendApi.manager := fresh_service; BackendApi.config_storage := ∅ |}.

Definition missing_python : gmap string pyval :=
  {[ "python_executable" := PStr "/no/such/python" ]}.

Definition good_paths : gmap string pyval :=
  <[ "python_executable" := PStr "/usr/bin/python3" ]>
    {[ "project_dir" := PStr "/srv/notebooks" ]}.

(** Request bodies for [POST /api/start]. *)
Definition body_self : gmap string pyval := {[ "self" := PInt 1 ]}.
Definition body_validate : gmap string pyval := {[ "validate" := PInt 1 ]}.
Definition body_colour : gmap string pyval := {[ "colour" := PStr "red" ]}.

(** Five children; each one passes the startup probe and the next check
    of the protection loop, and is found dead at the check after that. *)
Definition dying_children : World :=
  with_popen [Some 101; Some 102; Some 103; Some 104; Some 105; Some 106]
    (with_kill0 [true; true; false;  true; true; false;  true; true; false;
                 true; true; false;  true; true; false;  true; true; false]
       quiet).

(** The same for web_app, which probes with [poll]: two probes inside
    [start], one at the head of the loop, and the child is found dead at
    the probe after the sleep. *)
Definition dying_children_web : World :=
  with_popen [Some 101; Some 102; Some 103; Some 104; Some 105; Some 106]
    (with_poll [true; true;  true; false;  true; true;  true; false;
                true; true;  true; false;  true; true;  true; false;
                true; true;  true; false;  true; true;  true; false]
       quiet).

(** A service manager with a live child, and the answers for a stop
    followed by a launch of child 102. *)
Definition live_child : World :=
  with_popen [Some 102] (with_kill0 [true; true] quiet).

(** A web_app whose child starts and stays alive. *)
Definition healthy_child : World :=
  with_popen [Some 101] (with_poll [true; true] quiet).

(** A line that the service's startup check takes for an error. *)
Definition traceback_line : string := "Traceback (most recent call last):".

(** Something else listens on the configured port. *)
Definition port_busy : World := with_connect [true] quiet.

(** A request for a check interval below the minimum. *)
Definition body_fast_checks : gmap string pyval :=
  {[ "check_interval" := PInt 500 ]}.

(** A service manager whose counter has reached its limit of 3. *)
Definition exhausted_service : Service.JupyterManager :=
  Service.set_restart_count 3 running_service.

(** A web_app manager that holds child 101, and a world in which that
    child is alive and takes the termination signal. *)
Definition running_web : WebApp.App :=
  WebApp.on_manager (WebApp.set_process (Some 101)) fresh_web.

Definition obedient_child : World :=
  with_signal [true] (with_poll [true] quiet).

(** Request bodies for web_app's [POST /api/start]. *)
Definition body_notebook_file : gmap string pyval :=
  {[ "project_dir" := PStr "  /srv/notebooks/intro.ipynb " ]}.
Definition body_numeric_python : gmap string pyval :=
  {[ "python_executable" := PInt 5 ]}.
Definition body_missing_dir : gmap string pyval :=
  {[ "work_dir" := PStr "/no/such/dir" ]}.

(** The parent directory of a path, for the paths of [files]. *)
Definition parent_of (p : string) : string :=
  if String.eqb p "/srv/notebooks/intro.ipynb" then "/srv/notebooks"
  else if String.eqb p "/tmp/other.ipynb" then "/tmp"
  else "/".

End Scenario.

(** * Properties *)

(** ** Strings *)

Module PyFacts.

Lemma app_nil (b : string) : EmptyString +:+ b = b.
Proof. reflexivity. Qed.

Lemma app_cons (c : ascii) (a b : string) :
  String c a +:+ b = String c (a +:+ b).
Proof. reflexivity. Qed.

Lemma prefix_nil (s : string) : String.prefix EmptyString s = true.
Proof. by destruct s. Qed.

Lemma prefix_spec (k s : string) :
  String.prefix k s = true <-> exists post, s = k +:+ post.
Proof.
  revert s. induction k as [|a k IH]; intros s.
  - rewrite prefix_nil. split; [intros _; by exists s | done].
  - destruct s as [|b s].
    + split; [done | intros [post H]; rewrite app_cons in H; discriminate].
    + change (String.prefix (String a k) (String b s))
        with (if ascii_dec a b then String.prefix k s else false).
      destruct (ascii_dec a b) as [->|Hne].
      * rewrite IH. split; intros [post H]; exists post.
        -- rewrite app_cons. congruence.
        -- rewrite app_cons in H. congruence.
      * split; [done | intros [post H]; rewrite app_cons in H; congruence].
Qed.

Lemma str_in_spec (k s : string) :
  str_in k s = true <-> exists pre post, s = pre +:+ k +:+ post.
Proof.
  induction s as [|c s IH]; cbn [str_in].
  - rewrite orb_false_r, prefix_spec. split.
    + intros [post H]. by exists EmptyString, post.
    + intros [pre [post H]]. destruct pre.
      * rewrite app_nil in H. by exists post.
      * rewrite app_cons in H. discriminate.
  - rewrite orb_true_iff, prefix_spec, IH. split.
    + intros [[post H] | [pre [post H]]].
      * by exists EmptyString, post.
      * exists (String c pre), post. rewrite app_cons. by rewrite H.
    + intros [pre [post H]]. destruct pre as [|c' pre].
      * left. rewrite app_nil in H. by exists post.
      * right. rewrite app_cons in H. exists pre, post. congruence.
Qed.

Lemma any_in_spec (keywords : list string) (text : string) :
  any_in keywords text = true <->
  exists k pre post, In k keywords /\ text = pre +:+ k +:+ post.
Proof.
  unfold any_in. rewrite existsb_exists. split.
  - intros [k [Hk H]]. apply str_in_spec in H as [pre [post H]]. eauto.
  - intros [k [pre [post [Hk H]]]]. exists k. split; [done |].
    apply str_in_spec. eauto.
Qed.

Lemma str_truthy_spec (s : string) : str_truthy s = true <-> s <> EmptyString.
Proof.
  unfold str_truthy. destruct (String.eqb_spec s EmptyString); cbn; split;
    intros; congruence.
Qed.

End PyFacts.

(** ** Programs *)

Module ProgFacts.

Global Instance grows_preorder {S} : PreOrder (@grows S).
Proof.
  split.
  - intros st. by exists [].
  - intros a b c [l1 H1] [l2 H2]. exists (l2 ++ l1).
    rewrite H2, H1. by rewrite app_assoc.
Qed.

Section Keeps.
Context {S : Type} (R : relation (S * World)) `{!PreOrder R}.

Lemma keeps_ret {A} (a : A) : keeps R (ret a).
Proof. intros st. cbn. reflexivity. Qed.

Lemma keeps_get : keeps R get.
Proof. intros st. cbn. reflexivity. Qed.

Lemma keeps_get_world : keeps R get_world.
Proof. intros st. cbn. reflexivity. Qed.

Lemma keeps_bind {A B} (m : M S A) (f : A -> M S B) :
  keeps R m -> (forall a, keeps R (f a)) -> keeps R (bind m f).
Proof.
  intros Hm Hf st. unfold bind. specialize (Hm st).
  destruct (m st) as [a st1]. cbn in Hm. etrans; [exact Hm | apply Hf].
Qed.

Lemma keeps_when (b : bool) (m : M S unit) : keeps R m -> keeps R (when b m).
Proof. intros Hm. destruct b; [exact Hm | apply keeps_ret]. Qed.
End Keeps.

Lemma grows_modify {S} (f : S -> S) : keeps grows (modify f).
Proof. intros st. by exists []. Qed.

Lemma grows_in_world {S A} (op : World -> A * World) :
  (forall w, exists l, events (snd (op w)) = l ++ events w) ->
  keeps grows (@in_world S A op).
Proof.
  intros H [s w]. unfold in_world. cbn. specialize (H w).
  destruct (op w) as [a w']. exact H.
Qed.

Ltac grows_prim :=
  apply grows_in_world; intros w; unfold next;
  repeat case_match; simplify_eq; cbn;
  first [by exists [] | by eexists [_]].

Section GrowsPrimitives.
Context {S : Type}.

Lemma grows_os_kill0 pid : keeps grows (@os_kill0 S pid).
Proof. unfold os_kill0. grows_prim. Qed.
Lemma grows_os_kill pid sig : keeps grows (@os_kill S pid sig).
Proof. unfold os_kill. grows_prim. Qed.
Lemma grows_poll pid : keeps grows (@poll_is_none S pid).
Proof. unfold poll_is_none. grows_prim. Qed.
Lemma grows_connect port : keeps grows (@connect_ex_ok S port).
Proof. unfold connect_ex_ok. grows_prim. Qed.
Lemma grows_popen cmd dir : keeps grows (@popen S cmd dir).
Proof. unfold popen. grows_prim. Qed.
Lemma grows_stderr_read n : keeps grows (@stderr_read S n).
Proof. unfold stderr_read. grows_prim. Qed.
Lemma grows_subprocess_run cmd : keeps grows (@subprocess_run S cmd).
Proof. unfold subprocess_run. grows_prim. Qed.
Lemma grows_terminate pid : keeps grows (@terminate S pid).
Proof. unfold terminate. grows_prim. Qed.
Lemma grows_kill pid : keeps grows (@kill S pid).
Proof. unfold kill. grows_prim. Qed.
Lemma grows_killpg pid : keeps grows (@killpg S pid).
Proof. unfold killpg. grows_prim. Qed.
Lemma grows_wait5 pid : keeps grows (@wait5 S pid).
Proof. unfold wait5. grows_prim. Qed.
Lemma grows_thread_join5 : keeps grows (@thread_join5 S).
Proof. unfold thread_join5. grows_prim. Qed.
Lemma grows_event_wait ms : keeps grows (@event_set_during_wait S ms).
Proof. unfold event_set_during_wait. grows_prim. Qed.
Lemma grows_write_file d : keeps grows (@write_file S d).
Proof. unfold write_file. grows_prim. Qed.
Lemma grows_sleep ms : keeps grows (@sleep S ms).
Proof. unfold sleep. grows_prim. Qed.
Lemma grows_time : keeps grows (@time S).
Proof. unfold time. grows_prim. Qed.
Lemma grows_log_event e : keeps grows (@log_event S e).
Proof. unfold log_event. grows_prim. Qed.
End GrowsPrimitives.

Create HintDb keeps discriminated.
Global Hint Resolve grows_os_kill0 grows_os_kill grows_poll grows_connect
  grows_popen grows_stderr_read grows_subprocess_run grows_terminate
  grows_kill grows_killpg grows_wait5 grows_thread_join5 grows_event_wait
  grows_write_file grows_sleep grows_time grows_log_event grows_modify
  : keeps.

(** Walk through a program, one bind or branch at a time. *)
Ltac keeps_walk :=
  repeat first
    [ solve [eauto with keeps]
    | apply keeps_ret; solve [typeclasses eauto]
    | apply keeps_get; solve [typeclasses eauto]
    | apply keeps_get_world; solve [typeclasses eauto]
    | apply keeps_bind; [typeclasses eauto | | intros ?]
    | apply keeps_when; [typeclasses eauto |]
    | match goal with
      | |- keeps _ (if ?b then _ else _) => destruct b
      | |- keeps _ (match ?x with _ => _ end) => destruct x
      end ].

(** *** Running a program forward *)

Lemma wp_bind {S A B} (m : M S A) (f : A -> M S B) Q st :
  wp m (fun a st' => wp (f a) Q st') st -> wp (bind m f) Q st.
Proof. unfold wp, bind. by destruct (m st). Qed.

Lemma wp_ret {S A} (a : A) (Q : A -> S * World -> Prop) st :
  Q a st -> wp (ret a) Q st.
Proof. done. Qed.

Lemma wp_get {S} (Q : S -> S * World -> Prop) st :
  Q (fst st) st -> wp get Q st.
Proof. done. Qed.

Lemma wp_get_world {S} (Q : World -> S * World -> Prop) st :
  Q (snd st) st -> wp get_world Q st.
Proof. done. Qed.

Lemma wp_modify {S} (g : S -> S) (Q : unit -> S * World -> Prop) st :
  Q tt (g (fst st), snd st) -> wp (modify g) Q st.
Proof. done. Qed.

Lemma wp_when {S} (b : bool) (m : M S unit) Q st :
  (b = true -> wp m Q st) -> (b = false -> Q tt st) -> wp (when b m) Q st.
Proof. destruct b; cbn; intros H1 H2; [by apply H1 | by apply H2]. Qed.

(** A call whose effect is known as a relation. *)
Lemma wp_keeps {S A} (R : relation (S * World)) (m : M S A) Q st :
  keeps R m -> (forall a st', R st st' -> Q a st') -> wp m Q st.
Proof. intros Hm HQ. apply HQ, Hm. Qed.

(** A call whose effect is known as a postcondition. *)
Lemma wp_spec {S A} (m : M S A) (Q' Q : A -> S * World -> Prop) st :
  wp m Q' st -> (forall a st', Q' a st' -> Q a st') -> wp m Q st.
Proof. unfold wp. auto. Qed.

Global Instance same_state_preorder {S} : PreOrder (@same_state S).
Proof.
  split; [by intros st |].
  intros a b c H1 H2. unfold same_state in *. congruence.
Qed.

Lemma same_state_in_world {S A} (op : World -> A * World) :
  keeps same_state (@in_world S A op).
Proof. intros [s w]. unfold in_world, same_state. cbn. by destruct (op w). Qed.

(** A system call leaves the program's state alone and may only add
    events to the trace. *)
Lemma wp_in_world {S A} (op : World -> A * World)
    (Q : A -> S * World -> Prop) (s : S) (w : World) :
  (forall a w', op w = (a, w') -> Q a (s, w')) ->
  wp (in_world op) Q (s, w).
Proof.
  intros H. unfold wp, in_world. cbn. destruct (op w) as [a w'] eqn:E.
  cbn. by apply H.
Qed.

(** A call that leaves the program's state alone. *)
Lemma wp_same_state {S A} (m : M S A) (Q : A -> S * World -> Prop)
    (st : S * World) :
  keeps same_state m ->
  (forall a w', Q a (fst st, w')) ->
  wp m Q st.
Proof.
  intros Hk H. unfold wp. specialize (Hk st). unfold same_state in Hk.
  destruct (m st) as [a [s' w']]. cbn in *. subst s'. apply H.
Qed.

Global Hint Extern 2 (keeps same_state _) =>
  (unfold os_kill0, os_kill, poll_is_none, connect_ex_ok, popen, stderr_read,
     subprocess_run, terminate, kill, killpg, wait5, thread_join5,
     event_set_during_wait, write_file, sleep, time, log_event;
   apply same_state_in_world) : keeps.

(** Walk forward through binds, branches and state accesses. *)
Ltac wp_go :=
  repeat (cbn beta;
    match goal with
    | |- wp (bind _ _) _ _ => apply wp_bind
    | |- wp (ret _) _ _ => apply wp_ret
    | |- wp get _ _ => apply wp_get
    | |- wp get_world _ _ => apply wp_get_world
    | |- wp (modify _) _ _ => apply wp_modify
    | |- wp (if ?b then _ else _) _ _ => destruct b eqn:?
    | |- wp (match ?x with _ => _ end) _ _ => destruct x eqn:?
    end).

Ltac ltb_facts :=
  repeat match goal with
         | H : (_ <? _)%Z = true |- _ => apply Z.ltb_lt in H
         | H : (_ <? _)%Z = false |- _ => apply Z.ltb_ge in H
         | H : (_ >=? _)%Z = true |- _ => apply Z.geb_le in H
         | H : (_ >=? _)%Z = false |- _ =>
             rewrite Z.geb_leb in H; apply Z.leb_gt in H
         end.

(** *** Restart accounting *)

Section AccountingFacts.
Context {S : Type} (count limit : S -> Z).

Global Instance kept_or_reset_preorder : PreOrder (kept_or_reset count limit).
Proof.
  split.
  - intros st. split; auto.
  - intros a b c [H1 H1'] [H2 H2']. split; [congruence |].
    destruct H2' as [H2'|H2']; [rewrite H2'; exact H1' | by right].
Qed.

Global Instance idle_preorder : PreOrder (idle count limit).
Proof.
  split.
  - intros st. by repeat split.
  - intros a b c (H1 & H2 & H3) (H4 & H5 & H6). unfold idle.
    split_and!; congruence.
Qed.

Lemma kept_or_reset_in_world {A} (op : World -> A * World) :
  keeps (kept_or_reset count limit) (in_world op).
Proof.
  intros [s w]. unfold in_world, kept_or_reset. cbn.
  destruct (op w). cbn. auto.
Qed.

Lemma kept_or_reset_modify (f : S -> S) :
  (forall s, limit (f s) = limit s /\
             (count (f s) = count s \/ count (f s) = 0%Z)) ->
  keeps (kept_or_reset count limit) (modify f).
Proof. intros H [s w]. exact (H s). Qed.

Lemma within_kept (st st' : S * World) :
  kept_or_reset count limit st st' ->
  within_limit count limit st -> within_limit count limit st'.
Proof. unfold kept_or_reset, within_limit. intros [H1 H2] [H3 H4]. lia. Qed.

Lemma idle_event_wait ms :
  keeps (idle count limit) (event_set_during_wait ms).
Proof.
  intros [s w]. unfold event_set_during_wait, in_world, next, idle. cbn.
  by destruct (event_answers w) as [|[] ?].
Qed.

Lemma idle_sleep ms : keeps (idle count limit) (sleep ms).
Proof. intros [s w]. by unfold idle. Qed.

End AccountingFacts.

Global Hint Extern 2 (keeps (kept_or_reset _ _) (modify _)) =>
  (apply kept_or_reset_modify; intros; cbn; auto) : keeps.
Global Hint Extern 2 (keeps (kept_or_reset _ _) _) =>
  (unfold os_kill0, os_kill, poll_is_none, connect_ex_ok, popen, stderr_read,
     subprocess_run, terminate, kill, killpg, wait5, thread_join5,
     event_set_during_wait, write_file, sleep, time, log_event;
   apply kept_or_reset_in_world) : keeps.
Global Hint Resolve idle_event_wait idle_sleep : keeps.

(** One step of a run that keeps the counter within its limit: walk on,
    use the induction hypothesis at the loop, carry the invariant across
    a call, or re-establish it after an assignment. *)
Ltac limit_step count limit loop :=
  first
    [ progress wp_go
    | match goal with
      | H : within_limit count limit ?st |- wp loop _ ?st =>
          match goal with
          | IH : forall st, within_limit count limit st -> _ |- _ =>
              exact (IH st H)
          end
      | |- wp _ _ _ =>
          apply wp_same_state; [solve [eauto with keeps] |];
          intros ? ?; cbn [fst snd]
      | H : within_limit count limit ?st |- wp _ _ ?st =>
          apply (wp_keeps (kept_or_reset count limit));
          [solve [eauto with keeps] |];
          let a := fresh "a" in let s := fresh "s" in let w := fresh "w" in
          let K := fresh "K" in
          intros a [s w] K; apply (within_kept _ _ _ _ K) in H; clear K
      | H : within_limit count limit _ |- within_limit count limit _ =>
          exact H
      | |- wp _ _ ?st =>
          lazymatch goal with
          | H : within_limit count limit st |- _ => fail
          | _ => idtac
          end;
          first [ exfalso; cbn in *; congruence
                | assert (within_limit count limit st)
                    by (ltb_facts; unfold within_limit in *; cbn in *; lia) ]
      end ].

(** One step of a run that starts with the counter at its limit. *)
Ltac idle_step count limit loop st0 :=
  first
    [ progress wp_go
    | solve [ exfalso; ltb_facts; unfold idle, at_limit in *; cbn in *; lia ]
    | match goal with
      | H : idle count limit st0 ?st |- wp loop _ ?st =>
          match goal with
          | IH : forall st1 st, at_limit count limit st1 -> _ |- _ =>
              apply (IH st0 st); [assumption | exact H]
          end
      | H : idle count limit st0 ?st |- wp _ _ ?st =>
          apply (wp_keeps (idle count limit));
          [solve [eauto with keeps] |];
          let a := fresh "a" in let s := fresh "s" in let w := fresh "w" in
          let K := fresh "K" in
          intros a [s w] K;
          apply (fun X => @transitivity _ (idle count limit) _ _ _ _ X K) in H;
          clear K
      | H : idle count limit st0 _ |- idle count limit st0 _ => exact H
      | H : idle count limit st0 _ |- _ =>
          first [ exfalso; cbn in *; congruence
                | exfalso; ltb_facts; unfold idle, at_limit in *;
                  cbn in *; lia ]
      | |- wp _ _ ?st =>
          lazymatch goal with
          | H : idle count limit st0 st |- _ => fail
          | _ => idtac
          end;
          assert (idle count limit st0 st)
            by (unfold idle in *; cbn in *; intuition congruence)
      | |- idle count limit st0 ?st =>
          unfold idle in *; cbn in *; intuition congruence
      end ].

(** Run the program in equation [E] up to its next branch. *)
Ltac run_in E :=
  repeat (cbn beta iota zeta delta [fst snd] in E;
          match type of E with
          | context [let '(_, _) := ?x in _] =>
              let a := fresh "a" in let st := fresh "st" in
              let Ex := fresh "E" in destruct x as [a st] eqn:Ex
          end).

(** Case analysis on the next answer of every script a run consults. *)
Ltac answers :=
  repeat match goal with
  | |- context [match ?l with [] => _ | _ :: _ => _ end] =>
      destruct l as [|[] ?]; cbn
  end.

End ProgFacts.
Export ProgFacts.

(** ** Configuration *)

Module ConfigFacts.

Lemma from_dict_to_dict (c : JupyterConfig) : from_dict (to_dict c) = Returns c.
Proof. destruct c. vm_compute. reflexivity. Qed.

(** What the merge loop leaves under each key. *)
Lemma merge_dict_lookup (base kwargs : gmap string pyval) (k : string) :
  Service.merge_dict base kwargs !! k =
  if hasattr k then
    match kwargs !! k with Some v => Some v | None => base !! k end
  else base !! k.
Proof.
  unfold Service.merge_dict.
  apply (map_fold_weak_ind (fun r (m : gmap string pyval) =>
    r !! k = if hasattr k
             then match m !! k with Some v => Some v | None => base !! k end
             else base !! k)).
  - rewrite lookup_empty. by destruct (hasattr k).
  - intros i x m r Hi IH.
    destruct (decide (i = k)) as [->|Hne].
    + rewrite lookup_insert_eq. destruct (hasattr k).
      * by rewrite lookup_insert_eq.
      * exact IH.
    + rewrite (lookup_insert_ne m) by done.
      destruct (hasattr i); [rewrite lookup_insert_ne by done |]; exact IH.
Qed.

Lemma typed_fields_port (d : gmap string pyval) (c : JupyterConfig) (p : Z) :
  typed_fields d = Some c -> d !! "port" = Some (PInt p) -> port c = p.
Proof.
  unfold typed_fields, get_int. intros H Hp. rewrite Hp in H. cbn in H.
  repeat match type of H with
         | (match ?x with _ => _ end) = _ => destruct x; [cbn in H | done]
         | (?x ≫= _) = _ => destruct x; [cbn in H | done]
         end.
  by inversion H.
Qed.

Lemma merge_port (s : Service.JupyterManager) (kwargs : gmap string pyval)
    (merged : JupyterConfig) (p : Z) :
  kwargs !! "port" = Some (PInt p) ->
  Service._merge_config s kwargs = Returns merged -> port merged = p.
Proof.
  intros Hp. unfold Service._merge_config, from_dict.
  case_bool_decide; [|done].
  destruct (typed_fields _) as [c|] eqn:Hc; [|done].
  intros [= <-]. eapply typed_fields_port; [exact Hc |].
  rewrite merge_dict_lookup, Hp. reflexivity.
Qed.

(** Without a [port] keyword the merged configuration has the stored
    port. *)
Lemma merge_port_stored (s : Service.JupyterManager)
    (kwargs : gmap string pyval) (merged : JupyterConfig) :
  kwargs !! "port" = None ->
  Service._merge_config s kwargs = Returns merged ->
  port merged = port (Service.config s).
Proof.
  intros Hp. unfold Service._merge_config, from_dict.
  case_bool_decide; [|done].
  destruct (typed_fields _) as [c|] eqn:Hc; [|done].
  intros [= <-]. eapply typed_fields_port; [exact Hc |].
  rewrite merge_dict_lookup, Hp. by destruct (Service.config s).
Qed.

(** A port outside 1024..65535 puts the port message into [errors]. *)
Lemma validate_port (pf : Platform) (c : JupyterConfig) :
  (port c < 1024 \/ 65535 < port c)%Z ->
  fst (validate pf c) = false /\ In port_error (snd (validate pf c)).
Proof.
  intros Hp. unfold validate.
  replace ((port c <? 1024)%Z || (port c >? 65535)%Z) with true
    by (symmetry; apply orb_true_iff; destruct Hp; [left | right]; lia).
  cbn [fst snd app].
  repeat match goal with
         | |- context [if ?b then _ else _] => destruct b
         end; cbn; auto.
Qed.

End ConfigFacts.

(** ** The service supervisor *)

Module ServiceFacts.

Import ConfigFacts.

Lemma bind_kwargs_ok (fname : string) (kwargs : gmap string pyval) :
  "self" ∉ dom kwargs -> bind_kwargs fname kwargs = Returns kwargs.
Proof. intros H. unfold bind_kwargs. by rewrite bool_decide_eq_false_2. Qed.

(** [start] on a merged configuration with a bad port: the validation
    failure is returned before anything is touched. *)
Lemma start_merged_bad_port (caller : Caller) (merged : JupyterConfig)
    (st : Service.JupyterManager * World) :
  (port merged < 1024 \/ 65535 < port merged)%Z ->
  exists r, Service.start_merged caller merged st = (r, st) /\
            success r = false /\ In port_error (errors r) /\ launch r = None.
Proof.
  intros Hp. destruct st as [s w].
  destruct (validate_port (platform w) merged Hp) as [Hv He].
  unfold Service.start_merged, bind, get_world. cbn [fst snd].
  destruct (validate (platform w) merged) as [valid errs].
  cbn [fst snd] in Hv, He. subst valid. cbn.
  eexists. split; [reflexivity |]. cbn. auto.
Qed.



(** *** Liveness probe *)

(** What [is_running] may do to the manager: nothing when it answers
    [True]; when it answers [False] it has either done nothing or cleared
    [process], [managed_pid] and [start_time] together.  It never touches
    the trace. *)
Lemma service_is_running_frame (st : Service.JupyterManager * World) :
  let r := Service.is_running st in
  (fst r = true -> fst (snd r) = fst st) /\
  (fst r = false ->
     fst (snd r) = fst st \/
     fst (snd r) = Service.set_handle None None None (fst st)) /\
  events (snd (snd r)) = events (snd st).
Proof.
  destruct st as [s w].
  unfold Service.is_running, Service._is_port_occupied, bind, ret, get,
    modify, os_kill0, poll_is_none, connect_ex_ok, in_world, next.
  cbn.
  destruct (Service.pid_truthy (Service.managed_pid s)); cbn.
  - answers; naive_solver.
  - destruct (Service.process s) as [h|]; cbn; answers; naive_solver.
Qed.

(** A probe of a manager whose child has gone. *)
Lemma is_running_clears_handle :
  let r := Service.is_running (Scenario.running_service, Scenario.quiet) in
  Service.managed_pid Scenario.running_service = Some 101 /\
  fst r = false /\
  Service.process (fst (snd r)) = None /\
  Service.managed_pid (fst (snd r)) = None /\
  Service.start_time (fst (snd r)) = None.
Proof. vm_compute. auto. Qed.

(** *** Stopping *)

(** [stop] asked for by a request while the manager holds neither a pid
    nor a process object: nothing is signalled and the reply is the
    success reply with the not-running message. *)
Lemma stop_without_handle (st : Service.JupyterManager * World) :
  Service.pid_truthy (Service.managed_pid (fst st)) = false ->
  Service.process (fst st) = None ->
  let r := Service.stop Manual st in
  fst r = done_ok Service.not_running_message /\
  events (snd (snd r)) = events (snd st) /\
  Service.process (fst (snd r)) = None /\
  Service.managed_pid (fst (snd r)) = None.
Proof.
  destruct st as [s w]. cbn [fst]. intros Hpid Hproc.
  unfold Service.stop, Service._stop_protection, Service._stop_process,
    Service._cleanup, bind, ret, get, modify, when, thread_join5, in_world,
    next.
  cbn. destruct (Service.protection_alive s); cbn.
  - answers; rewrite Hpid, Hproc; cbn; auto.
  - rewrite Hpid, Hproc. cbn. auto.
Qed.

Lemma stop_messages_differ :
  Service.not_running_message <> Service.stopped_message.
Proof. discriminate. Qed.

(** *** Startup check *)

(** The service's test on stderr output: non-empty, and one of its three
    markers occurs in the lower-cased text. *)
Lemma startup_error_spec (text : string) :
  Service.startup_error text = true <->
  text <> EmptyString /\
  exists k pre post,
    In k ["error:"; "exception"; "traceback"] /\
    lower text = pre +:+ k +:+ post.
Proof.
  unfold Service.startup_error. rewrite andb_true_iff.
  rewrite PyFacts.str_truthy_spec, PyFacts.any_in_spec. reflexivity.
Qed.

Lemma wait_rounds_first (n : nat) (st : Service.JupyterManager * World)
    (pid h : nat) (ks : list bool) (text : string) (es : list (option string)) :
  Service.managed_pid (fst st) = Some (S pid) ->
  Service.process (fst st) = Some h ->
  kill0_answers (snd st) = true :: ks ->
  stderr_answers (snd st) = Some text :: es ->
  fst (Service._wait_rounds (S n) (now (snd st)) st)
  = negb (Service.startup_error (take_str 1000 text)).
Proof.
  destruct st as [s w]. cbn [fst snd]. intros Hpid Hproc Hk He.
  cbn [Service._wait_rounds].
  unfold Service.is_running, bind, ret, get, modify, time, os_kill0,
    stderr_read, in_world, next.
  cbn. rewrite Z.sub_diag. cbn. rewrite Hpid. cbn. rewrite Hk. cbn.
  rewrite Hproc. cbn. rewrite He. cbn.
  by destruct (Service.startup_error (take_str 1000 text)).
Qed.

(** [_wait_for_startup] when the first probe finds the child alive: the
    result is decided by the test on the first 1000 characters read. *)
Lemma wait_for_startup_first (st : Service.JupyterManager * World)
    (pid h : nat) (ks : list bool) (text : string) (es : list (option string)) :
  Service.managed_pid (fst st) = Some (S pid) ->
  Service.process (fst st) = Some h ->
  kill0_answers (snd st) = true :: ks ->
  stderr_answers (snd st) = Some text :: es ->
  fst (Service._wait_for_startup st)
  = negb (Service.startup_error (take_str 1000 text)).
Proof.
  intros. unfold Service._wait_for_startup, bind at 1. unfold time, in_world.
  destruct st as [s w]. cbn [fst snd] in *.
  by apply (wait_rounds_first 30 (s, w) pid h ks text es).
Qed.


(** *** The trace only grows *)

Lemma grows_is_running : keeps grows Service.is_running.
Proof.
  unfold Service.is_running, Service._is_port_occupied. keeps_walk.
Qed.

Lemma grows_wait_rounds n t0 : keeps grows (Service._wait_rounds n t0).
Proof.
  induction n as [|n IH]; cbn [Service._wait_rounds].
  - keeps_walk.
  - pose proof grows_is_running. keeps_walk.
Qed.

Lemma grows_stop_process : keeps grows Service._stop_process.
Proof. unfold Service._stop_process. keeps_walk. Qed.

Lemma grows_start_protection : keeps grows Service._start_protection.
Proof. unfold Service._start_protection. keeps_walk. Qed.

Lemma grows_validate_environment c :
  keeps grows (Service._validate_environment c).
Proof. unfold Service._validate_environment. keeps_walk. Qed.

Lemma grows_start_process c : keeps grows (Service._start_process c).
Proof.
  unfold Service._start_process, Service._wait_for_startup.
  pose proof grows_wait_rounds. pose proof grows_stop_process.
  pose proof grows_start_protection. keeps_walk.
Qed.

(** *** The restart counter *)

Global Instance same_count_preorder : PreOrder same_count.
Proof.
  split.
  - intros st. reflexivity.
  - intros a b c H1 H2. unfold same_count in *. congruence.
Qed.

Lemma same_count_in_world {A} (op : World -> A * World) :
  keeps same_count (in_world op).
Proof. intros [s w]. unfold in_world, same_count. cbn. by destruct (op w). Qed.

Lemma same_count_modify (f : Service.JupyterManager -> Service.JupyterManager) :
  (forall s, Service.restart_count (f s) = Service.restart_count s) ->
  keeps same_count (modify f).
Proof. intros H [s w]. unfold same_count. cbn. apply H. Qed.

Global Hint Extern 2 (keeps same_count (modify _)) =>
  (apply same_count_modify; intros; reflexivity) : keeps.
Global Hint Extern 2 (keeps same_count _) =>
  (unfold os_kill0, os_kill, poll_is_none, connect_ex_ok, popen, stderr_read,
     subprocess_run, terminate, kill, killpg, wait5, thread_join5,
     event_set_during_wait, write_file, sleep, time, log_event;
   apply same_count_in_world) : keeps.

Lemma same_count_is_running : keeps same_count Service.is_running.
Proof.
  unfold Service.is_running, Service._is_port_occupied. keeps_walk.
Qed.

Lemma same_count_wait_rounds n t0 : keeps same_count (Service._wait_rounds n t0).
Proof.
  induction n as [|n IH]; cbn [Service._wait_rounds].
  - keeps_walk.
  - pose proof same_count_is_running. keeps_walk.
Qed.

Lemma same_count_stop_process : keeps same_count Service._stop_process.
Proof. unfold Service._stop_process. keeps_walk. Qed.

Lemma same_count_start_protection : keeps same_count Service._start_protection.
Proof. unfold Service._start_protection. keeps_walk. Qed.

Lemma start_process_resets (c : JupyterConfig) (st : Service.JupyterManager * World) :
  success (fst (Service._start_process c st)) = true ->
  Service.restart_count (fst (snd (Service._start_process c st))) = 0%Z.
Proof.
  destruct st as [s w].
  destruct (Service._start_process c (s, w)) as [r st'] eqn:E. cbn [fst snd].
  unfold Service._start_process in E.
  match type of E with
  | context [bind Service._wait_for_startup ?k] =>
      set (rest := bind Service._wait_for_startup k) in E;
      assert (keeps same_count rest) as Hrest
  end.
  { subst rest. unfold Service._wait_for_startup.
    pose proof same_count_wait_rounds. pose proof same_count_stop_process.
    pose proof same_count_start_protection. keeps_walk. }
  unfold bind, get_world, popen, time, modify, in_world, next in E.
  cbn in E.
  destruct (popen_answers w) as [|[pid|] tl]; cbn in E;
    try (injection E as <- <-; discriminate).
  intros _. specialize (Hrest (Service.set_restart_count 0
      (Service.set_handle (Some pid) (Some pid) (Some (now w)) s),
      emit (EvSpawn (Service._build_command (platform w) c)
              (str_or (project_dir c) (cwd (platform w))) pid)
           (with_popen tl w))).
  unfold same_count in Hrest. cbn [fst snd] in Hrest.
  rewrite E in Hrest. exact Hrest.
Qed.


Lemma start_merged_resets (caller : Caller) (merged : JupyterConfig)
    (st : Service.JupyterManager * World) :
  success (fst (Service.start_merged caller merged st)) = true ->
  Service.restart_count (fst (snd (Service.start_merged caller merged st)))
  = 0%Z.
Proof.
  destruct (Service.start_merged caller merged st) as [r st'] eqn:E.
  cbn [fst snd]. intros Hs.
  unfold Service.start_merged in E. unfold bind at 1 in E.
  unfold get_world at 1 in E. cbn [fst snd] in E.
  destruct (validate _ merged) as [valid errs].
  destruct valid; cbn [negb] in E;
    [| injection E as <- <-; discriminate Hs].
  unfold bind, ret, when in E. run_in E.
  destruct a1; cbn [negb] in E; [| injection E as <- <-; discriminate Hs].
  run_in E. injection E as <- <-.
  pose proof (start_process_resets merged st2) as Hreset.
  rewrite E3 in Hreset. cbn [fst snd] in Hreset.
  rewrite Hs in E4. unfold modify in E4. injection E4 as _ <-.
  cbn. auto.
Qed.

(** Every [start] that reports success leaves the counter at 0, whoever
    called it: a request handler or the protection loop. *)
Lemma start_resets_count (caller : Caller) (kwargs : gmap string pyval)
    (st : Service.JupyterManager * World) (r : Result) :
  fst (Service.start caller kwargs st) = Returns r ->
  success r = true ->
  Service.restart_count (fst (snd (Service.start caller kwargs st))) = 0%Z.
Proof.
  unfold Service.start.
  destruct (bind_kwargs _ kwargs) as [kw| |]; [| discriminate ..].
  unfold bind at 1 3. unfold get. cbn [fst snd].
  destruct (Service._merge_config _ kw) as [merged| |]; [| discriminate ..].
  pose proof (start_merged_resets caller merged st) as H.
  unfold bind, ret.
  destruct (Service.start_merged caller merged st) as [r' st']. cbn in *.
  intros [= ->]. exact H.
Qed.

(** C1, at the input where the code departs from it.  A manual start
    leaves the counter at 0.  Then the child dies; the protection loop
    counts its restart attempt as number 1 of 3, and the restart it
    performs puts the counter back to 0 instead of keeping the 1. *)
Lemma automatic_restart_resets_count :
  let st1 := snd (Service.start Manual ∅
                    (Scenario.fresh_service, Scenario.dying_children)) in
  let st2 := snd (Service._process_protection 1 st1) in
  Service.restart_count (fst st1) = 0%Z /\
  spawned (events (snd st1)) = [101] /\
  In (EvRestartAttempt 1 3) (events (snd st2)) /\
  spawned (events (snd st2)) = [102; 101] /\
  Service.restart_count (fst st2) = 0%Z.
Proof. vm_compute. intuition. Qed.

(** C2, at the input where the code departs from it.  With
    [max_restarts] = 3 and a child that dies after every successful
    restart, five turns of the loop make five automatic restart attempts
    and spawn five more children; the loop is still running. *)
Lemma restarts_exceed_limit :
  let st1 := snd (Service.start Manual ∅
                    (Scenario.fresh_service, Scenario.dying_children)) in
  let r := Service._process_protection 5 st1 in
  Service.max_restarts (fst st1) = 3%Z /\
  fst r = StillRunning /\
  restart_attempts (events (snd (snd r))) = 5 /\
  spawned (events (snd (snd r))) = [106; 105; 104; 103; 102; 101] /\
  Service.restart_count (fst (snd r)) = 0%Z.
Proof. vm_compute. intuition. Qed.

(** *** The limit on automatic restarts *)

Abbreviation svc_kept := (kept_or_reset Service.restart_count Service.max_restarts).
Abbreviation svc_within := (within_limit Service.restart_count Service.max_restarts).
Abbreviation svc_at_limit := (at_limit Service.restart_count Service.max_restarts).
Abbreviation svc_idle := (idle Service.restart_count Service.max_restarts).

Lemma kept_or_reset_is_running : keeps svc_kept Service.is_running.
Proof.
  unfold Service.is_running, Service._is_port_occupied. keeps_walk.
Qed.

Lemma kept_or_reset_wait_rounds n t0 :
  keeps svc_kept (Service._wait_rounds n t0).
Proof.
  induction n as [|n IH]; cbn [Service._wait_rounds].
  - keeps_walk.
  - pose proof kept_or_reset_is_running. keeps_walk.
Qed.

Lemma kept_or_reset_stop_process : keeps svc_kept Service._stop_process.
Proof. unfold Service._stop_process. keeps_walk. Qed.

Lemma kept_or_reset_stop caller : keeps svc_kept (Service.stop caller).
Proof.
  unfold Service.stop, Service._stop_protection, Service._cleanup.
  pose proof kept_or_reset_stop_process. keeps_walk.
Qed.

Lemma kept_or_reset_start_process c :
  keeps svc_kept (Service._start_process c).
Proof.
  unfold Service._start_process, Service._wait_for_startup,
    Service._start_protection.
  pose proof kept_or_reset_wait_rounds. pose proof kept_or_reset_stop_process.
  keeps_walk.
Qed.

(** Whatever [start] does, it leaves the counter as it was or at 0. *)
Lemma kept_or_reset_start caller kwargs :
  keeps svc_kept (Service.start caller kwargs).
Proof.
  unfold Service.start, Service.start_merged, Service._validate_environment.
  pose proof kept_or_reset_is_running. pose proof kept_or_reset_stop.
  pose proof kept_or_reset_start_process. keeps_walk.
Qed.

Lemma idle_is_running : keeps svc_idle Service.is_running.
Proof.
  intros st. destruct (service_is_running_frame st) as (Ht & Hf & He).
  unfold idle. split; [exact He |].
  destruct (fst (Service.is_running st)).
  - by rewrite Ht.
  - destruct Hf as [-> | ->]; auto.
Qed.

Global Hint Resolve kept_or_reset_is_running kept_or_reset_start
  idle_is_running : keeps.

(** However long the protection loop runs and whatever the system
    answers, a counter within its limit stays within its limit. *)
Lemma protection_keeps_limit (n : nat) (st : Service.JupyterManager * World) :
  svc_within st ->
  wp (Service._process_protection n) (fun _ st' => svc_within st') st.
Proof.
  revert st. induction n as [|n IH]; intros [s w] Hw; [exact Hw |].
  cbn [Service._process_protection]. unfold Service.thread_exit, when.
  repeat limit_step Service.restart_count Service.max_restarts
           (Service._process_protection n).
Qed.

(** Entered with the counter at its limit, the loop adds nothing to the
    trace: no restart attempt, no spawn. *)
Lemma protection_idle_at_limit (n : nat)
    (st0 st : Service.JupyterManager * World) :
  svc_at_limit st0 -> svc_idle st0 st ->
  wp (Service._process_protection n) (fun _ st' => svc_idle st0 st') st.
Proof.
  revert st0 st. induction n as [|n IH]; intros st0 [s w] H0 Hi; [exact Hi |].
  cbn [Service._process_protection]. unfold Service.thread_exit, when.
  repeat idle_step Service.restart_count Service.max_restarts
           (Service._process_protection n) st0.
Qed.

Lemma protection_stops_at_limit (n : nat)
    (st : Service.JupyterManager * World) :
  (Service.max_restarts (fst st) <= Service.restart_count (fst st))%Z ->
  events (snd (snd (Service._process_protection n st))) = events (snd st).
Proof.
  intros H. pose proof (protection_idle_at_limit n st st H) as Hwp.
  unfold wp in Hwp. by destruct Hwp as (He & _).
Qed.

(** *** Starting over a live child *)

(** [stop] asked for by a request terminates the process it holds. *)
Lemma stop_terminates (st : Service.JupyterManager * World) (pid : nat) :
  Service.process (fst st) = Some pid ->
  exists l, events (snd (snd (Service.stop Manual st)))
            = l ++ EvTerminate pid :: events (snd st).
Proof.
  destruct st as [s w]. cbn [fst snd]. intros Hp.
  unfold Service.stop, Service._stop_protection, Service._stop_process,
    Service._cleanup, bind, ret, get, modify, when, thread_join5, terminate,
    wait5, kill, in_world, next.
  cbn. destruct (Service.protection_alive s); cbn.
  - destruct (join_answers w) as [|[] ?]; cbn; rewrite Hp, andb_false_r; cbn;
      destruct (wait_answers w) as [|[] ?]; cbn;
      first [by exists [] | by eexists [_]].
  - rewrite Hp, andb_false_r. cbn.
    destruct (wait_answers w) as [|[] ?]; cbn;
      first [by exists [] | by eexists [_]].
Qed.

(** [start] with a valid configuration while the probe finds the child
    alive: the call is not refused; the child is terminated and the start
    goes on from there. *)
Lemma start_merged_on_live_child (merged : JupyterConfig)
    (st : Service.JupyterManager * World) (pid : nat) :
  fst (validate (platform (snd st)) merged) = true ->
  fst (Service.is_running st) = true ->
  Service.process (fst st) = Some pid ->
  exists l, events (snd (snd (Service.start_merged Manual merged st)))
            = l ++ EvTerminate pid :: events (snd st).
Proof.
  intros Hv Hrun Hp.
  destruct (service_is_running_frame st) as (Hsame & _ & Hev).
  specialize (Hsame Hrun).
  destruct (Service.start_merged Manual merged st) as [r st'] eqn:E.
  cbn [fst snd].
  unfold Service.start_merged in E. unfold bind at 1 in E.
  unfold get_world at 1 in E. cbn [fst snd] in E.
  destruct (validate _ merged) as [valid errs]. cbn in Hv. subst valid.
  cbn [negb] in E. unfold bind, ret, when in E. run_in E.
  cbn [fst snd] in Hrun, Hsame, Hev. subst a. run_in E1.
  destruct (stop_terminates st0 pid) as [l1 H1]; [by rewrite Hsame |].
  rewrite E3 in H1. cbn [fst snd] in H1.
  assert (st1 = st3) as -> by congruence.
  destruct (grows_validate_environment merged st3) as [l2 H2].
  rewrite E2 in H2. cbn [fst snd] in H2.
  destruct a1; cbn [negb] in E.
  - run_in E.
    destruct (grows_start_process merged st2) as [l3 H3].
    rewrite E4 in H3. cbn [fst snd] in H3.
    assert (events (snd st4) = events (snd st1)) as H4.
    { destruct (success a1); unfold modify, ret in E5; by simplify_eq. }
    assert (st' = st4) as -> by congruence.
    exists (l3 ++ l2 ++ l1). rewrite H4, H3, H2, H1, Hev.
    by rewrite <- !app_assoc.
  - assert (st' = st2) as -> by congruence.
    exists (l2 ++ l1). rewrite H2, H1, Hev. by rewrite <- !app_assoc.
Qed.


End ServiceFacts.

(** ** The web_app supervisor *)

Module WebAppFacts.

(** [is_running] answers [True] without touching the manager; when it
    answers [False] it has either done nothing or cleared [process].  It
    never touches [CONFIG] or the trace. *)
Lemma web_is_running_frame (st : WebApp.App * World) :
  let r := WebApp.is_running st in
  (fst r = true -> fst (snd r) = fst st) /\
  (fst r = false ->
     fst (snd r) = fst st \/
     fst (snd r) = WebApp.on_manager (WebApp.set_process None) (fst st)) /\
  (fst r = false -> WebApp.process (WebApp.manager (fst (snd r))) = None) /\
  events (snd (snd r)) = events (snd st).
Proof.
  destruct st as [a w].
  unfold WebApp.is_running, bind, ret, get, modify, poll_is_none, in_world,
    next.
  cbn.
  destruct (WebApp.process (WebApp.manager a)) as [h|] eqn:Hp; cbn.
  - answers; naive_solver.
  - naive_solver.
Qed.

(** [stop] when the probe answers [False]: the failure reply with the
    not-running message, and nothing done beyond the probe. *)
Lemma stop_not_running (st : WebApp.App * World) :
  fst (WebApp.is_running st) = false ->
  WebApp.stop st
  = (failure WebApp.not_running_message, snd (WebApp.is_running st)).
Proof.
  intros H. unfold WebApp.stop, bind at 1.
  destruct (WebApp.is_running st) as [b st']. cbn in H. subst b. reflexivity.
Qed.

(** [start] when the probe answers [True]: the already-running failure,
    and nothing done beyond the probe. *)
Lemma start_already_running (st : WebApp.App * World)
    (p : option Z) (py dir : pyval) (nb : option bool) (file : option string) :
  fst (WebApp.is_running st) = true ->
  WebApp.start p py dir nb file st
  = (failure WebApp.already_running_message, snd (WebApp.is_running st)).
Proof.
  intros H. unfold WebApp.start, bind at 1.
  destruct (WebApp.is_running st) as [b st']. cbn in H. subst b. reflexivity.
Qed.

(** [start] when the probe answers [False]: the body runs from the state
    the probe left, which holds no process. *)
Lemma start_stale (st : WebApp.App * World)
    (p : option Z) (py dir : pyval) (nb : option bool) (file : option string) :
  fst (WebApp.is_running st) = false ->
  WebApp.start p py dir nb file st
  = WebApp.start_body p py dir nb file (snd (WebApp.is_running st)).
Proof.
  intros H. unfold WebApp.start, bind at 1.
  destruct (WebApp.is_running st) as [b st']. cbn in H. subst b. reflexivity.
Qed.

Lemma stop_on_fresh_manager :
  WebApp.stop (Scenario.fresh_web, Scenario.quiet)
  = (failure WebApp.not_running_message, (Scenario.fresh_web, Scenario.quiet))
    /\ success (failure WebApp.not_running_message) = false.
Proof. vm_compute. auto. Qed.

(** *** Early-crash detection *)

(** The test on stderr output: non-empty, and one of the five markers
    occurs in the lower-cased text. *)
Lemma early_crash_spec (text : string) :
  WebApp.early_crash text = true <->
  text <> EmptyString /\
  exists k pre post,
    In k ["error:"; "exception"; "traceback"; "failed"; "fatal"] /\
    lower text = pre +:+ k +:+ post.
Proof.
  unfold WebApp.early_crash. rewrite andb_true_iff.
  rewrite PyFacts.str_truthy_spec, PyFacts.any_in_spec. reflexivity.
Qed.

Lemma crash_message_distinct (detail : string) (l : Launch) (msg : string) :
  failure ("启动错误: " +:+ detail) <> failure WebApp.start_failed_message /\
  failure ("启动错误: " +:+ detail) <> started msg l.
Proof.
  split; [|discriminate].
  unfold failure, WebApp.start_failed_message. intros H.
  injection H as H. vm_compute in H. discriminate H.
Qed.

(** [launch] once the spawn gave [pid] and the read gave [text]: the
    early-crash failure is reported exactly when the test fires on the
    first 2000 characters; the child is then terminated.  Otherwise the
    reply is the one of the liveness probes: a started server, or the
    plain start failure. *)
Lemma launch_early_crash (st : WebApp.App * World) (cmd : list string)
    (dir : string) (nb : bool) (pid : nat) (ps : list (option nat))
    (text : string) (es : list (option string)) :
  popen_answers (snd st) = Some pid :: ps ->
  stderr_answers (snd st) = Some text :: es ->
  let out := take_str 2000 text in
  let r := WebApp.launch cmd dir nb st in
  (WebApp.early_crash out = true ->
     fst r = failure ("启动错误: " +:+ take_str 500 out) /\
     events (snd (snd r))
       = EvTerminate pid :: EvSpawn cmd dir pid :: events (snd st)) /\
  (WebApp.early_crash out = false ->
     fst r = failure WebApp.start_failed_message \/ success (fst r) = true).
Proof.
  destruct st as [a w]. cbn [snd]. intros Hp He. cbn zeta.
  unfold WebApp.launch, bind, ret, popen, stderr_read, sleep, terminate,
    in_world, modify, next.
  cbn. rewrite Hp. cbn. rewrite He. cbn.
  destruct (WebApp.early_crash (take_str 2000 text)); cbn.
  - split; [auto | discriminate].
  - split; [discriminate | intros _].
    unfold WebApp.is_running, bind, ret, get, modify, poll_is_none, in_world,
      next, when, time, log_event.
    cbn. answers; auto;
      destruct (WebApp.auto_restart (WebApp.manager a)); cbn; auto.
Qed.

(** *** Saving the configuration *)

Lemma missing_is_no_file (pf : Platform) (p : string) :
  path_exists pf p = false -> is_file pf p = false /\ is_dir pf p = false.
Proof.
  unfold path_exists, is_file, is_dir. intros H.
  apply negb_false_iff, bool_decide_eq_true in H. rewrite H.
  split; by apply bool_decide_eq_false.
Qed.

Lemma check_path_bad (pf : Platform) (config : gmap string pyval)
    (key : string) (wanted : Platform -> string -> bool) (what p : string) :
  config !! key = Some (PStr p) -> wanted pf p = false ->
  WebApp.check_path pf config key wanted what = Some (failure (what +:+ p)).
Proof.
  intros Hk Hw. unfold WebApp.check_path. rewrite Hk. cbn. rewrite Hw.
  by rewrite orb_true_r.
Qed.

Lemma check_path_ok (pf : Platform) (config : gmap string pyval)
    (key : string) (wanted : Platform -> string -> bool) (what : string) :
  supplied_ok pf config key wanted ->
  WebApp.check_path pf config key wanted what = None.
Proof.
  unfold supplied_ok, WebApp.check_path.
  destruct (config !! key) as [[]|]; try done.
  cbn. intros [H1 H2]. by rewrite H1, H2.
Qed.

Lemma check_path_failure (pf : Platform) (config : gmap string pyval)
    (key : string) (wanted : Platform -> string -> bool) (what : string)
    (r : Result) :
  WebApp.check_path pf config key wanted what = Some r -> success r = false.
Proof.
  unfold WebApp.check_path.
  destruct (config !! key) as [v|]; [|done].
  destruct (WebApp.as_path v); [| by intros [= <-] ..].
  destruct (_ || _); [by intros [= <-] | done].
Qed.

(** A rejected save leaves the application and the world as they were. *)
Lemma save_config_rejected (st : WebApp.App * World)
    (config : gmap string pyval) :
  let pf := platform (snd st) in
  (is_Some (WebApp.check_path pf config "python_executable" is_file
              "Python 解释器路径无效: ") \/
   is_Some (WebApp.check_path pf config "project_dir" is_dir
              "项目目录路径无效: ")) ->
  exists r, WebApp.save_config config st = (r, st) /\ success r = false.
Proof.
  destruct st as [a w]. cbn [snd]. cbn zeta. intros H.
  unfold WebApp.save_config, bind at 1. unfold get_world. cbn [fst snd].
  destruct (WebApp.check_path (platform w) config "python_executable" _ _)
    as [r1|] eqn:H1.
  - exists r1. split; [done | by eapply check_path_failure].
  - destruct (WebApp.check_path (platform w) config "project_dir" _ _)
      as [r2|] eqn:H2.
    + exists r2. split; [done | by eapply check_path_failure].
    + destruct H as [[? H]|[? H]]; discriminate H.
Qed.

(** An accepted save whose file write succeeds: [CONFIG] is updated with
    the request and that dict is what was written. *)
Lemma save_config_accepted (st : WebApp.App * World)
    (config : gmap string pyval) :
  let pf := platform (snd st) in
  supplied_ok pf config "python_executable" is_file ->
  supplied_ok pf config "project_dir" is_dir ->
  fst (next true (write_answers (snd st))) = true ->
  let r := WebApp.save_config config st in
  fst r = done_ok "配置已保存" /\
  WebApp.CONFIG (fst (snd r)) = config ∪ WebApp.CONFIG (fst st) /\
  events (snd (snd r))
    = EvWriteConfig (config ∪ WebApp.CONFIG (fst st)) :: events (snd st).
Proof.
  destruct st as [a w]. cbn [fst snd]. cbn zeta. intros Hpy Hdir Hw.
  destruct (WebApp.save_config config (a, w)) as [res [a' w']] eqn:E.
  unfold WebApp.save_config, bind at 1 in E. unfold get_world in E.
  cbn [fst snd] in E.
  rewrite (check_path_ok _ _ _ _ _ Hpy), (check_path_ok _ _ _ _ _ Hdir) in E.
  unfold bind, ret, get, modify, write_file, in_world in E. cbn in E.
  destruct (next true (write_answers w)) as [ok rest]. cbn in Hw. subst ok.
  cbn in E. injection E as <- <- <-. cbn. auto.
Qed.

(** *** The protection loop *)

(** Every child dies after it has started: five turns of the loop make
    five automatic restarts with [max_restarts] = 3, each successful
    restart putting the counter back to 0. *)
Lemma web_restarts_exceed_limit :
  let st1 := snd (WebApp.start None PNone PNone None None
                    (Scenario.fresh_web, Scenario.dying_children_web)) in
  let r := WebApp._process_protection 5 0 0 st1 in
  WebApp.max_restarts (WebApp.manager (fst st1)) = 3%Z /\
  fst r = StillRunning /\
  restart_attempts (events (snd (snd r))) = 5 /\
  spawned (events (snd (snd r))) = [106; 105; 104; 103; 102; 101] /\
  WebApp.restart_count (WebApp.manager (fst (snd r))) = 0%Z.
Proof. vm_compute. intuition. Qed.

(** *** A file to open that cannot be used *)

Global Instance spawns_only_preorder {S} (P : list string -> Prop) :
  PreOrder (@spawns_only S P).
Proof.
  split.
  - intros st cmd dir pid H. by left.
  - intros a b c H1 H2 cmd dir pid H.
    destruct (H2 _ _ _ H) as [H'|H']; [by apply H1 | by right].
Qed.

Lemma spawns_only_modify {S} P (f : S -> S) :
  keeps (spawns_only P) (modify f).
Proof. intros st cmd dir pid H. by left. Qed.

Lemma spawns_only_in_world {S A} P (op : World -> A * World) :
  (forall w cmd dir pid,
     In (EvSpawn cmd dir pid) (events (snd (op w))) ->
     In (EvSpawn cmd dir pid) (events w) \/ P cmd) ->
  keeps (spawns_only P) (@in_world S A op).
Proof.
  intros H [s w] cmd dir pid. unfold in_world. cbn.
  specialize (H w cmd dir pid). destruct (op w) as [a w']. exact H.
Qed.

Ltac spawn_free :=
  apply spawns_only_in_world; intros ? ? ? ?; unfold next;
  repeat case_match; simplify_eq; cbn; intros H;
  repeat (destruct H as [H|H]; [discriminate H |]); by left.

Section SpawnFree.
Context {S : Type} (P : list string -> Prop).

Lemma spawns_only_poll pid : keeps (spawns_only P) (@poll_is_none S pid).
Proof. unfold poll_is_none. spawn_free. Qed.
Lemma spawns_only_stderr_read n : keeps (spawns_only P) (@stderr_read S n).
Proof. unfold stderr_read. spawn_free. Qed.
Lemma spawns_only_terminate pid : keeps (spawns_only P) (@terminate S pid).
Proof. unfold terminate. spawn_free. Qed.
Lemma spawns_only_sleep ms : keeps (spawns_only P) (@sleep S ms).
Proof. unfold sleep. spawn_free. Qed.
Lemma spawns_only_time : keeps (spawns_only P) (@time S).
Proof. unfold time. spawn_free. Qed.
Lemma spawns_only_log_thread :
  keeps (spawns_only P) (@log_event S EvThreadStart).
Proof. unfold log_event. spawn_free. Qed.

Lemma spawns_only_popen cmd dir :
  P cmd -> keeps (spawns_only P) (@popen S cmd dir).
Proof.
  intros HP. unfold popen. apply spawns_only_in_world.
  intros w c d q. unfold next.
  repeat case_match; simplify_eq; cbn; intros [H|H]; auto;
    simplify_eq; auto.
Qed.
End SpawnFree.

Global Hint Resolve spawns_only_poll spawns_only_stderr_read
  spawns_only_terminate spawns_only_sleep spawns_only_time
  spawns_only_log_thread spawns_only_popen spawns_only_modify : keeps.

Lemma spawns_only_is_running P : keeps (spawns_only P) WebApp.is_running.
Proof. unfold WebApp.is_running. keeps_walk. Qed.

(** [launch] spawns its command and nothing else. *)
Lemma spawns_only_launch (P : list string -> Prop) cmd dir nb :
  P cmd -> keeps (spawns_only P) (WebApp.launch cmd dir nb).
Proof.
  intros HP. unfold WebApp.launch.
  pose proof (spawns_only_is_running P). keeps_walk.
Qed.

(** [start] without a file to open launches with the base arguments. *)
Lemma start_body_without_file (p : option Z) (py dir : pyval)
    (nb : option bool) :
  keeps (spawns_only is_base_command) (WebApp.start_body p py dir nb None).
Proof.
  intros [a w].
  unfold WebApp.start_body, bind, ret, get, modify, get_world, when,
    subprocess_run, in_world.
  cbn.
  destruct (WebApp.as_path (WebApp.py_or py _)) as [python| |]; cbn;
    [| by intros ? ? ? ?; left ..].
  destruct (path_exists (platform w) python) eqn:Hpy; cbn; [| by intros ? ? ? ?; left].
  destruct (WebApp.as_path (WebApp.py_or dir _)) as [given| |]; cbn;
    [| by intros ? ? ? ?; left ..].
  destruct (path_exists (platform w) (expanduser (platform w) given)); cbn;
    [| by intros ? ? ? ?; left].
  destruct (is_dir (platform w) (expanduser (platform w) given)); cbn;
    [| by intros ? ? ? ?; left].
  unfold next, WebApp.build_command.
  destruct (run_answers w) as [|? ?]; cbn.
  all: match goal with
       | |- spawns_only _ _ (snd (WebApp.launch ?c ?d ?n ?st)) =>
           pose proof (spawns_only_launch is_base_command c d n) as HL;
           specialize (HL ltac:(by eexists _, _, _, _) st)
       end.
  all: intros cmd dir' pid H; exact (HL cmd dir' pid H).
Qed.

Lemma start_body_drops_file (st : WebApp.App * World) (p : option Z)
    (py dir : pyval) (nb : option bool) (f : string) :
  let pf := platform (snd st) in
  f <> EmptyString ->
  resolve pf (expanduser pf f) <> EmptyString ->
  (forall root, working_directory pf dir (fst st) = Some root ->
                unusable_file pf root f) ->
  let r := WebApp.start_body p py dir nb (Some f) st in
  let r0 := WebApp.start_body p py dir nb None st in
  fst r = fst r0 /\ snd (snd r) = snd (snd r0) /\
  (success (fst r) = true -> fst (snd r) = fst (snd r0)).
Proof.
  destruct st as [a w]. cbn [fst snd]. cbn zeta. intros Hf Hres Hbad.
  apply PyFacts.str_truthy_spec in Hf, Hres.
  unfold working_directory in Hbad.
  unfold WebApp.start_body, bind, ret, get, modify, get_world, when,
    subprocess_run, in_world.
  cbn.
  destruct (WebApp.as_path (WebApp.py_or py _)) as [python| |]; cbn;
    [| done ..].
  destruct (path_exists (platform w) python) eqn:Hpy; cbn; [| done].
  destruct (WebApp.as_path (WebApp.py_or dir _)) as [given| |]; cbn;
    [| done ..].
  destruct (path_exists (platform w) (expanduser (platform w) given)); cbn;
    [| done].
  destruct (is_dir (platform w) (expanduser (platform w) given)); cbn;
    [| done].
  rewrite Hf. cbn.
  specialize (Hbad _ eq_refl). unfold unusable_file in Hbad.
  unfold next, WebApp.build_command.
  destruct (path_exists (platform w) (expanduser (platform w) f)) eqn:Hex;
    destruct (is_file (platform w) (expanduser (platform w) f)) eqn:Hfile;
    cbn; destruct (run_answers w) as [|? ?]; cbn.
  all: try rewrite Hres; cbn.
  all: try (destruct Hbad as [Hbad|[Hbad|Hbad]]; try discriminate Hbad;
            rewrite Hbad; cbn).
  all: done.
Qed.

Lemma is_running_platform (st : WebApp.App * World) :
  platform (snd (snd (WebApp.is_running st))) = platform (snd st) /\
  WebApp.project_dir (WebApp.manager (fst (snd (WebApp.is_running st))))
    = WebApp.project_dir (WebApp.manager (fst st)).
Proof.
  destruct st as [a w].
  unfold WebApp.is_running, bind, ret, get, modify, poll_is_none, in_world,
    next.
  cbn. destruct (WebApp.process (WebApp.manager a)); cbn; [answers |]; auto.
Qed.

(** *** The limit on automatic restarts *)

Abbreviation web_kept := (kept_or_reset web_count web_limit).
Abbreviation web_within := (within_limit web_count web_limit).
Abbreviation web_at_limit := (at_limit web_count web_limit).
Abbreviation web_idle := (idle web_count web_limit).

Lemma web_kept_is_running : keeps web_kept WebApp.is_running.
Proof. unfold WebApp.is_running. keeps_walk. Qed.

Lemma web_kept_launch cmd dir nb : keeps web_kept (WebApp.launch cmd dir nb).
Proof.
  unfold WebApp.launch. pose proof web_kept_is_running. keeps_walk.
Qed.

Lemma web_kept_start_body p py dir nb file :
  keeps web_kept (WebApp.start_body p py dir nb file).
Proof.
  unfold WebApp.start_body. pose proof web_kept_launch. keeps_walk.
Qed.

(** Whatever [start] does, it leaves the counter as it was or at 0. *)
Lemma web_kept_start p py dir nb file :
  keeps web_kept (WebApp.start p py dir nb file).
Proof.
  unfold WebApp.start.
  pose proof web_kept_is_running. pose proof web_kept_start_body. keeps_walk.
Qed.

Lemma web_idle_is_running : keeps web_idle WebApp.is_running.
Proof.
  intros st. destruct (web_is_running_frame st) as (Ht & Hf & _ & He).
  unfold idle. split; [exact He |].
  destruct (fst (WebApp.is_running st)).
  - by rewrite Ht.
  - destruct Hf as [-> | ->]; auto.
Qed.

Global Hint Resolve web_kept_is_running web_kept_start web_idle_is_running
  : keeps.

(** However long the protection loop runs and whatever the system
    answers, a counter within its limit stays within its limit. *)
Lemma web_protection_keeps_limit (n : nat) (cf cs : Z)
    (st : WebApp.App * World) :
  web_within st ->
  wp (WebApp._process_protection n cf cs) (fun _ st' => web_within st') st.
Proof.
  revert cf cs st.
  induction n as [|n IH]; intros cf cs [s w] Hw; [exact Hw |].
  cbn [WebApp._process_protection]. unfold when.
  repeat
    first
      [ match goal with
        | H : within_limit _ _ ?st
          |- wp (WebApp._process_protection n _ _) _ ?st =>
            exact (IH _ _ st H)
        end
      | limit_step constr:(web_count) constr:(web_limit) (WebApp._process_protection n cf cs) ].
Qed.

(** Entered with the counter at its limit, the loop adds nothing to the
    trace: no restart attempt, no spawn. *)
Lemma web_protection_idle_at_limit (n : nat) (cf cs : Z)
    (st0 st : WebApp.App * World) :
  web_at_limit st0 -> web_idle st0 st ->
  wp (WebApp._process_protection n cf cs) (fun _ st' => web_idle st0 st') st.
Proof.
  revert cf cs st0 st.
  induction n as [|n IH]; intros cf cs st0 [s w] H0 Hi; [exact Hi |].
  cbn [WebApp._process_protection]. unfold when.
  repeat
    first
      [ match goal with
        | H : idle _ _ st0 ?st
          |- wp (WebApp._process_protection n _ _) _ ?st =>
            apply (IH _ _ st0 st); [assumption | exact H]
        end
      | idle_step constr:(web_count) constr:(web_limit) (WebApp._process_protection n cf cs)
                  st0 ].
Qed.

Lemma web_protection_stops_at_limit (n : nat) (cf cs : Z)
    (st : WebApp.App * World) :
  (web_limit (fst st) <= web_count (fst st))%Z ->
  events (snd (snd (WebApp._process_protection n cf cs st))) = events (snd st).
Proof.
  intros H.
  pose proof (web_protection_idle_at_limit n cf cs st st H) as Hwp.
  unfold wp in Hwp. by destruct Hwp as (He & _).
Qed.

End WebAppFacts.

(** ** The HTTP handlers of backend_api.py *)

Module BackendFacts.

Import ConfigFacts.

(** Keys for which [hasattr] is false never reach the merged dict. *)
Lemma merge_ignores_unknown (base kwargs : gmap string pyval) :
  Service.merge_dict base kwargs
  = Service.merge_dict base
      (filter (fun kv => hasattr kv.1 = true) kwargs).
Proof.
  apply map_eq. intros k. rewrite !merge_dict_lookup.
  destruct (hasattr k) eqn:Hk; [|done].
  destruct (kwargs !! k) as [v|] eqn:Hv.
  - by rewrite (map_lookup_filter_Some_2 _ _ _ v).
  - by rewrite map_lookup_filter_None_2 by auto.
Qed.

(** A request made only of keys that are no attributes starts the server
    exactly as the empty request does. *)
Lemma start_ignores_unknown (caller : Caller) (kwargs : gmap string pyval)
    (st : Service.JupyterManager * World) :
  "self" ∉ dom kwargs ->
  (forall k, k ∈ dom kwargs -> hasattr k = false) ->
  Service.start caller kwargs st = Service.start caller ∅ st.
Proof.
  intros Hself Hk. unfold Service.start.
  rewrite (ServiceFacts.bind_kwargs_ok _ _ Hself).
  rewrite ServiceFacts.bind_kwargs_ok by set_solver.
  unfold bind at 1 3. unfold get. unfold Service._merge_config.
  rewrite (merge_ignores_unknown _ kwargs).
  replace (filter (fun kv => hasattr kv.1 = true) kwargs)
    with (∅ : gmap string pyval); [done |].
  symmetry. apply map_empty. intros k.
  apply map_lookup_filter_None_2.
  destruct (kwargs !! k) as [v|] eqn:Hv; [right | by left].
  intros x [= <-]. cbn. rewrite (Hk k); [done |]. apply elem_of_dom. eauto.
Qed.


(** [backend_api.save_config] stores whatever it is given. *)
Lemma save_config_takes_missing_path :
  path_exists Scenario.posix "/no/such/python" = false /\
  Scenario.missing_python !! "python_executable"
    = Some (PStr "/no/such/python") /\
  BackendApi.save_config Scenario.missing_python
    (Scenario.fresh_server, Scenario.quiet)
  = ((200%Z, done_ok "配置保存成功"),
     ({| BackendApi.manager := Scenario.fresh_service;
         BackendApi.config_storage := Scenario.missing_python |},
      Scenario.quiet)).
Proof.
  split; [reflexivity |]. split; [reflexivity |].
  unfold BackendApi.save_config, bind, ret, modify. cbn.
  by rewrite (right_id_L ∅ (∪)).
Qed.

End BackendFacts.

(** ** The supervisors against their specification *)

Module Supervision.

Import ServiceFacts WebAppFacts BackendFacts.



(** C4, amended.  In the service a [stop] requested while the manager
    holds neither a pid nor a process object signals nothing and answers
    success with the message for "not running", which differs from the
    message of an actual stop.  In web_app a [stop] whose probe finds no
    live child signals nothing either, but answers [success = False]
    with its not-running message. *)
Theorem stop_when_not_running :
  (forall st : Service.JupyterManager * World,
     Service.pid_truthy (Service.managed_pid (fst st)) = false ->
     Service.process (fst st) = None ->
     fst (Service.stop Manual st) = done_ok Service.not_running_message /\
     success (fst (Service.stop Manual st)) = true /\
     events (snd (snd (Service.stop Manual st))) = events (snd st)) /\
  Service.not_running_message <> Service.stopped_message /\
  (forall st : WebApp.App * World,
     fst (WebApp.is_running st) = false ->
     fst (WebApp.stop st) = failure WebApp.not_running_message /\
     success (fst (WebApp.stop st)) = false /\
     events (snd (snd (WebApp.stop st))) = events (snd st)) /\
  WebApp.not_running_message <> WebApp.stopped_message.
Proof.
  split; [| split; [| split]].
  - intros st Hpid Hproc.
    destruct (stop_without_handle st Hpid Hproc) as (Hr & He & _).
    rewrite Hr. auto.
  - exact stop_messages_differ.
  - intros st H. rewrite (stop_not_running st H). cbn.
    destruct (web_is_running_frame st) as (_ & _ & _ & He). auto.
  - unfold WebApp.not_running_message, WebApp.stopped_message.
    intros H. vm_compute in H. discriminate H.
Qed.

Lemma stop_when_not_running_example :
  fst (Service.stop Manual (Scenario.fresh_service, Scenario.quiet))
    = done_ok Service.not_running_message /\
  fst (WebApp.stop (Scenario.fresh_web, Scenario.quiet))
    = failure WebApp.not_running_message.
Proof.
  destruct stop_when_not_running as (Hsvc & _ & Hweb & _). split.
  - apply (Hsvc (Scenario.fresh_service, Scenario.quiet)); reflexivity.
  - apply (Hweb (Scenario.fresh_web, Scenario.quiet)); reflexivity.
Defined.

(** C5, amended.  [is_running] returns a boolean and never touches the
    trace.  When it answers [True] the manager is exactly as before.  When
    it answers [False] it may have cleared the handle: the service clears
    [process], [managed_pid] and [start_time] together when the pid check
    fails, web_app clears [process] when the poll shows an exit status;
    it never installs a handle. *)
Theorem is_running_effect :
  (forall st : Service.JupyterManager * World,
     (fst (Service.is_running st) = true ->
        fst (snd (Service.is_running st)) = fst st) /\
     (fst (Service.is_running st) = false ->
        fst (snd (Service.is_running st)) = fst st \/
        fst (snd (Service.is_running st))
          = Service.set_handle None None None (fst st)) /\
     events (snd (snd (Service.is_running st))) = events (snd st)) /\
  (forall st : WebApp.App * World,
     (fst (WebApp.is_running st) = true ->
        fst (snd (WebApp.is_running st)) = fst st) /\
     (fst (WebApp.is_running st) = false ->
        fst (snd (WebApp.is_running st)) = fst st \/
        fst (snd (WebApp.is_running st))
          = WebApp.on_manager (WebApp.set_process None) (fst st)) /\
     events (snd (snd (WebApp.is_running st))) = events (snd st)).
Proof.
  split.
  - intros st. exact (service_is_running_frame st).
  - intros st. destruct (web_is_running_frame st) as (H1 & H2 & _ & H3).
    auto.
Qed.

Lemma is_running_effect_example :
  fst (snd (Service.is_running
              (Scenario.running_service, with_kill0 [true] Scenario.quiet)))
  = Scenario.running_service.
Proof.
  destruct is_running_effect as (Hsvc & _).
  destruct (Hsvc (Scenario.running_service, with_kill0 [true] Scenario.quiet))
    as (H & _).
  apply H. reflexivity.
Defined.





(** C9, amended.  web_app's [save_config] rejects a request whose
    interpreter path does not exist or is no regular file, and one whose
    directory path does not exist or is no directory: the reply has
    [success = False] and the application, the world and the file are as
    before.  A request whose supplied paths pass, and whose file write
    succeeds, is merged into [CONFIG], and that dict is written.
    backend_api's [save_config] checks nothing. *)
Theorem save_config_checks_paths (st : WebApp.App * World)
    (config : gmap string pyval) :
  let pf := platform (snd st) in
  (forall p,
     config !! "python_executable" = Some (PStr p) ->
     path_exists pf p = false \/ is_file pf p = false ->
     exists r, WebApp.save_config config st = (r, st) /\ success r = false) /\
  (forall d,
     config !! "project_dir" = Some (PStr d) ->
     path_exists pf d = false \/ is_dir pf d = false ->
     exists r, WebApp.save_config config st = (r, st) /\ success r = false) /\
  (supplied_ok pf config "python_executable" is_file ->
   supplied_ok pf config "project_dir" is_dir ->
   fst (next true (write_answers (snd st))) = true ->
   let r := WebApp.save_config config st in
   fst r = done_ok "配置已保存" /\
   WebApp.CONFIG (fst (snd r)) = config ∪ WebApp.CONFIG (fst st) /\
   events (snd (snd r))
     = EvWriteConfig (config ∪ WebApp.CONFIG (fst st)) :: events (snd st)).
Proof.
  cbn zeta. split; [| split].
  - intros p Hk Hbad. apply save_config_rejected. left.
    erewrite check_path_bad; [done | exact Hk |].
    destruct Hbad as [H|H]; [by apply missing_is_no_file | done].
  - intros d Hk Hbad. apply save_config_rejected. right.
    erewrite check_path_bad; [done | exact Hk |].
    destruct Hbad as [H|H]; [by apply missing_is_no_file | done].
  - apply save_config_accepted.
Qed.

Lemma save_config_checks_paths_example :
  (exists r,
     WebApp.save_config Scenario.missing_python
       (Scenario.fresh_web, Scenario.quiet)
     = (r, (Scenario.fresh_web, Scenario.quiet)) /\ success r = false) /\
  WebApp.CONFIG
    (fst (snd (WebApp.save_config Scenario.good_paths
                 (Scenario.fresh_web, Scenario.quiet))))
  = Scenario.good_paths ∪ WebApp.CONFIG Scenario.fresh_web.
Proof.
  split.
  - destruct (save_config_checks_paths
                (Scenario.fresh_web, Scenario.quiet) Scenario.missing_python)
      as (H & _).
    apply (H "/no/such/python").
    + reflexivity.
    + left. reflexivity.
  - destruct (save_config_checks_paths
                (Scenario.fresh_web, Scenario.quiet) Scenario.good_paths)
      as (_ & _ & H).
    apply H.
    + vm_compute. auto.
    + vm_compute. auto.
    + reflexivity.
Defined.

End Supervision.

(** * Further properties of the code *)

(** ** src/backend/models/config.py *)

Module ConfigProps.

Lemma str_truthy_false (s : string) : str_truthy s = false <-> s = EmptyString.
Proof.
  unfold str_truthy. destruct (String.eqb_spec s EmptyString); cbn; split;
    intros; congruence.
Qed.

(** Turn boolean tests in the hypotheses into propositions, splitting
    conjunctions and disjunctions on the way. *)
Ltac bool_facts :=
  repeat match goal with
         | H : _ /\ _ |- _ => destruct H
         | H : _ \/ _ |- _ => destruct H
         | H : (_ <? _)%Z = true |- _ => apply Z.ltb_lt in H
         | H : (_ <? _)%Z = false |- _ => apply Z.ltb_ge in H
         | H : (_ >? _)%Z = true |- _ =>
             rewrite Z.gtb_ltb in H; apply Z.ltb_lt in H
         | H : (_ >? _)%Z = false |- _ =>
             rewrite Z.gtb_ltb in H; apply Z.ltb_ge in H
         | H : _ || _ = true |- _ => apply orb_true_iff in H
         | H : _ || _ = false |- _ => apply orb_false_iff in H
         | H : _ && _ = true |- _ => apply andb_true_iff in H
         | H : _ && _ = false |- _ => apply andb_false_iff in H
         | H : negb _ = true |- _ => apply negb_true_iff in H
         | H : negb _ = false |- _ => apply negb_false_iff in H
         | H : str_truthy _ = true |- _ => apply PyFacts.str_truthy_spec in H
         | H : str_truthy _ = false |- _ => apply str_truthy_false in H
         | H : bool_decide _ = true |- _ => apply bool_decide_eq_true in H
         | H : bool_decide _ = false |- _ => apply bool_decide_eq_false in H
         end.

Ltac bool_close :=
  bool_facts;
  repeat match goal with |- _ /\ _ => split end;
  first [ done | lia | congruence | by left | by right
        | exfalso; lia | exfalso; congruence ].

(** *** Dictionaries of a [JupyterConfig] *)

Section Getters.
Context (d base : gmap string pyval) (k : string).

Lemma get_int_union (dflt z : Z) :
  get_int d k dflt = Some z -> base !! k = Some (PInt dflt) ->
  (d ∪ base) !! k = Some (PInt z).
Proof.
  unfold get_int. intros H Hb. rewrite lookup_union.
  destruct (d !! k) as [[]|]; simplify_eq; rewrite ?Hb; done.
Qed.

Lemma get_str_union (dflt z : string) :
  get_str d k dflt = Some z -> base !! k = Some (PStr dflt) ->
  (d ∪ base) !! k = Some (PStr z).
Proof.
  unfold get_str. intros H Hb. rewrite lookup_union.
  destruct (d !! k) as [[]|]; simplify_eq; rewrite ?Hb; done.
Qed.

Lemma get_bool_union (dflt z : bool) :
  get_bool d k dflt = Some z -> base !! k = Some (PBool dflt) ->
  (d ∪ base) !! k = Some (PBool z).
Proof.
  unfold get_bool. intros H Hb. rewrite lookup_union.
  destruct (d !! k) as [[]|]; simplify_eq; rewrite ?Hb; done.
Qed.

Lemma get_env_union (z : list (string * string)) :
  get_env d k = Some z -> base !! k = Some (PEnv []) ->
  (d ∪ base) !! k = Some (PEnv z).
Proof.
  unfold get_env. intros H Hb. rewrite lookup_union.
  destruct (d !! k) as [[]|]; simplify_eq; rewrite ?Hb; done.
Qed.

End Getters.

Lemma from_dict_fills_defaults (d : gmap string pyval) (c : JupyterConfig) :
  from_dict d = Returns c -> to_dict c = d ∪ to_dict defaults.
Proof.
  unfold from_dict. case_bool_decide as Hdom; [|done].
  destruct (typed_fields d) as [c'|] eqn:Ht; [|done]. intros [= ->].
  unfold typed_fields in Ht.
  repeat match type of Ht with
         | (?x ≫= _) = _ => destruct x eqn:?; [cbn in Ht | done]
         end.
  injection Ht as <-.
  apply map_eq. intros k.
  destruct (decide (k ∈ field_names)) as [Hk|Hk].
  - unfold field_names in Hk.
    repeat (apply elem_of_cons in Hk as [->|Hk]);
      [ .. | by apply elem_of_nil in Hk ].
    all: symmetry.
    all: first [ eapply get_int_union; [eassumption | reflexivity]
               | eapply get_str_union; [eassumption | reflexivity]
               | eapply get_bool_union; [eassumption | reflexivity]
               | eapply get_env_union; [eassumption | reflexivity] ].
  - rewrite lookup_union.
    assert (d !! k = None) as ->.
    { apply not_elem_of_dom. intros Hin. apply Hk.
      rewrite Forall_forall in Hdom. apply Hdom. by apply elem_of_elements. }
    assert (forall c0, to_dict c0 !! k = None) as Hnone.
    { intros c0. unfold to_dict.
      repeat (rewrite lookup_insert_ne;
              [| intros <-; apply Hk; unfold field_names; set_solver]).
      apply lookup_empty. }
    by rewrite !Hnone.
Qed.

Lemma from_dict_raises (d : gmap string pyval) :
  (exists e, from_dict d = Raises e) <->
  (exists k, k ∈ dom d /\ k ∉ field_names).
Proof.
  unfold from_dict. case_bool_decide as Hdom.
  - split.
    + intros [e H]. by destruct (typed_fields d).
    + intros (k & Hin & Hk). exfalso. apply Hk.
      rewrite Forall_forall in Hdom. apply Hdom. by apply elem_of_elements.
  - split; [intros _ | by eexists].
    apply not_Forall_Exists in Hdom; [| intros x; apply _].
    apply Exists_exists in Hdom as (k & Hin & Hk).
    exists k. split; [by apply elem_of_elements | exact Hk].
Qed.

(** X1.  [to_dict] and [from_dict] of a [JupyterConfig]: a configuration
    comes back unchanged from its own dictionary; a dictionary that
    [from_dict] accepts yields the configuration whose dictionary is the
    given one completed with the field defaults; and [from_dict] raises
    exactly when the dictionary has a key that is no field. *)
Theorem jupyter_config_dict_round_trip :
  (forall c : JupyterConfig, from_dict (to_dict c) = Returns c) /\
  (forall (d : gmap string pyval) (c : JupyterConfig),
     from_dict d = Returns c -> to_dict c = d ∪ to_dict defaults) /\
  (forall d : gmap string pyval,
     (exists e, from_dict d = Raises e) <->
     (exists k, k ∈ dom d /\ k ∉ field_names)).
Proof.
  split; [| split].
  - intros c. destruct c. vm_compute. reflexivity.
  - exact from_dict_fills_defaults.
  - exact from_dict_raises.
Qed.

Lemma jupyter_config_dict_port_only :
  to_dict {| port := 9000; python_executable := EmptyString;
             project_dir := EmptyString; use_notebook := false;
             auto_start := false; auto_restart := true;
             check_interval := 2000; max_restarts := 3;
             args := EmptyString; env := []; debug := false |}
  = {[ "port" := PInt 9000 ]} ∪ to_dict defaults.
Proof.
  destruct jupyter_config_dict_round_trip as (_ & H & _).
  apply (H {[ "port" := PInt 9000 ]}). vm_compute. reflexivity.
Defined.

(** *** Validation *)

Lemma validate_accepts (pf : Platform) (c : JupyterConfig) :
  (fst (validate pf c) = true <->
     (1024 <= port c <= 65535)%Z /\
     (python_executable c = EmptyString \/
      path_exists pf (python_executable c) = true) /\
     (project_dir c = EmptyString \/ path_exists pf (project_dir c) = true) /\
     (1000 <= check_interval c)%Z /\ (0 <= max_restarts c)%Z) /\
  (fst (validate pf c) = true <-> snd (validate pf c) = []).
Proof.
  unfold validate.
  destruct ((port c <? 1024)%Z || (port c >? 65535)%Z) eqn:E1;
  destruct (str_truthy (python_executable c)
            && negb (path_exists pf (python_executable c))) eqn:E2;
  destruct (str_truthy (project_dir c)
            && negb (path_exists pf (project_dir c))) eqn:E3;
  destruct (check_interval c <? 1000)%Z eqn:E4;
  destruct (max_restarts c <? 0)%Z eqn:E5; cbn.
  all: split; split; intros HH; try done; try discriminate.
  all: bool_close.
Qed.

(** X2.  [JupyterConfig.validate] accepts exactly the configurations
    whose port is in 1024..65535, whose interpreter and project paths are
    empty or exist, whose check interval is at least 1000 ms and whose
    restart limit is not negative; and it accepts exactly when its error
    list is empty. *)
Theorem jupyter_validate_accepts_exactly (pf : Platform) (c : JupyterConfig) :
  (fst (validate pf c) = true <->
     (1024 <= port c <= 65535)%Z /\
     (python_executable c = EmptyString \/
      path_exists pf (python_executable c) = true) /\
     (project_dir c = EmptyString \/ path_exists pf (project_dir c) = true) /\
     (1000 <= check_interval c)%Z /\ (0 <= max_restarts c)%Z) /\
  (fst (validate pf c) = true <-> snd (validate pf c) = []).
Proof. exact (validate_accepts pf c). Qed.

Lemma ui_validate_accepts (c : UIConfig.UIConfig) :
  (fst (UIConfig.validate c) = true <->
     (UIConfig.theme c = "light" \/ UIConfig.theme c = "dark" \/
      UIConfig.theme c = "auto") /\
     (1000 <= UIConfig.refresh_interval c)%Z) /\
  (fst (UIConfig.validate c) = true <-> snd (UIConfig.validate c) = []).
Proof.
  unfold UIConfig.validate.
  destruct (negb (bool_decide (UIConfig.theme c ∈ ["light"; "dark"; "auto"])))
    eqn:E1;
  destruct (UIConfig.refresh_interval c <? 1000)%Z eqn:E2; cbn.
  all: split; split; intros HH; try done; try discriminate.
  all: bool_facts.
  all: rewrite ?elem_of_cons, ?elem_of_nil in *.
  all: try (split; [tauto | lia]).
  all: try (exfalso; first [lia | tauto]).
Qed.

Lemma ai_validate_accepts (c : AIConfig.AIConfig) :
  (fst (AIConfig.validate c) = true <->
     AIConfig.api_key c <> EmptyString /\ AIConfig.base_url c <> EmptyString /\
     (1 <= AIConfig.max_history c)%Z /\ (1 <= AIConfig.timeout c)%Z) /\
  (fst (AIConfig.validate c) = true <-> snd (AIConfig.validate c) = []).
Proof.
  unfold AIConfig.validate.
  destruct (negb (str_truthy (AIConfig.api_key c))) eqn:E1;
  destruct (negb (str_truthy (AIConfig.base_url c))) eqn:E2;
  destruct (AIConfig.max_history c <? 1)%Z eqn:E3;
  destruct (AIConfig.timeout c <? 1)%Z eqn:E4; cbn.
  all: split; split; intros HH; try done; try discriminate.
  all: bool_close.
Qed.

(** X3.  [UIConfig.validate] accepts exactly a theme among light, dark
    and auto with a refresh interval of at least 1000 ms;
    [AIConfig.validate] accepts exactly a non-empty API key and base URL
    with a history length and a timeout of at least 1. *)
Theorem ui_ai_validate_accept_exactly :
  (forall c : UIConfig.UIConfig,
     fst (UIConfig.validate c) = true <->
     (UIConfig.theme c = "light" \/ UIConfig.theme c = "dark" \/
      UIConfig.theme c = "auto") /\
     (1000 <= UIConfig.refresh_interval c)%Z) /\
  (forall c : AIConfig.AIConfig,
     fst (AIConfig.validate c) = true <->
     AIConfig.api_key c <> EmptyString /\ AIConfig.base_url c <> EmptyString /\
     (1 <= AIConfig.max_history c)%Z /\ (1 <= AIConfig.timeout c)%Z).
Proof.
  split; intros c.
  - apply ui_validate_accepts.
  - apply ai_validate_accepts.
Qed.

(** X4.  [AppConfig.validate] accepts exactly when its three sections
    validate; its error dictionary has the key of a section exactly when
    that section is rejected, holding that section's error list, and no
    other key.  The default [AppConfig] is rejected on every machine: its
    API key is empty. *)
Theorem app_validate_by_section (pf : Platform) (c : AppConfig.AppConfig) :
  let r := AppConfig.validate pf c in
  let j := validate pf (AppConfig.jupyter c) in
  let u := UIConfig.validate (AppConfig.ui c) in
  let a := AIConfig.validate (AppConfig.ai c) in
  (fst r = true <-> fst j = true /\ fst u = true /\ fst a = true) /\
  snd r !! "jupyter" = (if fst j then None else Some (snd j)) /\
  snd r !! "ui" = (if fst u then None else Some (snd u)) /\
  snd r !! "ai" = (if fst a then None else Some (snd a)) /\
  (forall k, k <> "jupyter" -> k <> "ui" -> k <> "ai" -> snd r !! k = None) /\
  AppConfig.validate pf AppConfig.defaults
    = (false, {[ "ai" := [AIConfig.key_error] ]}).
Proof.
  cbn zeta. split_and!; [.. | vm_compute; reflexivity].
  all: unfold AppConfig.validate.
  all: destruct (validate pf (AppConfig.jupyter c)) as [[] je];
       destruct (UIConfig.validate (AppConfig.ui c)) as [[] ue];
       destruct (AIConfig.validate (AppConfig.ai c)) as [[] ae];
       cbn [fst snd negb].
  all: try (intros k ? ? ?).
  all: rewrite ?lookup_insert_ne by done.
  all: try (vm_compute; tauto).
  all: try (rewrite ?lookup_insert_eq, ?lookup_empty; reflexivity).
Qed.

Lemma app_validate_other_key :
  snd (AppConfig.validate Scenario.posix AppConfig.defaults) !! "logging"
  = None.
Proof.
  destruct (app_validate_by_section Scenario.posix AppConfig.defaults)
    as (_ & _ & _ & _ & H & _).
  apply H; discriminate.
Defined.

(** *** Dictionaries of an [AppConfig] *)

Lemma ui_from_dict_to_dict (c : UIConfig.UIConfig) :
  UIConfig.from_dict (UIConfig.to_dict c) = Returns c.
Proof. destruct c. vm_compute. reflexivity. Qed.

Lemma ai_from_dict_to_dict (c : AIConfig.AIConfig) :
  AIConfig.from_dict (AIConfig.to_dict c) = Returns c.
Proof. destruct c. vm_compute. reflexivity. Qed.

(** X5.  [AppConfig.from_dict] undoes [AppConfig.to_dict], and a section
    that the dictionary does not have comes out with that section's
    defaults. *)
Theorem app_config_dict_round_trip :
  (forall c : AppConfig.AppConfig,
     AppConfig.from_dict (AppConfig.to_dict c) = Returns c) /\
  (forall (data : gmap string (gmap string pyval)) (c : AppConfig.AppConfig),
     AppConfig.from_dict data = Returns c ->
     (data !! "jupyter" = None -> AppConfig.jupyter c = defaults) /\
     (data !! "ui" = None -> AppConfig.ui c = UIConfig.defaults) /\
     (data !! "ai" = None -> AppConfig.ai c = AIConfig.defaults)).
Proof.
  split.
  - intros [j u a]. unfold AppConfig.from_dict, AppConfig.to_dict.
    cbn [AppConfig.jupyter AppConfig.ui AppConfig.ai].
    rewrite lookup_insert_eq.
    rewrite lookup_insert_ne, lookup_insert_eq by done.
    rewrite !lookup_insert_ne, lookup_insert_eq by done.
    cbn [from_option id].
    by rewrite ConfigFacts.from_dict_to_dict, ui_from_dict_to_dict,
      ai_from_dict_to_dict.
  - intros data c. unfold AppConfig.from_dict.
    destruct (from_dict (default ∅ (data !! "jupyter"))) as [j| |] eqn:Ej;
      [| done ..].
    destruct (UIConfig.from_dict (default ∅ (data !! "ui"))) as [u| |] eqn:Eu;
      [| done ..].
    destruct (AIConfig.from_dict (default ∅ (data !! "ai"))) as [a| |] eqn:Ea;
      [| done ..].
    intros [= <-]. cbn [AppConfig.jupyter AppConfig.ui AppConfig.ai].
    split_and!; intros H; rewrite H in *; cbn [from_option id] in *.
    + vm_compute in Ej. by injection Ej as <-.
    + vm_compute in Eu. by injection Eu as <-.
    + vm_compute in Ea. by injection Ea as <-.
Qed.

Lemma app_config_empty_dict :
  AppConfig.from_dict ∅ = Returns AppConfig.defaults /\
  AppConfig.ui AppConfig.defaults = UIConfig.defaults.
Proof.
  split; [vm_compute; reflexivity |].
  destruct app_config_dict_round_trip as [_ H].
  destruct (H ∅ AppConfig.defaults) as (_ & Hui & _).
  - vm_compute. reflexivity.
  - apply Hui. reflexivity.
Defined.

(** X29.  [AIRequest.validate] accepts exactly a request whose image and
    question are non-empty and whose [config] holds a truthy [api_key];
    it accepts exactly when its error list is empty, and each of its
    three messages is in the list exactly when its own check fails. *)
Theorem ai_request_validate_accepts_exactly (r : AIRequest.AIRequest) :
  let key := default PNone (AIRequest.config r !! "api_key") in
  let res := AIRequest.validate r in
  (fst res = true <->
     AIRequest.image r <> EmptyString /\
     AIRequest.question r <> EmptyString /\ truthy key = true) /\
  (fst res = true <-> snd res = []) /\
  (In AIRequest.image_error (snd res) <-> AIRequest.image r = EmptyString) /\
  (In AIRequest.question_error (snd res)
   <-> AIRequest.question r = EmptyString) /\
  (In AIConfig.key_error (snd res) <-> truthy key = false).
Proof.
  cbn zeta. unfold AIRequest.validate.
  destruct (negb (str_truthy (AIRequest.image r))) eqn:E1;
  destruct (negb (str_truthy (AIRequest.question r))) eqn:E2;
  destruct (negb (truthy (default PNone (AIRequest.config r !! "api_key"))))
    eqn:E3; cbn [app length Nat.eqb fst snd].
  all: bool_facts.
  all: unfold AIRequest.image_error, AIRequest.question_error,
         AIConfig.key_error.
  all: cbn [In].
  all: repeat split; intros; bool_facts; try done; try congruence.
  all: try (by left); try (by right; left); try (by right; right; left).
Qed.

End ConfigProps.

(** ** What a run leaves alone *)

Module FrameFacts.

Global Instance same_on_preorder {S A} (f : S -> A) : PreOrder (same_on f).
Proof.
  split; [by intros st |].
  intros a b c H1 H2. unfold same_on in *. congruence.
Qed.

Global Instance same_clock_preorder {S} : PreOrder (@same_clock S).
Proof.
  split; [by intros st |].
  intros a b c H1 H2. unfold same_clock in *. congruence.
Qed.

Global Instance no_spawn_preorder {S} : PreOrder (@no_spawn S).
Proof.
  split; [by intros st |].
  intros a b c H1 H2. unfold no_spawn in *. congruence.
Qed.

Lemma same_on_in_world {S A B} (f : S -> A) (op : World -> B * World) :
  keeps (same_on f) (in_world op).
Proof. intros [s w]. unfold in_world, same_on. cbn. by destruct (op w). Qed.

Lemma same_on_modify {S A} (f : S -> A) (g : S -> S) :
  (forall s, f (g s) = f s) -> keeps (same_on f) (modify g).
Proof. intros H [s w]. exact (H s). Qed.

Lemma same_clock_modify {S} (g : S -> S) : keeps same_clock (modify g).
Proof. by intros [s w]. Qed.

Lemma no_spawn_modify {S} (g : S -> S) : keeps no_spawn (modify g).
Proof. by intros [s w]. Qed.

Lemma same_clock_in_world {S A} (op : World -> A * World) :
  (forall w, now (snd (op w)) = now w) -> keeps same_clock (@in_world S A op).
Proof.
  intros H [s w]. unfold in_world, same_clock. cbn. specialize (H w).
  by destruct (op w).
Qed.

Lemma no_spawn_in_world {S A} (op : World -> A * World) :
  (forall w, spawned (events (snd (op w))) = spawned (events w)) ->
  keeps no_spawn (@in_world S A op).
Proof.
  intros H [s w]. unfold in_world, no_spawn. cbn. specialize (H w).
  by destruct (op w).
Qed.

Ltac world_prim lem :=
  apply lem; intros w; unfold next; repeat case_match; simplify_eq; done.

Section Primitives.
Context {S : Type}.

Lemma same_clock_os_kill0 pid : keeps same_clock (@os_kill0 S pid).
Proof. unfold os_kill0. world_prim @same_clock_in_world. Qed.
Lemma same_clock_os_kill pid sig : keeps same_clock (@os_kill S pid sig).
Proof. unfold os_kill. world_prim @same_clock_in_world. Qed.
Lemma same_clock_poll pid : keeps same_clock (@poll_is_none S pid).
Proof. unfold poll_is_none. world_prim @same_clock_in_world. Qed.
Lemma same_clock_connect p : keeps same_clock (@connect_ex_ok S p).
Proof. unfold connect_ex_ok. world_prim @same_clock_in_world. Qed.
Lemma same_clock_popen cmd dir : keeps same_clock (@popen S cmd dir).
Proof. unfold popen. world_prim @same_clock_in_world. Qed.
Lemma same_clock_stderr_read n : keeps same_clock (@stderr_read S n).
Proof. unfold stderr_read. world_prim @same_clock_in_world. Qed.
Lemma same_clock_subprocess_run cmd : keeps same_clock (@subprocess_run S cmd).
Proof. unfold subprocess_run. world_prim @same_clock_in_world. Qed.
Lemma same_clock_terminate pid : keeps same_clock (@terminate S pid).
Proof. unfold terminate. world_prim @same_clock_in_world. Qed.
Lemma same_clock_kill pid : keeps same_clock (@kill S pid).
Proof. unfold kill. world_prim @same_clock_in_world. Qed.
Lemma same_clock_killpg pid : keeps same_clock (@killpg S pid).
Proof. unfold killpg. world_prim @same_clock_in_world. Qed.
Lemma same_clock_write_file d : keeps same_clock (@write_file S d).
Proof. unfold write_file. world_prim @same_clock_in_world. Qed.
Lemma same_clock_time : keeps same_clock (@time S).
Proof. unfold time. world_prim @same_clock_in_world. Qed.
Lemma same_clock_log_event e : keeps same_clock (@log_event S e).
Proof. unfold log_event. world_prim @same_clock_in_world. Qed.

Lemma no_spawn_os_kill0 pid : keeps no_spawn (@os_kill0 S pid).
Proof. unfold os_kill0. world_prim @no_spawn_in_world. Qed.
Lemma no_spawn_os_kill pid sig : keeps no_spawn (@os_kill S pid sig).
Proof. unfold os_kill. world_prim @no_spawn_in_world. Qed.
Lemma no_spawn_poll pid : keeps no_spawn (@poll_is_none S pid).
Proof. unfold poll_is_none. world_prim @no_spawn_in_world. Qed.
Lemma no_spawn_connect p : keeps no_spawn (@connect_ex_ok S p).
Proof. unfold connect_ex_ok. world_prim @no_spawn_in_world. Qed.
Lemma no_spawn_stderr_read n : keeps no_spawn (@stderr_read S n).
Proof. unfold stderr_read. world_prim @no_spawn_in_world. Qed.
Lemma no_spawn_subprocess_run cmd : keeps no_spawn (@subprocess_run S cmd).
Proof. unfold subprocess_run. world_prim @no_spawn_in_world. Qed.
Lemma no_spawn_terminate pid : keeps no_spawn (@terminate S pid).
Proof. unfold terminate. world_prim @no_spawn_in_world. Qed.
Lemma no_spawn_kill pid : keeps no_spawn (@kill S pid).
Proof. unfold kill. world_prim @no_spawn_in_world. Qed.
Lemma no_spawn_killpg pid : keeps no_spawn (@killpg S pid).
Proof. unfold killpg. world_prim @no_spawn_in_world. Qed.
Lemma no_spawn_wait5 pid : keeps no_spawn (@wait5 S pid).
Proof. unfold wait5. world_prim @no_spawn_in_world. Qed.
Lemma no_spawn_thread_join5 : keeps no_spawn (@thread_join5 S).
Proof. unfold thread_join5. world_prim @no_spawn_in_world. Qed.
Lemma no_spawn_event_wait ms : keeps no_spawn (@event_set_during_wait S ms).
Proof. unfold event_set_during_wait. world_prim @no_spawn_in_world. Qed.
Lemma no_spawn_write_file d : keeps no_spawn (@write_file S d).
Proof. unfold write_file. world_prim @no_spawn_in_world. Qed.
Lemma no_spawn_sleep ms : keeps no_spawn (@sleep S ms).
Proof. unfold sleep. world_prim @no_spawn_in_world. Qed.
Lemma no_spawn_time : keeps no_spawn (@time S).
Proof. unfold time. world_prim @no_spawn_in_world. Qed.
Lemma no_spawn_log_event e :
  match e with EvSpawn _ _ _ => False | _ => True end ->
  keeps no_spawn (@log_event S e).
Proof.
  intros He. unfold log_event. apply no_spawn_in_world. intros w. cbn.
  by destruct e.
Qed.
End Primitives.

Global Hint Resolve same_clock_os_kill0 same_clock_os_kill same_clock_poll
  same_clock_connect same_clock_popen same_clock_stderr_read
  same_clock_subprocess_run same_clock_terminate same_clock_kill
  same_clock_killpg same_clock_write_file same_clock_time
  same_clock_log_event same_clock_modify
  no_spawn_os_kill0 no_spawn_os_kill no_spawn_poll no_spawn_connect
  no_spawn_stderr_read no_spawn_subprocess_run no_spawn_terminate
  no_spawn_kill no_spawn_killpg no_spawn_wait5 no_spawn_thread_join5
  no_spawn_event_wait no_spawn_write_file no_spawn_sleep no_spawn_time
  no_spawn_modify : keeps.
Global Hint Extern 2 (keeps no_spawn (log_event _)) =>
  (apply no_spawn_log_event; exact I) : keeps.
Global Hint Extern 2 (keeps (same_on _) (modify _)) =>
  (apply same_on_modify; intros; reflexivity) : keeps.
Global Hint Extern 2 (keeps (same_on _) _) =>
  (unfold os_kill0, os_kill, poll_is_none, connect_ex_ok, popen, stderr_read,
     subprocess_run, terminate, kill, killpg, wait5, thread_join5,
     event_set_during_wait, write_file, sleep, time, log_event;
   apply same_on_in_world) : keeps.

(** One step of a run that keeps [R] between the state [st0] it started
    in and the current state. *)
Ltac rel_step R st0 :=
  first
    [ progress wp_go
    | match goal with
      | H : R st0 ?st |- wp _ _ ?st =>
          apply (wp_keeps R); [solve [eauto with keeps] |];
          let a := fresh "a" in let s := fresh "s" in let w := fresh "w" in
          let K := fresh "K" in
          intros a [s w] K;
          apply (fun X => @transitivity _ R _ _ _ _ X K) in H; clear K
      end ].

End FrameFacts.
Export FrameFacts.


(** ** src/backend/services/jupyter_service.py *)

Module ServiceProps.
Import ServiceFacts ConfigFacts.

Lemma config_is_running : keeps (same_on Service.config) Service.is_running.
Proof. unfold Service.is_running, Service._is_port_occupied. keeps_walk. Qed.

Lemma config_wait_rounds n t0 :
  keeps (same_on Service.config) (Service._wait_rounds n t0).
Proof.
  induction n as [|n IH]; cbn [Service._wait_rounds].
  - keeps_walk.
  - pose proof config_is_running. keeps_walk.
Qed.

Lemma config_stop_process : keeps (same_on Service.config) Service._stop_process.
Proof. unfold Service._stop_process. keeps_walk. Qed.

Lemma config_stop caller : keeps (same_on Service.config) (Service.stop caller).
Proof.
  unfold Service.stop, Service._stop_protection, Service._cleanup.
  pose proof config_stop_process. keeps_walk.
Qed.

Lemma config_validate_environment c :
  keeps (same_on Service.config) (Service._validate_environment c).
Proof. unfold Service._validate_environment. keeps_walk. Qed.

Lemma config_start_process c :
  keeps (same_on Service.config) (Service._start_process c).
Proof.
  unfold Service._start_process, Service._wait_for_startup,
    Service._start_protection.
  pose proof config_wait_rounds. pose proof config_stop_process.
  keeps_walk.
Qed.

Global Hint Resolve config_is_running config_stop config_validate_environment
  config_start_process : keeps.

Lemma start_merged_commits (caller : Caller) (merged : JupyterConfig)
    (st : Service.JupyterManager * World) :
  let r := Service.start_merged caller merged st in
  Service.config (fst (snd r))
  = if success (fst r) then merged else Service.config (fst st).
Proof.
  cbn zeta.
  change (wp (Service.start_merged caller merged)
            (fun r st' => Service.config (fst st')
                          = if success r then merged
                            else Service.config (fst st)) st).
  assert (same_on Service.config st st) as H by reflexivity.
  revert H. generalize st at 2 4. intros st1 H.
  unfold Service.start_merged, when.
  repeat rel_step (same_on Service.config) st.
  all: unfold same_on in *; cbn in *.
  all: repeat match goal with
         | E : ?b = _ |- context [if ?b then _ else _] => rewrite E
         end.
  all: try congruence.
Qed.

Lemma stop_cleans (st : Service.JupyterManager * World) :
  let r := Service.stop Manual st in
  (fst r = done_ok Service.stopped_message \/
   fst r = done_ok Service.not_running_message) /\
  Service.process (fst (snd r)) = None /\
  Service.managed_pid (fst (snd r)) = None /\
  Service.start_time (fst (snd r)) = None /\
  Service.restart_count (fst (snd r)) = 0%Z /\
  Service.stop_event (fst (snd r)) = true /\
  Service.config (fst (snd r)) = Service.config (fst st) /\
  spawned (events (snd (snd r))) = spawned (events (snd st)).
Proof.
  destruct st as [s w]. cbn zeta.
  unfold Service.stop, Service._stop_protection, Service._stop_process,
    Service._cleanup, bind, ret, get, modify, when, thread_join5, terminate,
    wait5, kill, os_kill, os_kill0, sleep, in_world, next.
  cbn.
  destruct (Service.protection_alive s); cbn;
    try destruct (join_answers w) as [|[] ?]; cbn;
    destruct (Service.pid_truthy (Service.managed_pid s));
    destruct (Service.process s) as [h|]; cbn;
    try destruct (wait_answers w) as [|[] ?]; cbn;
    try destruct (signal_answers w) as [|[] [|[] ?]]; cbn;
    try destruct (kill0_answers w) as [|[] ?]; cbn;
    auto 10.
Qed.


Lemma clock_is_running : keeps same_clock Service.is_running.
Proof. unfold Service.is_running, Service._is_port_occupied. keeps_walk. Qed.

Lemma wait_round_unfold (n : nat) (t0 : Z) (st : Service.JupyterManager * World) :
  Service._wait_rounds (S n) t0 st =
  if (now (snd st) - t0 <? 30000)%Z then
    let '(running, st1) := Service.is_running st in
    if running then
      match Service.process (fst st1) with
      | Some _ =>
          let '(out, st2) := stderr_read 1000 st1 in
          match out with
          | Some text => (negb (Service.startup_error text), st2)
          | None => (true, st2)
          end
      | None => (true, st1)
      end
    else Service._wait_rounds n t0 (snd (sleep 1000 st1))
  else (false, st).
Proof.
  cbn [Service._wait_rounds]. unfold bind at 1. unfold time at 1, in_world at 1.
  cbn [fst snd]. destruct st as [s w]. cbn [fst snd].
  destruct (now w - t0 <? 30000)%Z; [| reflexivity].
  unfold bind at 1. destruct (Service.is_running (s, w)) as [[] st1]; cbn.
  - unfold bind, get, ret. cbn.
    destruct (Service.process (fst st1)); [| reflexivity].
    destruct (stderr_read 1000 st1) as [[text|] st2]; [| reflexivity].
    by destruct (Service.startup_error text).
  - unfold bind. by destruct (sleep 1000 st1).
Qed.

Lemma wait_rounds_fuel (n m : nat) (t0 : Z) (st : Service.JupyterManager * World) :
  (30000 <= now (snd st) - t0 + 1000 * (Z.of_nat n - 1))%Z ->
  (30000 <= now (snd st) - t0 + 1000 * (Z.of_nat m - 1))%Z ->
  Service._wait_rounds n t0 st = Service._wait_rounds m t0 st.
Proof.
  revert m st. induction n as [|n IH]; intros m st Hn Hm.
  - destruct m as [|m]; [reflexivity |].
    rewrite wait_round_unfold.
    replace (now (snd st) - t0 <? 30000)%Z with false; [reflexivity |].
    symmetry. apply Z.ltb_ge. lia.
  - destruct m as [|m].
    + rewrite wait_round_unfold.
      replace (now (snd st) - t0 <? 30000)%Z with false; [reflexivity |].
      symmetry. apply Z.ltb_ge. lia.
    + rewrite !wait_round_unfold.
      destruct (now (snd st) - t0 <? 30000)%Z; [| reflexivity].
      pose proof (clock_is_running st) as Hc. unfold same_clock in Hc.
      destruct (Service.is_running st) as [[] [s1 w1]]; [reflexivity |].
      cbn [fst snd] in Hc. apply IH; cbn; lia.
Qed.

Lemma wait_rounds_clock (n : nat) (t0 i : Z) (st : Service.JupyterManager * World) :
  now (snd st) = (t0 + 1000 * i)%Z -> (0 <= i <= 30)%Z ->
  (now (snd st) <= now (snd (snd (Service._wait_rounds n t0 st)))
   <= t0 + 30000)%Z.
Proof.
  revert i st. induction n as [|n IH]; intros i st Hnow Hi.
  - cbn. lia.
  - rewrite wait_round_unfold.
    destruct (now (snd st) - t0 <? 30000)%Z eqn:Hlt; [| cbn; lia].
    apply Z.ltb_lt in Hlt.
    pose proof (clock_is_running st) as Hc. unfold same_clock in Hc.
    destruct (Service.is_running st) as [[] [s1 w1]]; cbn [fst snd] in *.
    + destruct (Service.process s1).
      * pose proof (same_clock_stderr_read (S:=Service.JupyterManager) 1000 (s1, w1)) as Hr.
        unfold same_clock in Hr.
        destruct (stderr_read 1000 (s1, w1)) as [[text|] st2];
          cbn [fst snd] in *; lia.
      * cbn. lia.
    + specialize (IH (i + 1)%Z (s1, with_now (now w1 + 1000) w1)).
      cbn [fst snd] in IH. unfold sleep, in_world. cbn [fst snd].
      cbn in IH. lia.
Qed.

Theorem wait_for_startup_bounded (st : Service.JupyterManager * World) (k : nat) :
  Service._wait_rounds (31 + k) (now (snd st)) st
  = Service._wait_rounds 31 (now (snd st)) st /\
  (now (snd st) <= now (snd (snd (Service._wait_for_startup st)))
   <= now (snd st) + 30000)%Z.
Proof.
  split.
  - apply wait_rounds_fuel; lia.
  - unfold Service._wait_for_startup, bind, time, in_world. cbn [fst snd].
    destruct st as [s w]. cbn [fst snd].
    apply (wait_rounds_clock 31 (now w) 0 (s, w)); cbn; lia.
Qed.


Lemma stop_process_signals (st : Service.JupyterManager * World) :
  let s := fst st in
  let w := snd st in
  let r := Service._stop_process st in
  fst (snd r) = s /\
  match Service.process s with
  | Some h =>
      fst r = true /\
      events (snd (snd r))
      = (if fst (next true (wait_answers w)) then [] else [EvKill h])
        ++ EvTerminate h :: events w
  | None =>
      if Service.pid_truthy (Service.managed_pid s) then
        let pid := default 0 (Service.managed_pid s) in
        let sent := fst (next false (signal_answers w)) in
        let still := fst (next false (kill0_answers w)) in
        let sent_again :=
          fst (next false (snd (next false (signal_answers w)))) in
        fst r = sent /\
        events (snd (snd r))
        = (if sent && still && sent_again then [EvSignal pid SIGKILL] else [])
          ++ (if sent then [EvSignal pid SIGTERM] else []) ++ events w
      else fst r = false /\ snd r = st
  end.
Proof.
  destruct st as [s w]. cbn zeta. cbn [fst snd].
  unfold Service._stop_process, bind, ret, get, modify, when, terminate,
    wait5, kill, os_kill, os_kill0, sleep, in_world, next.
  cbn.
  destruct (Service.process s) as [h|]; cbn.
  - rewrite andb_false_r. cbn.
    destruct (wait_answers w) as [|[] ?]; cbn; auto.
  - destruct (Service.pid_truthy (Service.managed_pid s)); cbn; [| auto].
    destruct (signal_answers w) as [|[] [|[] ?]]; cbn; auto;
      destruct (kill0_answers w) as [|[] ?]; cbn; auto.
Qed.

Lemma merge_config_same (s s' : Service.JupyterManager) kwargs :
  Service.config s' = Service.config s ->
  Service._merge_config s' kwargs = Service._merge_config s kwargs.
Proof. unfold Service._merge_config. by intros ->. Qed.

Lemma restart_bad_port (kwargs : gmap string pyval)
    (st : Service.JupyterManager * World) (p : Z) (merged : JupyterConfig) :
  kwargs !! "port" = Some (PInt p) ->
  (p < 1024 \/ 65535 < p)%Z ->
  "self" ∉ dom kwargs ->
  Service._merge_config (fst st) kwargs = Returns merged ->
  let r := Service.restart kwargs st in
  (exists res, fst r = Returns res /\ success res = false /\
               In port_error (errors res)) /\
  Service.process (fst (snd r)) = None /\
  Service.managed_pid (fst (snd r)) = None /\
  spawned (events (snd (snd r))) = spawned (events (snd st)) /\
  (forall h, Service.process (fst st) = Some h ->
             In (EvTerminate h) (events (snd (snd r)))).
Proof.
  intros Hport Hrange Hself Hmerge. cbn zeta.
  pose proof (stop_cleans st) as Hstop. cbn zeta in Hstop.
  destruct Hstop as (_ & Hp & Hm & _ & _ & _ & Hc & Hs).
  assert (forall h, Service.process (fst st) = Some h ->
                    In (EvTerminate h)
                       (events (snd (snd (Service.stop Manual st))))) as Ht.
  { intros h Hh. destruct (stop_terminates st h Hh) as [l ->].
    apply in_or_app. right. by left. }
  destruct (Service.stop Manual st) as [r1 [s1 w1]] eqn:Estop.
  cbn [fst snd] in *.
  set (st2 := (s1, with_now (now w1 + 2000) w1)).
  assert (port merged = p) as Hpm by (eapply merge_port; eauto).
  destruct (start_merged_bad_port Manual merged st2) as (res & Hr & Hf & He & _).
  { by rewrite Hpm. }
  assert (Service.start Manual kwargs st2 = (Returns res, st2)) as Hstart.
  { unfold Service.start. rewrite (bind_kwargs_ok _ _ Hself).
    unfold bind at 1. unfold get at 1.
    rewrite (merge_config_same (fst st) (fst st2)), Hmerge by exact Hc.
    unfold bind. by rewrite Hr. }
  assert (Service.restart kwargs st = (Returns res, st2)) as ->.
  { unfold Service.restart, bind, sleep, in_world. rewrite Estop.
    cbn [fst snd]. exact Hstart. }
  cbn. split_and!; eauto.
Qed.

Lemma wait_round_alive (n : nat) (t0 : Z) (st : Service.JupyterManager * World)
    (p h : nat) (ks : list bool) (text : string) (es : list (option string)) :
  Service.managed_pid (fst st) = Some (S p) ->
  Service.process (fst st) = Some h ->
  kill0_answers (snd st) = true :: ks ->
  stderr_answers (snd st) = Some text :: es ->
  (now (snd st) - t0 < 30000)%Z ->
  Service._wait_rounds (S n) t0 st
  = (negb (Service.startup_error (take_str 1000 text)),
     (fst st, with_stderr es (with_kill0 ks (snd st)))).
Proof.
  destruct st as [s w]. cbn [fst snd]. intros Hpid Hproc Hk He Ht.
  rewrite wait_round_unfold. cbn [fst snd].
  apply Z.ltb_lt in Ht. rewrite Ht.
  unfold Service.is_running, bind, ret, get, modify, os_kill0, stderr_read,
    in_world, next.
  cbn. rewrite Hpid. cbn. rewrite Hk. cbn. rewrite Hproc, He. reflexivity.
Qed.

Lemma failed_startup (c : JupyterConfig) (st : Service.JupyterManager * World)
    (p : nat) (ps : list (option nat)) (ks : list bool) (text : string)
    (es : list (option string)) :
  popen_answers (snd st) = Some (S p) :: ps ->
  kill0_answers (snd st) = true :: ks ->
  stderr_answers (snd st) = Some text :: es ->
  Service.startup_error (take_str 1000 text) = true ->
  let w := snd st in
  let r := Service._start_process c st in
  let cmd := Service._build_command (platform w) c in
  let dir := str_or (project_dir c) (cwd (platform w)) in
  fst r = failure "Jupyter 启动超时或失败" /\
  Service.managed_pid (fst (snd r)) = Some (S p) /\
  Service.process (fst (snd r)) = Some (S p) /\
  Service.restart_count (fst (snd r)) = 0%Z /\
  events (snd (snd r))
  = (if fst (next true (wait_answers w)) then [] else [EvKill (S p)])
    ++ EvTerminate (S p) :: EvSpawn cmd dir (S p) :: events w.
Proof.
  destruct st as [s w]. cbn [fst snd]. intros Hp Hk He Herr. cbn zeta.
  unfold Service._start_process, Service._wait_for_startup, bind, get_world,
    popen, time, modify, in_world, next.
  cbn [fst snd]. rewrite Hp. cbn [fst snd].
  match goal with
  | |- context [Service._wait_rounds 31 ?t ?st1] =>
      rewrite (wait_round_alive 30 t st1 p (S p) ks text es)
        by (cbn; first [done | lia])
  end.
  rewrite Herr. cbn [negb fst snd].
  match goal with
  | |- context [Service._stop_process ?st2] =>
      pose proof (stop_process_signals st2) as Hs;
      destruct (Service._stop_process st2) as [b [s3 w3]]
  end.
  cbn in Hs. destruct Hs as (-> & _ & Hev). cbn. rewrite Hev. by unfold next.
Qed.


Lemma get_status_unfold (st : Service.JupyterManager * World) :
  Service.get_status st =
  let '(running, st1) := Service.is_running st in
  let s := fst st1 in
  ({| JupyterStatus.running := running;
      JupyterStatus.port :=
        if running then Some (port (Service.config s)) else None;
      JupyterStatus.pid := Service.managed_pid s;
      JupyterStatus.url :=
        if running then Some (Service._get_jupyter_url s) else None;
      JupyterStatus.uptime :=
        if running && Service.time_truthy (Service.start_time s)
        then Z.quot (now (snd st1) - default 0%Z (Service.start_time s)) 1000
        else 0%Z;
      JupyterStatus.auto_restart := Service.auto_restart s;
      JupyterStatus.process_protection :=
        if Service._is_protection_running s then "enabled" else "disabled";
      JupyterStatus.open_file := None;
      JupyterStatus.last_error := None |}, st1).
Proof.
  unfold Service.get_status, bind at 1.
  destruct (Service.is_running st) as [b [s1 w1]].
  unfold bind, get, ret, time, in_world. cbn [fst snd].
  by destruct (b && Service.time_truthy (Service.start_time s1)).
Qed.

Lemma get_status_fields (st : Service.JupyterManager * World) :
  let r := Service.get_status st in
  let status := fst r in
  let probe := Service.is_running st in
  JupyterStatus.running status = fst probe /\
  snd r = snd probe /\
  JupyterStatus.pid status = Service.managed_pid (fst (snd probe)) /\
  JupyterStatus.port status
  = (if fst probe then Some (port (Service.config (fst st))) else None) /\
  JupyterStatus.url status
  = (if fst probe then Some (Service._get_jupyter_url (fst st)) else None) /\
  (fst probe = false ->
   JupyterStatus.uptime status = 0%Z /\
   Service.pid_truthy (JupyterStatus.pid status) = false).
Proof.
  cbn zeta. rewrite get_status_unfold.
  pose proof (config_is_running st) as Hc. unfold same_on in Hc.
  destruct (service_is_running_frame st) as (_ & Hf & _).
  assert (fst (Service.is_running st) = false ->
          Service.pid_truthy
            (Service.managed_pid (fst (snd (Service.is_running st)))) = false)
    as Hpid.
  { clear. destruct st as [s w].
    unfold Service.is_running, Service._is_port_occupied, bind, ret, get,
      modify, os_kill0, poll_is_none, connect_ex_ok, in_world, next.
    cbn. destruct (Service.pid_truthy (Service.managed_pid s)) eqn:E; cbn.
    - by destruct (kill0_answers w) as [|[] ?].
    - destruct (Service.process s); cbn; answers; done. }
  destruct (Service.is_running st) as [b [s1 w1]]. cbn [fst snd] in *.
  unfold Service._get_jupyter_url. rewrite Hc.
  split_and!; auto. intros ->. auto.
Qed.

Lemma is_running_port_only (st : Service.JupyterManager * World) :
  Service.pid_truthy (Service.managed_pid (fst st)) = false ->
  Service.process (fst st) = None ->
  Service.is_running st
  = (fst (next false (connect_answers (snd st))),
     (fst st, with_connect (snd (next false (connect_answers (snd st))))
                (snd st))).
Proof.
  destruct st as [s w]. cbn [fst snd]. intros Hpid Hproc.
  unfold Service.is_running, Service._is_port_occupied, bind, ret, get,
    connect_ex_ok, in_world.
  cbn. rewrite Hpid, Hproc. cbn. by destruct (next false (connect_answers w)).
Qed.

Lemma env_update_other (pairs : list (string * string))
    (e : gmap string string) (k : string) :
  k ∉ pairs.*1 -> Service.env_update e pairs !! k = e !! k.
Proof.
  revert e. induction pairs as [|[k' v'] l IH]; intros e Hk; [done |].
  cbn in Hk. apply not_elem_of_cons in Hk as [Hne Hk].
  unfold Service.env_update. cbn [foldl].
  change (Service.env_update (<[k':=v']> e) l !! k = e !! k).
  rewrite IH by done. by rewrite lookup_insert_ne.
Qed.

Lemma env_update_member (pairs : list (string * string))
    (e : gmap string string) (k v : string) :
  NoDup pairs.*1 -> (k, v) ∈ pairs ->
  Service.env_update e pairs !! k = Some v.
Proof.
  revert e. induction pairs as [|[k' v'] l IH]; intros e Hnd Hin.
  - by apply elem_of_nil in Hin.
  - cbn in Hnd. apply NoDup_cons in Hnd as [Hk' Hnd].
    unfold Service.env_update. cbn [foldl].
    change (Service.env_update (<[k':=v']> e) l !! k = Some v).
    apply elem_of_cons in Hin as [[= -> ->] | Hin].
    + rewrite env_update_other by done. apply lookup_insert_eq.
    + by apply IH.
Qed.

Lemma prepare_environment_lookup (environ : gmap string string)
    (c : JupyterConfig) :
  let env' := Service._prepare_environment environ c in
  env' !! "JUPYTER_ENABLE_LAB"
    = Some (if use_notebook c then "no" else "yes") /\
  (forall k, k <> "JUPYTER_ENABLE_LAB" -> k ∉ (env c).*1 ->
             env' !! k = environ !! k) /\
  (NoDup (env c).*1 ->
   forall k v, k <> "JUPYTER_ENABLE_LAB" -> (k, v) ∈ env c ->
               env' !! k = Some v).
Proof.
  cbn zeta. unfold Service._prepare_environment.
  assert (match env c with
          | [] => environ
          | _ :: _ => Service.env_update environ (env c)
          end = Service.env_update environ (env c)) as ->
    by (by destruct (env c)).
  split_and!.
  - rewrite lookup_insert_eq. by destruct (use_notebook c).
  - intros k Hk Hnot. rewrite lookup_insert_ne by done.
    by apply env_update_other.
  - intros Hnd k v Hk Hin. rewrite lookup_insert_ne by done.
    by apply env_update_member.
Qed.

Lemma start_merged_invalid (caller : Caller) (merged : JupyterConfig)
    (st : Service.JupyterManager * World) :
  fst (validate (platform (snd st)) merged) = false ->
  Service.start_merged caller merged st
  = (failure_with
       ("配置验证失败: "
        +:+ join ", " (snd (validate (platform (snd st)) merged)))
       (snd (validate (platform (snd st)) merged)), st).
Proof.
  destruct st as [s w]. cbn [fst snd]. intros Hv.
  unfold Service.start_merged, bind, get_world. cbn [fst snd].
  destruct (validate (platform w) merged) as [valid errs].
  cbn [fst snd] in *. subst valid. reflexivity.
Qed.


(** *** Stopping *)

(** X6.  A [stop] asked for by a request always answers success, with
    one of its two messages, and always leaves the manager without
    process object, pid and start time, with the counter at 0, the stop
    event set and the configuration untouched; it spawns nothing.  A
    second [stop] right after answers "not running" and adds nothing to
    the trace. *)
Theorem stop_always_succeeds_and_cleans (st : Service.JupyterManager * World) :
  let r := Service.stop Manual st in
  let r2 := Service.stop Manual (snd r) in
  success (fst r) = true /\
  (fst r = done_ok Service.stopped_message \/
   fst r = done_ok Service.not_running_message) /\
  Service.process (fst (snd r)) = None /\
  Service.managed_pid (fst (snd r)) = None /\
  Service.start_time (fst (snd r)) = None /\
  Service.restart_count (fst (snd r)) = 0%Z /\
  Service.stop_event (fst (snd r)) = true /\
  Service.config (fst (snd r)) = Service.config (fst st) /\
  spawned (events (snd (snd r))) = spawned (events (snd st)) /\
  fst r2 = done_ok Service.not_running_message /\
  events (snd (snd r2)) = events (snd (snd r)).
Proof.
  cbn zeta. pose proof (stop_cleans st) as H. cbn zeta in H.
  destruct H as (Hr & Hp & Hm & Ht & Hc & He & Hcfg & Hs).
  destruct (stop_without_handle (snd (Service.stop Manual st)))
    as (Hr2 & He2 & _); [by rewrite Hm | exact Hp |].
  split_and!; auto. by destruct Hr as [-> | ->].
Qed.

(** X7.  [_stop_process] never changes the manager.  With a process
    object it always terminates it, and kills it exactly when the five
    second wait timed out.  With only a pid it sends SIGTERM, and after
    two seconds SIGKILL exactly when the pid still exists; it answers
    [False] when the first signal could not be sent.  With neither it
    answers [False] and does nothing. *)
Theorem stop_process_escalation (st : Service.JupyterManager * World) :
  let s := fst st in
  let w := snd st in
  let r := Service._stop_process st in
  fst (snd r) = s /\
  match Service.process s with
  | Some h =>
      fst r = true /\
      events (snd (snd r))
      = (if fst (next true (wait_answers w)) then [] else [EvKill h])
        ++ EvTerminate h :: events w
  | None =>
      if Service.pid_truthy (Service.managed_pid s) then
        let pid := default 0 (Service.managed_pid s) in
        let sent := fst (next false (signal_answers w)) in
        let still := fst (next false (kill0_answers w)) in
        let sent_again :=
          fst (next false (snd (next false (signal_answers w)))) in
        fst r = sent /\
        events (snd (snd r))
        = (if sent && still && sent_again then [EvSignal pid SIGKILL] else [])
          ++ (if sent then [EvSignal pid SIGTERM] else []) ++ events w
      else fst r = false /\ snd r = st
  end.
Proof. exact (stop_process_signals st). Qed.

(** *** Starting *)



(** X9.  [start] stores the merged configuration exactly when it reports
    success: after a failure reply the stored configuration is the one
    from before the call, and a call that raises leaves manager and
    world untouched. *)
Theorem start_commits_config_on_success (caller : Caller)
    (kwargs : gmap string pyval) (st : Service.JupyterManager * World) :
  let r := Service.start caller kwargs st in
  match fst r with
  | Returns res =>
      if success res
      then Service._merge_config (fst st) kwargs
           = Returns (Service.config (fst (snd r)))
      else Service.config (fst (snd r)) = Service.config (fst st)
  | Raises _ | Unmodelled => snd r = st
  end.
Proof.
  cbn zeta.
  destruct (Service.start caller kwargs st) as [o st'] eqn:E. cbn [fst snd].
  unfold Service.start, bind_kwargs in E.
  case_bool_decide; [by injection E as <- <- |].
  unfold bind at 1 in E. unfold get in E. cbn [fst snd] in E.
  destruct (Service._merge_config (fst st) kwargs) as [merged| |];
    [| by injection E as <- <- ..].
  pose proof (start_merged_commits caller merged st) as Hc. cbn zeta in Hc.
  unfold bind, ret in E.
  destruct (Service.start_merged caller merged st) as [res st''].
  injection E as <- <-. cbn [fst snd] in *.
  destruct (success res); congruence.
Qed.

(** X10.  A start request whose merged configuration fails validation,
    for whatever reason, is answered with the configuration failure
    that lists exactly the errors of [validate], joined by commas in
    the message; manager and world are as before. *)
Theorem start_rejects_invalid_config (caller : Caller)
    (kwargs : gmap string pyval) (st : Service.JupyterManager * World)
    (merged : JupyterConfig) :
  "self" ∉ dom kwargs ->
  Service._merge_config (fst st) kwargs = Returns merged ->
  fst (validate (platform (snd st)) merged) = false ->
  let errs := snd (validate (platform (snd st)) merged) in
  Service.start caller kwargs st
  = (Returns (failure_with ("配置验证失败: " +:+ join ", " errs) errs), st).
Proof.
  intros Hself Hmerge Hv. cbn zeta.
  unfold Service.start. rewrite (bind_kwargs_ok _ _ Hself).
  unfold bind at 1. unfold get at 1. rewrite Hmerge.
  unfold bind. by rewrite (start_merged_invalid caller merged st Hv).
Qed.

Lemma start_rejects_fast_checks :
  Service.start Manual Scenario.body_fast_checks
    (Scenario.fresh_service, Scenario.quiet)
  = (Returns (failure_with ("配置验证失败: " +:+ interval_error)
                [interval_error]),
     (Scenario.fresh_service, Scenario.quiet)).
Proof.
  apply (start_rejects_invalid_config Manual Scenario.body_fast_checks
           (Scenario.fresh_service, Scenario.quiet)
           {| port := 8888; python_executable := EmptyString;
              project_dir := EmptyString; use_notebook := false;
              auto_start := false; auto_restart := true;
              check_interval := 500; max_restarts := 3;
              args := EmptyString; env := []; debug := false |}).
  - vm_compute. intros H. discriminate H.
  - vm_compute. reflexivity.
  - reflexivity.
Defined.


(** X12.  [_start_process] when the spawned child is alive and its
    stderr shows a startup error: the reply is the startup failure, the
    child is terminated (and killed if it does not exit within five
    seconds), and the manager still holds the pid and the process object
    of that child, with the counter at 0. *)
Theorem failed_startup_terminates_child (c : JupyterConfig)
    (st : Service.JupyterManager * World)
    (p : nat) (ps : list (option nat)) (ks : list bool) (text : string)
    (es : list (option string)) :
  popen_answers (snd st) = Some (S p) :: ps ->
  kill0_answers (snd st) = true :: ks ->
  stderr_answers (snd st) = Some text :: es ->
  Service.startup_error (take_str 1000 text) = true ->
  let w := snd st in
  let r := Service._start_process c st in
  let cmd := Service._build_command (platform w) c in
  let dir := str_or (project_dir c) (cwd (platform w)) in
  fst r = failure "Jupyter 启动超时或失败" /\
  Service.managed_pid (fst (snd r)) = Some (S p) /\
  Service.process (fst (snd r)) = Some (S p) /\
  Service.restart_count (fst (snd r)) = 0%Z /\
  events (snd (snd r))
  = (if fst (next true (wait_answers w)) then [] else [EvKill (S p)])
    ++ EvTerminate (S p) :: EvSpawn cmd dir (S p) :: events w.
Proof. exact (failed_startup c st p ps ks text es). Qed.

Lemma failed_startup_on_traceback :
  let w := Scenario.one_child 101 Scenario.traceback_line in
  let r := Service._start_process defaults (Scenario.fresh_service, w) in
  fst r = failure "Jupyter 启动超时或失败" /\
  Service.managed_pid (fst (snd r)) = Some 101 /\
  Service.process (fst (snd r)) = Some 101 /\
  Service.restart_count (fst (snd r)) = 0%Z /\
  events (snd (snd r))
  = [EvTerminate 101;
     EvSpawn (Service._build_command Scenario.posix defaults)
       "/srv/notebooks" 101].
Proof.
  apply (failed_startup_terminates_child defaults
           (Scenario.fresh_service,
            Scenario.one_child 101 Scenario.traceback_line)
           100 [] [] Scenario.traceback_line []).
  - reflexivity.
  - reflexivity.
  - reflexivity.
  - vm_compute. reflexivity.
Defined.

(** *** Status *)

(** X13.  [get_status] does one liveness probe and nothing else.  It
    reports [running] as the probe answered; port and URL are present
    exactly when running, and are those of the stored configuration;
    the pid is the managed pid left by the probe.  Not running implies
    uptime 0 and no pid.  A manager without pid and process object
    reports whatever the probe of the configured port finds, so it can
    report running without a pid. *)
Theorem get_status_consistent (st : Service.JupyterManager * World) :
  let r := Service.get_status st in
  let status := fst r in
  let probe := Service.is_running st in
  JupyterStatus.running status = fst probe /\
  snd r = snd probe /\
  JupyterStatus.pid status = Service.managed_pid (fst (snd probe)) /\
  JupyterStatus.port status
  = (if fst probe then Some (port (Service.config (fst st))) else None) /\
  JupyterStatus.url status
  = (if fst probe then Some (Service._get_jupyter_url (fst st)) else None) /\
  (fst probe = false ->
   JupyterStatus.uptime status = 0%Z /\
   Service.pid_truthy (JupyterStatus.pid status) = false) /\
  (Service.pid_truthy (Service.managed_pid (fst st)) = false ->
   Service.process (fst st) = None ->
   JupyterStatus.running status
   = fst (next false (connect_answers (snd st))) /\
   JupyterStatus.pid status = Service.managed_pid (fst st)).
Proof.
  cbn zeta.
  destruct (get_status_fields st) as (H1 & H2 & H3 & H4 & H5 & H6).
  split_and!; auto.
  intros Hpid Hproc. rewrite H1, H3.
  by rewrite (is_running_port_only st Hpid Hproc).
Qed.

Lemma get_status_port_busy :
  let status := fst (Service.get_status
                       (Scenario.fresh_service, Scenario.port_busy)) in
  JupyterStatus.running status = true /\
  JupyterStatus.pid status = None.
Proof.
  destruct (get_status_consistent (Scenario.fresh_service, Scenario.port_busy))
    as (_ & _ & _ & _ & _ & _ & H).
  apply H; reflexivity.
Defined.

(** *** The child's environment *)

(** X14.  [_prepare_environment] always sets JUPYTER_ENABLE_LAB, to
    "no" for a notebook and to "yes" otherwise, whatever the process
    environment and the configured variables say; every other name has
    its configured value if the configuration has one, and its value
    from the process environment if not. *)
Theorem prepare_environment_precedence (environ : gmap string string)
    (c : JupyterConfig) :
  let env' := Service._prepare_environment environ c in
  env' !! "JUPYTER_ENABLE_LAB"
    = Some (if use_notebook c then "no" else "yes") /\
  (forall k, k <> "JUPYTER_ENABLE_LAB" -> k ∉ (env c).*1 ->
             env' !! k = environ !! k) /\
  (NoDup (env c).*1 ->
   forall k v, k <> "JUPYTER_ENABLE_LAB" -> (k, v) ∈ env c ->
               env' !! k = Some v).
Proof. exact (prepare_environment_lookup environ c). Qed.

Lemma prepare_environment_example :
  Service._prepare_environment
    {[ "PATH" := "/usr/bin"; "JUPYTER_ENABLE_LAB" := "no" ]}
    {| port := 8888; python_executable := EmptyString;
       project_dir := EmptyString; use_notebook := false;
       auto_start := false; auto_restart := true;
       check_interval := 2000; max_restarts := 3;
       args := EmptyString;
       env := [("PATH", "/opt/conda/bin"); ("JUPYTER_ENABLE_LAB", "no")];
       debug := false |} !! "PATH"
  = Some "/opt/conda/bin".
Proof.
  match goal with
  | |- Service._prepare_environment ?e ?c !! _ = _ =>
      destruct (prepare_environment_precedence e c) as (_ & _ & H)
  end.
  apply H.
  - refine (bool_decide_unpack _ _). vm_compute. exact I.
  - discriminate.
  - apply list_elem_of_here.
Defined.

(** *** The protection loop *)

(** X15.  However many turns the protection loop makes and whatever the
    system answers, a restart counter that is within a non-negative
    limit when the loop is entered is within the limit when the run
    ends. *)
Theorem protection_counter_within_limit (n : nat)
    (st : Service.JupyterManager * World) :
  (0 <= Service.max_restarts (fst st))%Z ->
  (Service.restart_count (fst st) <= Service.max_restarts (fst st))%Z ->
  let st' := snd (Service._process_protection n st) in
  (0 <= Service.max_restarts (fst st'))%Z /\
  (Service.restart_count (fst st') <= Service.max_restarts (fst st'))%Z.
Proof.
  intros H0 H1. exact (protection_keeps_limit n st (conj H0 H1)).
Qed.

Lemma protection_counter_example :
  let st' := snd (Service._process_protection 5
                    (Scenario.running_service, Scenario.dying_children)) in
  (0 <= Service.max_restarts (fst st'))%Z /\
  (Service.restart_count (fst st') <= Service.max_restarts (fst st'))%Z.
Proof.
  apply (protection_counter_within_limit 5
           (Scenario.running_service, Scenario.dying_children)).
  - vm_compute. discriminate.
  - vm_compute. discriminate.
Defined.

(** X16.  A protection loop entered with the restart counter at or
    above the limit adds nothing to the trace, however long it runs: it
    makes no restart attempt, spawns nothing and signals nothing; the
    counter and the limit stay as they are. *)
Theorem protection_idle_once_limit_reached (n : nat)
    (st : Service.JupyterManager * World) :
  (Service.max_restarts (fst st) <= Service.restart_count (fst st))%Z ->
  let st' := snd (Service._process_protection n st) in
  events (snd st') = events (snd st) /\
  Service.restart_count (fst st') = Service.restart_count (fst st) /\
  Service.max_restarts (fst st') = Service.max_restarts (fst st).
Proof.
  intros H. exact (protection_idle_at_limit n st st H (reflexivity st)).
Qed.

Lemma protection_idle_example :
  let st' := snd (Service._process_protection 5
                    (Scenario.exhausted_service, Scenario.dying_children)) in
  events (snd st') = [] /\
  Service.restart_count (fst st') = 3%Z /\
  Service.max_restarts (fst st') = 3%Z.
Proof.
  apply (protection_idle_once_limit_reached 5
           (Scenario.exhausted_service, Scenario.dying_children)).
  vm_compute. discriminate.
Defined.

End ServiceProps.

(** ** src-tauri/resources/web_app.py *)

Module WebAppProps.
Import WebAppFacts.

(** [is_running] on a manager without process object. *)
Lemma is_running_no_process (st : WebApp.App * World) :
  WebApp.process (WebApp.manager (fst st)) = None ->
  WebApp.is_running st = (false, st).
Proof.
  destruct st as [a w]. cbn [fst]. intros H.
  unfold WebApp.is_running, bind, get, ret. cbn. by rewrite H.
Qed.

Lemma web_stop_success (st : WebApp.App * World) :
  let r := WebApp.stop st in
  success (fst r) = true ->
  exists pid,
    WebApp.process (WebApp.manager (fst st)) = Some pid /\
    fst r = done_ok WebApp.stopped_message /\
    fst (snd r)
    = WebApp.on_manager
        (fun m => WebApp.set_start_time None (WebApp.set_process None m))
        (fst st) /\
    events (snd (snd r))
    = (if fst (next true (wait_answers (snd st))) then []
       else [if is_windows (platform (snd st))
             then EvKill pid else EvKillGroup pid])
      ++ (if is_windows (platform (snd st))
          then EvTerminate pid else EvSignal pid SIGTERM)
      :: events (snd st).
Proof.
  destruct st as [a w]. cbn zeta. cbn [fst snd].
  unfold WebApp.stop, WebApp.is_running, bind, ret, get, get_world, modify,
    when, poll_is_none, terminate, os_kill, wait5, kill, killpg, in_world,
    next.
  cbn.
  destruct (WebApp.process (WebApp.manager a)) as [pid|] eqn:Hp; cbn;
    [| discriminate].
  destruct (poll_answers w) as [|[] ?]; cbn; try discriminate.
  rewrite Hp. cbn.
  destruct (is_windows (platform w)); cbn.
  - destruct (wait_answers w) as [|[] ?]; cbn; intros _; exists pid; auto.
  - destruct (signal_answers w) as [|[] ?]; cbn; try discriminate.
    destruct (wait_answers w) as [|[] ?]; cbn; intros _; exists pid; auto.
Qed.

Lemma start_body_missing_interpreter (st : WebApp.App * World)
    (p : option Z) (py dir : pyval) (nb : option bool) (file : option string)
    (python : string) :
  WebApp.py_or py (WebApp.python_executable (WebApp.manager (fst st)))
    = PStr python ->
  path_exists (platform (snd st)) python = false ->
  WebApp.start_body p py dir nb file st
  = (failure ("Python 解释器不存在: " +:+ python),
     (requested p py dir nb file (fst st), snd st)).
Proof.
  destruct st as [a w]. cbn [fst snd]. intros Hpy Hex.
  unfold WebApp.start_body, bind, ret, get, modify, get_world. cbn.
  rewrite Hpy. cbn. rewrite Hex. reflexivity.
Qed.

Lemma start_body_missing_directory (st : WebApp.App * World)
    (p : option Z) (py dir : pyval) (nb : option bool) (file : option string)
    (python given : string) :
  WebApp.py_or py (WebApp.python_executable (WebApp.manager (fst st)))
    = PStr python ->
  path_exists (platform (snd st)) python = true ->
  WebApp.py_or dir (WebApp.project_dir (WebApp.manager (fst st)))
    = PStr given ->
  is_dir (platform (snd st)) (expanduser (platform (snd st)) given) = false ->
  exists msg,
    WebApp.start_body p py dir nb file st
    = (failure (msg +:+ given),
       (requested p py dir nb file (fst st), snd st)).
Proof.
  destruct st as [a w]. cbn [fst snd]. intros Hpy Hex Hdir Hnd.
  unfold WebApp.start_body, bind, ret, get, modify, get_world. cbn.
  rewrite Hpy. cbn. rewrite Hex. cbn. rewrite Hdir. cbn.
  destruct (path_exists (platform w) (expanduser (platform w) given)); cbn.
  - rewrite Hnd. cbn. by eexists.
  - by eexists.
Qed.

(** [launch] when it reports success. *)
Lemma launch_success (cmd : list string) (dir : string) (nb : bool)
    (st : WebApp.App * World) :
  let r := WebApp.launch cmd dir nb st in
  success (fst r) = true ->
  exists pid t,
    fst (next None (popen_answers (snd st))) = Some pid /\
    fst (snd r)
    = WebApp.on_manager (fun m =>
        WebApp.set_restart_count 0
          (WebApp.set_start_time (Some t)
             (WebApp.set_process (Some pid) m))) (fst st) /\
    launch (fst r)
    = Some {| l_port := WebApp.port (WebApp.manager (fst st));
              l_url := "http://localhost:"
                       +:+ pretty (WebApp.port (WebApp.manager (fst st)))
                       +:+ (if nb then "/tree" else "/lab");
              l_pid := Some pid;
              l_auto_restart := WebApp.auto_restart (WebApp.manager (fst st));
              l_open_file := WebApp.open_file (WebApp.manager (fst st)) |} /\
    hd_error (spawned (events (snd (snd r)))) = Some pid /\
    In (EvSpawn cmd dir pid) (events (snd (snd r))).
Proof.
  destruct st as [a w]. cbn zeta. cbn [fst snd].
  unfold WebApp.launch, bind, ret, popen, stderr_read, sleep, terminate,
    in_world, modify, next.
  cbn.
  destruct (popen_answers w) as [|[pid|] ps]; cbn; try discriminate.
  destruct (stderr_answers w) as [|[text|] es]; cbn; try discriminate.
  all: try match goal with
       | |- context [WebApp.early_crash ?x] =>
           destruct (WebApp.early_crash x); cbn; try discriminate
       end.
  all: unfold WebApp.is_running, bind, ret, get, modify, poll_is_none,
         in_world, next, when, time, log_event; cbn.
  all: destruct (poll_answers w) as [|[] [|[] ?]]; cbn; try discriminate.
  all: destruct (WebApp.auto_restart (WebApp.manager a)) eqn:Ha; cbn.
  all: intros _; eexists pid, _; split_and!; try reflexivity.
  all: try rewrite Ha; try reflexivity.
  all: cbn; auto.
Qed.


Lemma start_body_success (st : WebApp.App * World)
    (p : option Z) (py dir : pyval) (nb : option bool) (file : option string) :
  let r := WebApp.start_body p py dir nb file st in
  success (fst r) = true -> started_with p nb (fst st) (fst r) (snd r).
Proof.
  destruct st as [a w]. cbn zeta. cbn [fst snd].
  unfold WebApp.start_body, bind, ret, get, modify, get_world, when,
    subprocess_run, in_world.
  cbn.
  destruct (WebApp.as_path (WebApp.py_or py _)) as [python| |]; cbn;
    [| discriminate ..].
  destruct (path_exists (platform w) python) eqn:Hpy; cbn; [| discriminate].
  destruct (WebApp.as_path (WebApp.py_or dir _)) as [given| |]; cbn;
    [| discriminate ..].
  destruct (path_exists (platform w) (expanduser (platform w) given)); cbn;
    [| discriminate].
  destruct (is_dir (platform w) (expanduser (platform w) given)); cbn;
    [| discriminate].
  unfold next.
  destruct (WebApp.opt_truthy file); cbn;
    repeat match goal with
           | |- context [if ?b then _ else _] => destruct b eqn:?; cbn
           end;
    destruct (run_answers w) as [|? ?]; cbn.
  all: repeat match goal with
         | |- context [let '(_, _) := ?x in _] =>
             destruct x as [cmd file'] eqn:?; cbn
         end.
  all: intros Hs;
    destruct (launch_success _ _ _ _ Hs) as (pid & t & _ & Hst & Hl & Hhd & _).
  all: unfold started_with; rewrite Hst, Hl, Hhd; cbn.
  all: eexists pid, _; split_and!; try reflexivity; eauto.
Qed.

Lemma web_get_status_fields (st : WebApp.App * World) :
  let r := WebApp.get_status st in
  let status := fst r in
  let m := WebApp.manager (fst st) in
  WebApp.s_running status = fst (WebApp.is_running st) /\
  (WebApp.s_running status = false ->
   WebApp.s_url status = None /\ WebApp.s_pid status = None /\
   WebApp.s_uptime status = 0%Z) /\
  (forall u, WebApp.s_url status = Some u ->
     WebApp.s_running status = true /\ is_Some (WebApp.s_pid status) /\
     u = "http://localhost:" +:+ pretty (WebApp.port m)
         +:+ (if WebApp.use_notebook m then "/tree" else "/lab")) /\
  WebApp.s_port status = WebApp.port m /\
  WebApp.s_open_file status = WebApp.open_file m /\
  WebApp.s_process_protection status
  = (if WebApp.auto_restart m then "enabled" else "disabled") /\
  events (snd (snd r)) = events (snd st).
Proof.
  destruct st as [a w]. cbn zeta. cbn [fst snd].
  unfold WebApp.get_status, WebApp.is_running, bind, ret, get, modify,
    poll_is_none, time, in_world, next.
  cbn.
  repeat (first
    [ match goal with
      | |- context [match WebApp.process ?m with _ => _ end] =>
          destruct (WebApp.process m) eqn:?
      | |- context [if ?b then _ else _] => destruct b eqn:?
      | |- context [match ?l with [] => _ | _ :: _ => _ end] =>
          destruct l as [|[] ?]
      end ]; cbn in *; simplify_eq).
  all: split_and!; try done; try (intros u [= <-]); auto.
Qed.

Lemma stop_leaves_no_process (st : WebApp.App * World) :
  let r := WebApp.stop st in
  (success (fst r) = true \/ fst (WebApp.is_running st) = false) ->
  WebApp.process (WebApp.manager (fst (snd r))) = None.
Proof.
  cbn zeta. intros [Hs | Hf].
  - destruct (web_stop_success st Hs) as (pid & _ & _ & -> & _).
    reflexivity.
  - rewrite (stop_not_running st Hf). cbn [snd].
    by destruct (web_is_running_frame st) as (_ & _ & H & _); apply H.
Qed.

(** What the probe leaves alone: everything but [process] in the
    manager, and everything but the poll script in the world. *)
Lemma web_probe_frame (st : WebApp.App * World) :
  let st1 := snd (WebApp.is_running st) in
  let m := WebApp.manager (fst st) in
  let m1 := WebApp.manager (fst st1) in
  WebApp.CONFIG (fst st1) = WebApp.CONFIG (fst st) /\
  WebApp.port m1 = WebApp.port m /\
  WebApp.python_executable m1 = WebApp.python_executable m /\
  WebApp.project_dir m1 = WebApp.project_dir m /\
  WebApp.auto_restart m1 = WebApp.auto_restart m /\
  platform (snd st1) = platform (snd st) /\
  popen_answers (snd st1) = popen_answers (snd st) /\
  events (snd st1) = events (snd st).
Proof.
  destruct st as [a w]. cbn zeta.
  unfold WebApp.is_running, bind, ret, get, modify, poll_is_none, in_world,
    next.
  cbn. destruct (WebApp.process (WebApp.manager a)); cbn; [answers |];
    split_and!; reflexivity.
Qed.

Lemma launch_records_command (cmd : list string) (dir : string) (nb : bool)
    (st : WebApp.App * World) :
  exists l,
    events (snd (snd (WebApp.launch cmd dir nb st)))
    = l ++ match fst (next None (popen_answers (snd st))) with
           | Some pid => EvSpawn cmd dir pid
           | None => EvSpawnFailed cmd dir
           end :: events (snd st).
Proof.
  destruct st as [a w]. cbn [fst snd].
  unfold WebApp.launch, bind at 1. unfold popen at 1, in_world at 1.
  cbn [fst snd].
  destruct (next None (popen_answers w)) as [[pid|] ps]; cbn [fst snd].
  - match goal with
    | |- context [bind ?m ?k ?st1] =>
        assert (keeps grows (bind m k)) as Hg
    end.
    { pose proof (grows_poll (S:=WebApp.App)).
      assert (keeps grows WebApp.is_running)
        by (unfold WebApp.is_running; keeps_walk).
      keeps_walk. }
    match goal with
    | |- context [bind ?m ?k ?st1] => destruct (Hg st1) as [l Hl]
    end.
    exists l. exact Hl.
  - exists []. reflexivity.
Qed.

Lemma is_file_exists (pf : Platform) (p : string) :
  is_file pf p = true -> path_exists pf p = true.
Proof.
  unfold is_file, path_exists. intros H%bool_decide_eq_true.
  rewrite H. reflexivity.
Qed.

Lemma is_dir_exists (pf : Platform) (p : string) :
  is_dir pf p = true -> path_exists pf p = true.
Proof.
  unfold is_dir, path_exists. intros H%bool_decide_eq_true.
  rewrite H. reflexivity.
Qed.

Lemma start_body_opens_file (st : WebApp.App * World)
    (p : option Z) (py dir : pyval) (nb : option bool) (f : string)
    (python given rel : string) :
  let pf := platform (snd st) in
  let m := WebApp.manager (fst st) in
  WebApp.py_or py (WebApp.python_executable m) = PStr python ->
  path_exists pf python = true ->
  WebApp.py_or dir (WebApp.project_dir m) = PStr given ->
  is_dir pf (expanduser pf given) = true ->
  f <> EmptyString ->
  is_file pf (expanduser pf f) = true ->
  resolve pf (expanduser pf f) <> EmptyString ->
  relative_to pf (resolve pf (expanduser pf f))
    (resolve pf (expanduser pf given)) = Some rel ->
  let root := resolve pf (expanduser pf given) in
  let use_nb := effective_notebook nb (fst st) in
  let cmd :=
    WebApp.base_command python root (WebApp.int_or p (WebApp.port m)) use_nb
    ++ ["--ServerApp.default_url="
        +:+ (if use_nb then "/tree" else "/lab/tree") +:+ "/" +:+ rel] in
  exists l,
    events (snd (snd (WebApp.start_body p py dir nb (Some f) st)))
    = l ++ match fst (next None (popen_answers (snd st))) with
           | Some pid => EvSpawn cmd root pid
           | None => EvSpawnFailed cmd root
           end :: events (snd st).
Proof.
  destruct st as [a w]. cbn zeta. cbn [fst snd].
  intros Hpy Hex Hdir Hisdir Hf Hfile Hres Hrel.
  pose proof (is_dir_exists _ _ Hisdir) as Hdex.
  pose proof (is_file_exists _ _ Hfile) as Hfex.
  apply PyFacts.str_truthy_spec in Hf, Hres.
  unfold WebApp.start_body, bind, ret, get, modify, get_world, when,
    subprocess_run, in_world.
  cbn.
  rewrite Hpy. cbn. rewrite Hex. cbn. rewrite Hdir. cbn.
  rewrite Hdex, Hisdir. cbn. rewrite Hf. cbn. rewrite Hfex, Hfile. cbn.
  unfold next, WebApp.build_command.
  destruct (run_answers w) as [|? ?]; cbn; rewrite Hres; cbn; rewrite Hrel; cbn.
  all: match goal with
       | |- context [WebApp.launch ?c ?d ?n ?st1] =>
           destruct (launch_records_command c d n st1) as [l' Hl]
       end.
  all: exists l'; rewrite Hl; reflexivity.
Qed.


Lemma settings_is_running : keeps (same_on settings) WebApp.is_running.
Proof. unfold WebApp.is_running. keeps_walk. Qed.

Lemma settings_launch cmd dir nb :
  keeps (same_on settings) (WebApp.launch cmd dir nb).
Proof. unfold WebApp.launch. pose proof settings_is_running. keeps_walk. Qed.

Lemma open_file_is_running :
  keeps (same_on (fun a => WebApp.open_file (WebApp.manager a)))
    WebApp.is_running.
Proof. unfold WebApp.is_running. keeps_walk. Qed.

Lemma open_file_launch cmd dir nb :
  keeps (same_on (fun a => WebApp.open_file (WebApp.manager a)))
    (WebApp.launch cmd dir nb).
Proof. unfold WebApp.launch. pose proof open_file_is_running. keeps_walk. Qed.

Global Hint Resolve settings_is_running settings_launch open_file_launch
  : keeps.

(** Whatever becomes of it, [start_body] has put the request's port and
    notebook flag into the manager, and left [CONFIG] and the protection
    settings alone. *)
Lemma start_body_settings (st : WebApp.App * World)
    (p : option Z) (py dir : pyval) (nb : option bool) (file : option string) :
  settings (fst (snd (WebApp.start_body p py dir nb file st)))
  = settings (requested p py dir nb file (fst st)).
Proof.
  change (wp (WebApp.start_body p py dir nb file)
            (fun _ st' => settings (fst st')
                          = settings (requested p py dir nb file (fst st)))
            st).
  destruct st as [a w].
  unfold WebApp.start_body. apply wp_bind, wp_get. cbn [fst].
  apply wp_bind, wp_modify. cbn [fst snd].
  set (st0 := (WebApp.on_manager _ a, w)).
  assert (same_on settings st0 st0) as H by reflexivity.
  revert H. generalize st0 at 2 3. intros st1 H.
  unfold when.
  repeat first
    [ rel_step (same_on settings) st0
    | match goal with
      | |- wp _ _ ?st =>
          lazymatch goal with
          | H : same_on settings st0 st |- _ => fail
          | _ => idtac
          end;
          assert (same_on settings st0 st)
            by (unfold same_on, settings in *; cbn in *; congruence)
      end ].
  all: subst st0; unfold same_on, requested, effective_notebook, settings in *.
  all: cbn in *; congruence.
Qed.


Abbreviation file_kept :=
  (same_on (fun app : WebApp.App => WebApp.open_file (WebApp.manager app))).

Lemma start_body_without_file_keeps_none (st : WebApp.App * World)
    (p : option Z) (py dir : pyval) (nb : option bool) :
  WebApp.open_file
    (WebApp.manager (fst (snd (WebApp.start_body p py dir nb None st))))
  = None.
Proof.
  change (wp (WebApp.start_body p py dir nb None)
            (fun _ st' => WebApp.open_file (WebApp.manager (fst st')) = None)
            st).
  destruct st as [a w].
  unfold WebApp.start_body. apply wp_bind, wp_get. cbn [fst].
  apply wp_bind, wp_modify. cbn [fst snd].
  set (st0 := (WebApp.on_manager _ a, w)).
  assert (file_kept st0 st0) as H by reflexivity.
  revert H. generalize st0 at 2 3. intros st1 H.
  unfold when, WebApp.opt_truthy.
  repeat first
    [ rel_step constr:(file_kept) st0
    | match goal with
      | |- wp _ _ ?st =>
          lazymatch goal with
          | H : same_on _ st0 st |- _ => fail
          | _ => idtac
          end;
          assert (file_kept st0 st)
            by (subst st0; unfold same_on, WebApp.build_command in *;
                cbn in *;
                repeat match goal with
                       | E : WebApp.open_file _ = None, E' : context [WebApp.open_file _] |- _ =>
                           rewrite E in E'
                       end;
                cbn in *; simplify_eq; cbn; congruence)
      end ].
  all: subst st0; unfold same_on in *; cbn in *; congruence.
Qed.

Lemma restart_unfold (st : WebApp.App * World) :
  WebApp.process (WebApp.manager (fst (snd (WebApp.stop st)))) = None ->
  WebApp.restart_jupyter st
  = WebApp.start_body None PNone PNone None None
      (snd (sleep 2000 (snd (WebApp.stop st)))).
Proof.
  intros Hp. unfold WebApp.restart_jupyter, bind at 1.
  destruct (WebApp.stop st) as [r1 [a1 w1]]. cbn [fst snd] in *.
  unfold bind at 1. unfold sleep at 1, in_world at 1. cbn [fst snd].
  unfold WebApp.start, bind at 1.
  rewrite is_running_no_process by exact Hp. reflexivity.
Qed.


Lemma cleaned_truthy (v : pyval) (c : string) :
  WebApp.cleaned v = Some c -> c <> EmptyString -> truthy v = true.
Proof.
  destruct v; try discriminate. cbn. intros [= <-] Hc.
  destruct s; [by destruct Hc | reflexivity].
Qed.

Lemma start_jupyter_path (parent : string -> string)
    (data : gmap string pyval) (st : WebApp.App * World) (py : pyval)
    (c : string) :
  let pf := platform (snd st) in
  WebApp.cleaned_python (WebApp.data_get data "python_executable") = Some py ->
  WebApp.cleaned (WebApp.requested_path data) = Some c ->
  c <> EmptyString ->
  WebApp.start_jupyter parent data st
  = if negb (path_exists pf c)
    then (WebApp.Json (failure ("指定路径不存在: " +:+ c)), st)
    else
      let port := WebApp.requested_port (fst st) data in
      let nb := default (PBool false) (data !! "use_notebook") in
      if is_file pf c
      then WebApp.call_start port py nb (PStr (parent c))
             (Some (resolve pf c)) st
      else if is_dir pf c
      then WebApp.call_start port py nb (PStr (resolve pf c)) None st
      else (WebApp.Json (failure ("无法识别的路径类型: " +:+ c)), st).
Proof.
  destruct st as [a w]. cbn zeta. cbn [fst snd]. intros Hpy Hc Hne.
  pose proof (cleaned_truthy _ _ Hc Hne) as Ht.
  apply PyFacts.str_truthy_spec in Hne.
  unfold WebApp.start_jupyter, bind, get, get_world, ret. cbn [fst snd].
  rewrite Hpy, Ht, Hc, Hne.
  destruct (path_exists (platform w) c); cbn [negb]; [| reflexivity].
  destruct (is_file (platform w) c); [reflexivity |].
  by destruct (is_dir (platform w) c).
Qed.

Lemma start_jupyter_no_path (parent : string -> string)
    (data : gmap string pyval) (st : WebApp.App * World) (py : pyval) :
  WebApp.cleaned_python (WebApp.data_get data "python_executable") = Some py ->
  truthy (WebApp.requested_path data) = false ->
  WebApp.start_jupyter parent data st
  = WebApp.call_start (WebApp.requested_port (fst st) data) py
      (default (PBool false) (data !! "use_notebook")) PNone None st.
Proof.
  destruct st as [a w]. cbn [fst snd]. intros Hpy Ht.
  unfold WebApp.start_jupyter, bind, get, get_world, ret. cbn [fst snd].
  by rewrite Hpy, Ht.
Qed.

Lemma start_jupyter_attribute_error (parent : string -> string)
    (data : gmap string pyval) (st : WebApp.App * World) :
  WebApp.cleaned_python (WebApp.data_get data "python_executable") = None \/
  (truthy (WebApp.requested_path data) = true /\
   WebApp.cleaned (WebApp.requested_path data) = None) ->
  exists resp,
    WebApp.start_jupyter parent data st = (resp, st) /\
    forall r, resp <> WebApp.Json r.
Proof.
  destruct st as [a w]. intros H.
  unfold WebApp.start_jupyter, bind, get, get_world, ret. cbn [fst snd].
  destruct (WebApp.cleaned_python _) as [py|] eqn:Hpy.
  - destruct H as [H | [Ht Hc]]; [discriminate |].
    rewrite Ht, Hc. eexists. split; [reflexivity | discriminate].
  - eexists. split; [reflexivity | discriminate].
Qed.

Lemma requested_path_precedence (data : gmap string pyval) :
  (truthy (WebApp.data_get data "project_dir") = true ->
   WebApp.requested_path data = WebApp.data_get data "project_dir") /\
  (truthy (WebApp.data_get data "project_dir") = false ->
   truthy (WebApp.data_get data "work_dir") = true ->
   WebApp.requested_path data = WebApp.data_get data "work_dir").
Proof.
  unfold WebApp.requested_path, WebApp.py_or.
  split; [intros -> | intros -> ->]; reflexivity.
Qed.

Lemma save_config_manager (st : WebApp.App * World)
    (config : gmap string pyval) :
  let pf := platform (snd st) in
  let merged := config ∪ WebApp.CONFIG (fst st) in
  let r := WebApp.save_config config st in
  supplied_ok pf config "python_executable" is_file ->
  supplied_ok pf config "project_dir" is_dir ->
  WebApp.CONFIG (fst (snd r)) = merged /\
  (fst (next true (write_answers (snd st))) = true ->
   success (fst r) = true /\
   WebApp.manager (fst (snd r))
   = WebApp.set_project_dir
       (WebApp.config_get merged "project_dir" (PStr (cwd pf)))
       (WebApp.set_python_executable
          (WebApp.config_get merged "python_executable"
             (PStr (sys_executable pf)))
          (WebApp.manager (fst st)))) /\
  (fst (next true (write_answers (snd st))) = false ->
   success (fst r) = false /\
   WebApp.manager (fst (snd r)) = WebApp.manager (fst st) /\
   events (snd (snd r)) = events (snd st)).
Proof.
  destruct st as [a w]. cbn [fst snd]. cbn zeta. intros Hpy Hdir.
  destruct (WebApp.save_config config (a, w)) as [res [a' w']] eqn:E.
  unfold WebApp.save_config, bind at 1 in E. unfold get_world in E.
  cbn [fst snd] in E.
  rewrite (check_path_ok _ _ _ _ _ Hpy), (check_path_ok _ _ _ _ _ Hdir) in E.
  unfold bind, ret, get, modify, write_file, in_world in E. cbn in E.
  destruct (next true (write_answers w)) as [[] rest]; cbn in E;
    injection E as <- <- <-; cbn; split_and!; try done; auto.
Qed.

(** *** Stopping *)

(** X17.  A [stop] that reports success held a process object; it left
    the manager as it was except for [process] and [start_time], which
    are cleared; it asked the child to end the platform's way (terminate
    on Windows, SIGTERM elsewhere) and used force (kill, or a kill of
    the process group) exactly when the five second wait timed out.
    Right after, the probe answers [False] without asking the system,
    and a second [stop] gets the not-running failure. *)
Theorem web_stop_clears_handle (st : WebApp.App * World) :
  let r := WebApp.stop st in
  success (fst r) = true ->
  (exists pid,
     WebApp.process (WebApp.manager (fst st)) = Some pid /\
     fst r = done_ok WebApp.stopped_message /\
     fst (snd r)
     = WebApp.on_manager
         (fun m => WebApp.set_start_time None (WebApp.set_process None m))
         (fst st) /\
     events (snd (snd r))
     = (if fst (next true (wait_answers (snd st))) then []
        else [if is_windows (platform (snd st))
              then EvKill pid else EvKillGroup pid])
       ++ (if is_windows (platform (snd st))
           then EvTerminate pid else EvSignal pid SIGTERM)
       :: events (snd st)) /\
  WebApp.is_running (snd r) = (false, snd r) /\
  WebApp.stop (snd r) = (failure WebApp.not_running_message, snd r).
Proof.
  cbn zeta. intros Hs.
  pose proof (stop_leaves_no_process st (or_introl Hs)) as Hp.
  cbn zeta in Hp.
  pose proof (is_running_no_process _ Hp) as Hprobe.
  split_and!.
  - exact (web_stop_success st Hs).
  - exact Hprobe.
  - rewrite stop_not_running; by rewrite Hprobe.
Qed.

Lemma web_stop_example :
  WebApp.stop (snd (WebApp.stop (Scenario.running_web,
                                 Scenario.obedient_child)))
  = (failure WebApp.not_running_message,
     snd (WebApp.stop (Scenario.running_web, Scenario.obedient_child))).
Proof.
  destruct (web_stop_clears_handle
              (Scenario.running_web, Scenario.obedient_child)) as (_ & _ & H).
  - reflexivity.
  - exact H.
Defined.

(** *** Starting *)

(** X18.  A [start] that gets past the running check and then finds the
    interpreter missing, or the project path missing or no directory,
    fails with the message for that path and spawns nothing; by then the
    manager already holds the request's port, interpreter, directory,
    notebook flag and file. *)
Theorem web_start_rejects_bad_paths (st : WebApp.App * World)
    (p : option Z) (py dir : pyval) (nb : option bool) (file : option string)
    (python : string) :
  let pf := platform (snd st) in
  let m := WebApp.manager (fst st) in
  let st1 := snd (WebApp.is_running st) in
  let kept := (requested p py dir nb file (fst st1), snd st1) in
  fst (WebApp.is_running st) = false ->
  WebApp.py_or py (WebApp.python_executable m) = PStr python ->
  events (snd st1) = events (snd st) /\
  (path_exists pf python = false ->
   WebApp.start p py dir nb file st
   = (failure ("Python 解释器不存在: " +:+ python), kept)) /\
  (forall given,
     path_exists pf python = true ->
     WebApp.py_or dir (WebApp.project_dir m) = PStr given ->
     is_dir pf (expanduser pf given) = false ->
     exists msg,
       WebApp.start p py dir nb file st = (failure (msg +:+ given), kept)).
Proof.
  cbn zeta. intros Hrun Hpy.
  destruct (web_probe_frame st) as (_ & _ & Hpy1 & Hdir1 & _ & Hpf & _ & Hev).
  cbn zeta in *.
  split_and!.
  - exact Hev.
  - intros Hex. rewrite (start_stale st p py dir nb file Hrun).
    apply start_body_missing_interpreter.
    + by rewrite Hpy1.
    + by rewrite Hpf.
  - intros given Hex Hdir Hnd.
    rewrite (start_stale st p py dir nb file Hrun).
    apply (start_body_missing_directory _ p py dir nb file python given).
    + by rewrite Hpy1.
    + by rewrite Hpf.
    + by rewrite Hdir1.
    + by rewrite Hpf.
Qed.

Lemma web_start_missing_python_example :
  WebApp.start (Some 9000%Z) (PStr "/no/such/python") PNone None None
    (Scenario.fresh_web, Scenario.quiet)
  = (failure ("Python 解释器不存在: " +:+ "/no/such/python"),
     (requested (Some 9000%Z) (PStr "/no/such/python") PNone None None
        Scenario.fresh_web, Scenario.quiet)).
Proof.
  destruct (web_start_rejects_bad_paths (Scenario.fresh_web, Scenario.quiet)
              (Some 9000%Z) (PStr "/no/such/python") PNone None None
              "/no/such/python") as (_ & H & _).
  - reflexivity.
  - reflexivity.
  - apply H. reflexivity.
Defined.

(** X19.  A [start] with a file to open that is a regular file lying
    under the project directory: the command it launches is the base
    command followed by one default-url argument, the notebook prefix
    and the file's path relative to the project directory. *)
Theorem web_start_opens_file_under_root (st : WebApp.App * World)
    (p : option Z) (py dir : pyval) (nb : option bool) (f : string)
    (python given rel : string) :
  let pf := platform (snd st) in
  let m := WebApp.manager (fst st) in
  fst (WebApp.is_running st) = false ->
  WebApp.py_or py (WebApp.python_executable m) = PStr python ->
  path_exists pf python = true ->
  WebApp.py_or dir (WebApp.project_dir m) = PStr given ->
  is_dir pf (expanduser pf given) = true ->
  f <> EmptyString ->
  is_file pf (expanduser pf f) = true ->
  resolve pf (expanduser pf f) <> EmptyString ->
  relative_to pf (resolve pf (expanduser pf f))
    (resolve pf (expanduser pf given)) = Some rel ->
  let root := resolve pf (expanduser pf given) in
  let use_nb := effective_notebook nb (fst st) in
  let cmd :=
    WebApp.base_command python root (WebApp.int_or p (WebApp.port m)) use_nb
    ++ ["--ServerApp.default_url="
        +:+ (if use_nb then "/tree" else "/lab/tree") +:+ "/" +:+ rel] in
  exists l,
    events (snd (snd (WebApp.start p py dir nb (Some f) st)))
    = l ++ match fst (next None (popen_answers (snd st))) with
           | Some pid => EvSpawn cmd root pid
           | None => EvSpawnFailed cmd root
           end :: events (snd st).
Proof.
  cbn zeta. intros Hrun Hpy Hex Hdir Hisdir Hf Hfile Hres Hrel.
  destruct (web_probe_frame st)
    as (Hcfg & Hport & Hpy1 & Hdir1 & _ & Hpf & Hpo & Hev).
  cbn zeta in *.
  rewrite (start_stale st p py dir nb (Some f) Hrun).
  destruct (start_body_opens_file (snd (WebApp.is_running st)) p py dir nb f
              python given rel) as [l Hl].
  all: rewrite ?Hpy1, ?Hdir1, ?Hpf; try assumption.
  exists l. rewrite Hl, Hpo, Hev, Hpf, Hport.
  unfold effective_notebook. by rewrite Hcfg.
Qed.

Lemma web_start_opens_intro_notebook :
  exists l,
    events (snd (snd (WebApp.start None PNone PNone None
                        (Some "/srv/notebooks/intro.ipynb")
                        (Scenario.fresh_web, Scenario.healthy_child))))
    = l ++ [EvSpawn
              (WebApp.base_command "/usr/bin/python3" "/srv/notebooks" 8888
                 false
               ++ ["--ServerApp.default_url=/lab/tree/intro.ipynb"])
              "/srv/notebooks" 101].
Proof.
  apply (web_start_opens_file_under_root
           (Scenario.fresh_web, Scenario.healthy_child)
           None PNone PNone None "/srv/notebooks/intro.ipynb"
           "/usr/bin/python3" "/srv/notebooks" "intro.ipynb").
  - reflexivity.
  - reflexivity.
  - reflexivity.
  - reflexivity.
  - reflexivity.
  - discriminate.
  - reflexivity.
  - discriminate.
  - reflexivity.
Defined.

(** X20.  A [start] that reports success was not refused as already
    running, holds the child it spawned last, has the counter at 0 and a
    start time, and its reply describes the manager: the pid of that
    child, the port in use (the requested one, or the stored one), the
    URL made of that port and of the notebook flag, and the file to
    open. *)
Theorem web_start_success_postcondition (st : WebApp.App * World)
    (p : option Z) (py dir : pyval) (nb : option bool) (file : option string) :
  let r := WebApp.start p py dir nb file st in
  let m := WebApp.manager (fst (snd r)) in
  success (fst r) = true ->
  fst (WebApp.is_running st) = false /\
  exists pid l,
    launch (fst r) = Some l /\
    WebApp.process m = Some pid /\
    l_pid l = Some pid /\
    hd_error (spawned (events (snd (snd r)))) = Some pid /\
    WebApp.restart_count m = 0%Z /\
    is_Some (WebApp.start_time m) /\
    WebApp.port m = WebApp.int_or p (WebApp.port (WebApp.manager (fst st))) /\
    WebApp.use_notebook m = effective_notebook nb (fst st) /\
    l_port l = WebApp.port m /\
    l_url l = "http://localhost:" +:+ pretty (WebApp.port m)
              +:+ (if WebApp.use_notebook m then "/tree" else "/lab") /\
    l_open_file l = WebApp.open_file m /\
    l_auto_restart l = WebApp.auto_restart (WebApp.manager (fst st)) /\
    WebApp.CONFIG (fst (snd r)) = WebApp.CONFIG (fst st).
Proof.
  cbn zeta. intros Hs.
  destruct (fst (WebApp.is_running st)) eqn:Hrun.
  - rewrite (start_already_running st p py dir nb file Hrun) in Hs.
    discriminate Hs.
  - split; [reflexivity |].
    destruct (web_probe_frame st) as (Hcfg & Hport & _ & _ & Har & _).
    cbn zeta in *.
    rewrite (start_stale st p py dir nb file Hrun) in *.
    pose proof (start_body_success _ p py dir nb file Hs) as H.
    unfold started_with in H. cbn zeta in H.
    destruct H as (pid & l & H).
    exists pid, l. unfold effective_notebook in *.
    rewrite Hcfg, Hport, Har in H. exact H.
Qed.

Lemma web_start_success_example :
  let r := WebApp.start None PNone PNone None None
             (Scenario.fresh_web, Scenario.healthy_child) in
  WebApp.restart_count (WebApp.manager (fst (snd r))) = 0%Z.
Proof.
  destruct (web_start_success_postcondition
              (Scenario.fresh_web, Scenario.healthy_child)
              None PNone PNone None None) as (_ & pid & l & H).
  - reflexivity.
  - apply H.
Defined.

(** *** Status *)

(** X21.  [get_status] probes the child up to three times and touches
    nothing else.  Its [running] is the answer of the first probe.  A
    status that says not running has no URL, no pid and uptime 0; a
    status with a URL says running, has a pid, and the URL is made of
    the manager's port and notebook flag.  Port, file to open and
    protection label are read off the manager. *)
Theorem web_get_status_consistent (st : WebApp.App * World) :
  let r := WebApp.get_status st in
  let status := fst r in
  let m := WebApp.manager (fst st) in
  WebApp.s_running status = fst (WebApp.is_running st) /\
  (WebApp.s_running status = false ->
   WebApp.s_url status = None /\ WebApp.s_pid status = None /\
   WebApp.s_uptime status = 0%Z) /\
  (forall u, WebApp.s_url status = Some u ->
     WebApp.s_running status = true /\ is_Some (WebApp.s_pid status) /\
     u = "http://localhost:" +:+ pretty (WebApp.port m)
         +:+ (if WebApp.use_notebook m then "/tree" else "/lab")) /\
  WebApp.s_port status = WebApp.port m /\
  WebApp.s_open_file status = WebApp.open_file m /\
  WebApp.s_process_protection status
  = (if WebApp.auto_restart m then "enabled" else "disabled") /\
  events (snd (snd r)) = events (snd st).
Proof. exact (web_get_status_fields st). Qed.

Lemma web_get_status_stopped :
  let status := fst (WebApp.get_status (Scenario.fresh_web, Scenario.quiet)) in
  WebApp.s_url status = None /\ WebApp.s_pid status = None /\
  WebApp.s_uptime status = 0%Z.
Proof.
  destruct (web_get_status_consistent (Scenario.fresh_web, Scenario.quiet))
    as (_ & H & _).
  apply H. reflexivity.
Defined.

(** *** The request handlers *)

(** X22.  [POST /api/restart] after a stop that succeeded, or that found
    nothing running: the start that follows is never refused as already
    running, it runs the body of [start] two seconds later with no
    arguments.  Whatever becomes of it, the manager then has the stored
    port, the notebook flag of [CONFIG] and no file to open. *)
Theorem web_restart_uses_stored_settings (st : WebApp.App * World) :
  let r1 := WebApp.stop st in
  let r := WebApp.restart_jupyter st in
  let m := WebApp.manager (fst (snd r)) in
  success (fst r1) = true \/ fst (WebApp.is_running st) = false ->
  r = WebApp.start_body None PNone PNone None None
        (snd (sleep 2000 (snd r1))) /\
  WebApp.port m = WebApp.port (WebApp.manager (fst st)) /\
  WebApp.use_notebook m
  = truthy (WebApp.config_get (WebApp.CONFIG (fst st)) "use_notebook"
              (PBool false)) /\
  WebApp.open_file m = None.
Proof.
  cbn zeta. intros H.
  pose proof (stop_leaves_no_process st H) as Hp. cbn zeta in Hp.
  rewrite (restart_unfold st Hp).
  pose proof (start_body_settings (snd (sleep 2000 (snd (WebApp.stop st))))
                None PNone PNone None None) as Hset.
  pose proof (start_body_without_file_keeps_none
                (snd (sleep 2000 (snd (WebApp.stop st)))) None PNone PNone None)
    as Hfile.
  assert (settings (fst (snd (WebApp.stop st))) = settings (fst st)) as Hstop.
  { destruct H as [Hs | Hf].
    - by destruct (web_stop_success st Hs) as (pid & _ & _ & -> & _).
    - rewrite (stop_not_running st Hf). cbn [snd].
      exact (settings_is_running st). }
  split_and!; [reflexivity | | | exact Hfile].
  all: unfold settings, requested, effective_notebook, sleep, in_world in *.
  all: cbn [fst snd] in *.
  all: destruct (WebApp.stop st) as [r1 [a1 w1]]; cbn in *.
  all: congruence.
Qed.

Lemma web_restart_example :
  WebApp.open_file
    (WebApp.manager
       (fst (snd (WebApp.restart_jupyter
                    (Scenario.running_web, Scenario.obedient_child)))))
  = None.
Proof.
  destruct (web_restart_uses_stored_settings
              (Scenario.running_web, Scenario.obedient_child))
    as (_ & _ & _ & H).
  - left. reflexivity.
  - exact H.
Defined.





(** X25.  [POST /api/save_config] with acceptable paths merges the
    request into [CONFIG] before it writes the file.  When the write
    succeeds the manager's interpreter and project directory become
    those of the merged [CONFIG] (the interpreter running the server
    and the current directory when it has none) and nothing else in the
    manager changes.  When the write fails the reply is a failure, the
    manager is untouched, and [CONFIG] stays merged in memory. *)
Theorem save_config_updates_manager (st : WebApp.App * World)
    (config : gmap string pyval) :
  let pf := platform (snd st) in
  let merged := config ∪ WebApp.CONFIG (fst st) in
  let r := WebApp.save_config config st in
  supplied_ok pf config "python_executable" is_file ->
  supplied_ok pf config "project_dir" is_dir ->
  WebApp.CONFIG (fst (snd r)) = merged /\
  (fst (next true (write_answers (snd st))) = true ->
   success (fst r) = true /\
   WebApp.manager (fst (snd r))
   = WebApp.set_project_dir
       (WebApp.config_get merged "project_dir" (PStr (cwd pf)))
       (WebApp.set_python_executable
          (WebApp.config_get merged "python_executable"
             (PStr (sys_executable pf)))
          (WebApp.manager (fst st)))) /\
  (fst (next true (write_answers (snd st))) = false ->
   success (fst r) = false /\
   WebApp.manager (fst (snd r)) = WebApp.manager (fst st) /\
   events (snd (snd r)) = events (snd st)).
Proof. exact (save_config_manager st config). Qed.

Lemma save_config_failed_write :
  let r := WebApp.save_config Scenario.good_paths
             (Scenario.fresh_web, with_write [false] Scenario.quiet) in
  success (fst r) = false /\
  WebApp.manager (fst (snd r)) = WebApp.manager Scenario.fresh_web /\
  events (snd (snd r)) = [].
Proof.
  destruct (save_config_updates_manager
              (Scenario.fresh_web, with_write [false] Scenario.quiet)
              Scenario.good_paths) as (_ & _ & H).
  - vm_compute. auto.
  - vm_compute. auto.
  - apply H. reflexivity.
Defined.

(** *** The protection loop *)



(** X27.  web_app's protection loop entered with the restart counter at
    or above the limit adds nothing to the trace, however long it runs:
    no restart attempt, no spawn, no signal; counter and limit stay as
    they are. *)
Theorem web_protection_idle_once_limit_reached (n : nat) (cf cs : Z)
    (st : WebApp.App * World) :
  let count a := WebApp.restart_count (WebApp.manager a) in
  let limit a := WebApp.max_restarts (WebApp.manager a) in
  (limit (fst st) <= count (fst st))%Z ->
  let st' := snd (WebApp._process_protection n cf cs st) in
  events (snd st') = events (snd st) /\
  count (fst st') = count (fst st) /\
  limit (fst st') = limit (fst st).
Proof.
  cbn zeta. intros H.
  exact (web_protection_idle_at_limit n cf cs st st H (reflexivity st)).
Qed.

Lemma web_protection_idle_example :
  let st := (WebApp.on_manager (WebApp.set_restart_count 3)
               Scenario.running_web, Scenario.dying_children_web) in
  let st' := snd (WebApp._process_protection 5 0 0 st) in
  events (snd st') = [] /\
  WebApp.restart_count (WebApp.manager (fst st')) = 3%Z /\
  WebApp.max_restarts (WebApp.manager (fst st')) = 3%Z.
Proof.
  apply (web_protection_idle_once_limit_reached 5 0 0
           (WebApp.on_manager (WebApp.set_restart_count 3)
              Scenario.running_web, Scenario.dying_children_web)).
  vm_compute. discriminate.
Defined.

End WebAppProps.

(** ** backend_api.py: the configuration store *)

Module BackendProps.

(** X28.  [POST /api/save_config] followed by [GET /api/load_config] in
    backend_api.py: the loaded dict holds every key of the saved body
    with the body's value and every other key with the value it had
    before, so a save overwrites and adds keys and never removes one.
    Neither handler touches the manager or the world. *)
Theorem backend_save_then_load (config : gmap string pyval)
    (st : BackendApi.Server * World) :
  let st1 := snd (BackendApi.save_config config st) in
  let r := BackendApi.load_config st1 in
  fst (fst r) = (200%Z, done_ok "配置加载成功") /\
  snd r = st1 /\
  (forall k, snd (fst r) !! k
             = match config !! k with
               | Some v => Some v
               | None => BackendApi.config_storage (fst st) !! k
               end) /\
  dom (BackendApi.config_storage (fst st)) ⊆ dom (snd (fst r)) /\
  BackendApi.manager (fst st1) = BackendApi.manager (fst st) /\
  snd st1 = snd st.
Proof.
  destruct st as [s w].
  unfold BackendApi.save_config, BackendApi.load_config, bind, ret, get,
    modify.
  cbn. split_and!; try reflexivity.
  - intros k. rewrite lookup_union.
    by destruct (config !! k), (BackendApi.config_storage s !! k).
  - rewrite dom_union_L. set_solver.
Qed.

End BackendProps.
